(** * fLink core module: device/subdevice registry, scanner, session
      forwarding and interrupt registration.

    Shallow embedding of [flink_core.c], [flink.h] and the AXI bus
    backend [zynq/flink_axi.c].

    Conventions.
    - C integers of width w are values of [Z]; every place where the C code
      stores into, or computes in, an unsigned w-bit type is wrapped with
      [u8], [u16] or [u32].
    - Kernel linked lists ([struct list_head]) are Rocq lists; [list_add]
      inserts at the head, [list_for_each_entry] walks from the head.
    - Pointers that the code tests against NULL are [option]s.  A function
      that dereferences such a pointer without a test returns [None] when
      the pointer is NULL (the behaviour is undefined there).
    - Mutexes and spinlocks are not represented: every function below is
      one uninterrupted call.
    - Bus accesses are recorded, in order, in a list of [bus_access]. *)

From Stdlib Require Import ZArith List Bool Lia.
Import ListNotations.
Local Open Scope Z_scope.

(** ** Machine integers *)

Definition u8 (x : Z) : Z := x mod 2 ^ 8.
Definition u16 (x : Z) : Z := x mod 2 ^ 16.
Definition u32 (x : Z) : Z := x mod 2 ^ 32.

(** The value of a 32-bit [int] that receives [x]: the conversion from an
    unsigned type wraps, as GCC defines it. *)
Definition s32 (x : Z) : Z :=
  if u32 x <? 2 ^ 31 then u32 x else u32 x - 2 ^ 32.

(** ** Constants of [flink.h] and the errno values used by the core *)

Definition UNKOWN_ERROR : Z := -1.
Definition MAX_NOF_SUBDEVICES : Z := 256.
Definition MAIN_HEADER_SIZE : Z := 16.
Definition SUB_HEADER_SIZE : Z := 16.
Definition SUBDEV_FUNCTION_OFFSET : Z := 0.
Definition SUBDEV_SIZE_OFFSET : Z := 4.
Definition SUBDEV_NOFCHANNELS_OFFSET : Z := 8.
Definition SUBDEV_UNIQUE_ID_OFFSET : Z := 12.
Definition INFO_FUNCTION_ID : Z := 0.

(** Linux [errno-base.h]. *)
Definition EPERM : Z := 1.
Definition ENOMEM : Z := 12.
Definition EINVAL : Z := 22.

(** ** Data structures of [flink.h] *)

(** [struct flink_subdevice], without the list linkage and the parent
    pointer (a subdevice is only ever reached through its device). *)
Record flink_subdevice : Type := {
  sd_id : Z;               (* u8  id *)
  function_id : Z;         (* u16 *)
  sub_function_id : Z;     (* u8 *)
  function_version : Z;    (* u8 *)
  base_addr : Z;           (* u32 *)
  mem_size : Z;            (* u32 *)
  nof_channels : Z;        (* u32 *)
  unique_id : Z            (* u32 *)
}.

(** The part of [struct task_struct] the core looks at. *)
Record task_struct : Type := { pid : Z }.

(** [struct flink_process_data]. *)
Record flink_process_data : Type := { user_task : task_struct }.

(** [struct flink_irq_data]; the field [flink_process_data] of the C struct
    is [process_list] here. *)
Record flink_irq_data : Type := {
  process_list : list flink_process_data;
  irq_nr : Z;
  signal_count : Z;
  signal_nr_with_offset : Z;
  irq_nr_with_offset : Z
}.

(** One access made through [struct flink_bus_ops]. *)
Inductive bus_access : Type :=
| Rd8 (addr : Z)
| Rd16 (addr : Z)
| Rd32 (addr : Z)
| Wr8 (addr val : Z)
| Wr16 (addr val : Z)
| Wr32 (addr val : Z).

(** [struct flink_bus_ops] over the backend's private [bus_data].  Reads
    return the value found; writes return the backend data after the
    write. *)
Record flink_bus_ops (bus_data : Type) : Type := {
  read8 : bus_data -> Z -> Z;
  read16 : bus_data -> Z -> Z;
  read32 : bus_data -> Z -> Z;
  write8 : bus_data -> Z -> Z -> bus_data;
  write16 : bus_data -> Z -> Z -> bus_data;
  write32 : bus_data -> Z -> Z -> bus_data;
  address_space_size : bus_data -> Z
}.
Arguments read8 {bus_data}.
Arguments read16 {bus_data}.
Arguments read32 {bus_data}.
Arguments write8 {bus_data}.
Arguments write16 {bus_data}.
Arguments write32 {bus_data}.
Arguments address_space_size {bus_data}.

(** [struct flink_device]; the fields for the character device, sysfs and
    the owning module are left out. *)
Record flink_device (bus_data : Type) : Type := {
  dev_id : Z;                            (* u8 id *)
  nof_subdevices : Z;                    (* u8 *)
  subdevices : list flink_subdevice;
  bus_ops : flink_bus_ops bus_data;
  dev_bus_data : bus_data;
  hw_irq_data : list flink_irq_data;
  nof_irqs : Z;
  irq_offset : Z;
  signal_offset : Z
}.
Arguments dev_id {bus_data}.
Arguments nof_subdevices {bus_data}.
Arguments subdevices {bus_data}.
Arguments bus_ops {bus_data}.
Arguments dev_bus_data {bus_data}.
Arguments hw_irq_data {bus_data}.
Arguments nof_irqs {bus_data}.
Arguments irq_offset {bus_data}.
Arguments signal_offset {bus_data}.

(** [struct flink_private_data]: the per-handle session. *)
Record flink_private_data (bus_data : Type) : Type := {
  fdev : option (flink_device bus_data);
  current_subdevice : option flink_subdevice
}.
Arguments fdev {bus_data}.
Arguments current_subdevice {bus_data}.

(** The part of [struct file] the core uses. *)
Record file (bus_data : Type) : Type := {
  private_data : option (flink_private_data bus_data)
}.
Arguments private_data {bus_data}.

(** [struct ioctl_bit_container_t]. *)
Record ioctl_bit_container_t : Type := {
  bc_offset : Z;      (* uint32_t offset *)
  bc_bit : Z;         (* uint8_t bit *)
  bc_value : Z;       (* uint8_t value *)
  bc_subdevice : Z    (* uint8_t subdevice *)
}.

(** [struct ioctl_container_t]; [c_data] is the user pointer, 0 for NULL. *)
Record ioctl_container_t : Type := {
  c_subdevice : Z;    (* uint8_t *)
  c_offset : Z;       (* uint32_t *)
  c_size : Z;         (* uint8_t *)
  c_data : Z          (* void* *)
}.

Section Core.

Context {bus_data : Type}.

Local Abbreviation device := (flink_device bus_data).

(** ** Access to the bus through the device's [bus_ops] *)

Definition bus_read8 (d : device) (addr : Z) : Z :=
  u8 (read8 (bus_ops d) (dev_bus_data d) (u32 addr)).
Definition bus_read16 (d : device) (addr : Z) : Z :=
  u16 (read16 (bus_ops d) (dev_bus_data d) (u32 addr)).
Definition bus_read32 (d : device) (addr : Z) : Z :=
  u32 (read32 (bus_ops d) (dev_bus_data d) (u32 addr)).

Definition set_bus_data (d : device) (b : bus_data) : device :=
  {| dev_id := dev_id d; nof_subdevices := nof_subdevices d;
     subdevices := subdevices d; bus_ops := bus_ops d; dev_bus_data := b;
     hw_irq_data := hw_irq_data d; nof_irqs := nof_irqs d;
     irq_offset := irq_offset d; signal_offset := signal_offset d |}.

Definition bus_write8 (d : device) (addr val : Z) : device :=
  set_bus_data d (write8 (bus_ops d) (dev_bus_data d) (u32 addr) (u8 val)).
Definition bus_write16 (d : device) (addr val : Z) : device :=
  set_bus_data d (write16 (bus_ops d) (dev_bus_data d) (u32 addr) (u16 val)).
Definition bus_write32 (d : device) (addr val : Z) : device :=
  set_bus_data d (write32 (bus_ops d) (dev_bus_data d) (u32 addr) (u32 val)).

Definition bus_address_space_size (d : device) : Z :=
  u32 (address_space_size (bus_ops d) (dev_bus_data d)).

(** ** Subdevice registry *)

(** [flink_subdevice_add]: the id is the device's subdevice count, which is
    then incremented in its [u8] field; the subdevice goes to the head of
    the list.  Returns the id and the device. *)
Definition flink_subdevice_add (d : device) (fsubdev : flink_subdevice)
  : Z * device :=
  let fsubdev' :=
    {| sd_id := u8 (nof_subdevices d);
       function_id := function_id fsubdev;
       sub_function_id := sub_function_id fsubdev;
       function_version := function_version fsubdev;
       base_addr := base_addr fsubdev;
       mem_size := mem_size fsubdev;
       nof_channels := nof_channels fsubdev;
       unique_id := unique_id fsubdev |} in
  (sd_id fsubdev',
   {| dev_id := dev_id d;
      nof_subdevices := u8 (nof_subdevices d + 1);
      subdevices := fsubdev' :: subdevices d;
      bus_ops := bus_ops d; dev_bus_data := dev_bus_data d;
      hw_irq_data := hw_irq_data d; nof_irqs := nof_irqs d;
      irq_offset := irq_offset d; signal_offset := signal_offset d |}).

(** [flink_get_subdevice_by_id]: first subdevice of the list with the id. *)
Definition flink_get_subdevice_by_id (fd : option device) (id : Z)
  : option flink_subdevice :=
  match fd with
  | Some d => find (fun subdev => sd_id subdev =? u8 id) (subdevices d)
  | None => None
  end.

(** ** Subdevice scanner *)

(** Local variables of [scan_for_subdevices] that live across iterations,
    with the device being filled and the bus accesses made so far. *)
Record scan_state : Type := {
  scan_fdev : device;
  subdevice_counter : Z;
  current_address : Z;
  last_address : Z;
  scan_accesses : list bus_access
}.

Inductive loop_exit : Type := Continue | Break.

(** The loop condition of [scan_for_subdevices]. *)
Definition scan_guard (st : scan_state) : bool :=
  (current_address st <? last_address st)
  && (subdevice_counter st <? MAX_NOF_SUBDEVICES).

(** The subdevice built from the header at [current_address] (before
    [flink_subdevice_add] gives it its id). *)
Definition header_subdevice (d : device) (cur : Z) : flink_subdevice :=
  let current_function := bus_read32 d (cur + SUBDEV_FUNCTION_OFFSET) in
  let current_mem_size := bus_read32 d (cur + SUBDEV_SIZE_OFFSET) in
  {| sd_id := 0;
     function_id := u16 (Z.shiftr current_function 16);
     sub_function_id := u8 (Z.land (Z.shiftr current_function 8) 255);
     function_version := u8 (Z.land current_function 255);
     base_addr := cur;
     mem_size := current_mem_size;
     nof_channels := bus_read32 d (cur + SUBDEV_NOFCHANNELS_OFFSET);
     unique_id := bus_read32 d (cur + SUBDEV_UNIQUE_ID_OFFSET) |}.

(** One execution of the loop body of [scan_for_subdevices]. *)
Definition scan_body (st : scan_state) : loop_exit * scan_state :=
  let d := scan_fdev st in
  let cur := current_address st in
  let current_mem_size := bus_read32 d (cur + SUBDEV_SIZE_OFFSET) in
  let header_reads :=
    [Rd32 (u32 (cur + SUBDEV_FUNCTION_OFFSET));
     Rd32 (u32 (cur + SUBDEV_SIZE_OFFSET))] in
  if MAIN_HEADER_SIZE + SUB_HEADER_SIZE <? current_mem_size then
    let new_subdev := header_subdevice d cur in
    let d' := snd (flink_subdevice_add d new_subdev) in
    let body_reads :=
      [Rd32 (u32 (cur + SUBDEV_NOFCHANNELS_OFFSET));
       Rd32 (u32 (cur + SUBDEV_UNIQUE_ID_OFFSET))] in
    let is_info := function_id new_subdev =? INFO_FUNCTION_ID in
    let total_mem_size :=
      bus_read32 d (cur + MAIN_HEADER_SIZE + SUB_HEADER_SIZE) in
    (Continue,
     {| scan_fdev := d';
        subdevice_counter := subdevice_counter st + 1;
        current_address := u32 (cur + current_mem_size);
        last_address :=
          if is_info then u32 (total_mem_size - 1) else last_address st;
        scan_accesses :=
          scan_accesses st ++ header_reads ++ body_reads
          ++ (if is_info
              then [Rd32 (u32 (cur + MAIN_HEADER_SIZE + SUB_HEADER_SIZE))]
              else []) |})
  else
    (Break,
     {| scan_fdev := d;
        subdevice_counter := subdevice_counter st;
        current_address := cur;
        last_address := last_address st;
        scan_accesses := scan_accesses st ++ header_reads |}).

(** The [while] loop; [fuel] bounds the number of iterations, [None] means
    the fuel ran out with the loop condition still true. *)
Fixpoint scan_loop (fuel : nat) (st : scan_state) : option scan_state :=
  if scan_guard st then
    match fuel with
    | O => None
    | S fuel' =>
        match scan_body st with
        | (Break, st') => Some st'
        | (Continue, st') => scan_loop fuel' st'
        end
    end
  else Some st.

Definition scan_init (d : device) : scan_state :=
  {| scan_fdev := d;
     subdevice_counter := 0;
     current_address := 0;
     last_address := u32 (0 + bus_address_space_size d - 1);
     scan_accesses := [] |}.

(** [scan_for_subdevices]: the final loop state; the C function returns its
    [subdevice_counter]. *)
Definition scan_for_subdevices (d : device) : option scan_state :=
  scan_loop (Z.to_nat MAX_NOF_SUBDEVICES) (scan_init d).

(** [flink_device_add]: the id comes from the static counter (stored in the
    [u8] id field), then the device is scanned.  The device list and the
    device node are left out.  Returns the id, the device and the bus
    accesses of the scan. *)
Definition flink_device_add (dev_counter : Z) (d : device)
  : option (Z * device * list bus_access) :=
  let d1 :=
    {| dev_id := u8 dev_counter; nof_subdevices := nof_subdevices d;
       subdevices := subdevices d; bus_ops := bus_ops d;
       dev_bus_data := dev_bus_data d; hw_irq_data := hw_irq_data d;
       nof_irqs := nof_irqs d; irq_offset := irq_offset d;
       signal_offset := signal_offset d |} in
  match scan_for_subdevices d1 with
  | Some st => Some (dev_id d1, scan_fdev st, scan_accesses st)
  | None => None
  end.

(** ** Interrupt line table *)

(** What the kernel answers while [flink_device_init_irq] sets up line
    [i]: whether [kzalloc] gives the [flink_irq_data] and whether
    [request_threaded_irq] installs the handler. *)
Record irq_setup : Type := {
  irq_alloc_ok : Z -> bool;
  irq_request_ok : Z -> bool
}.

(** The [for] loop of [flink_device_init_irq], from line [i] on, for [n]
    more lines; every new [flink_irq_data] is zeroed by [kzalloc] and put
    at the head of the list before its handler is requested.  A failed
    [kzalloc] or [request_threaded_irq] returns from the function with the
    lines created so far. *)
Fixpoint init_irq_entries (env : irq_setup) (n : nat) (i : Z) (irq_off : Z)
  (acc : list flink_irq_data) : list flink_irq_data :=
  match n with
  | O => acc
  | S n' =>
      if negb (irq_alloc_ok env i) then acc
      else
        let irq_data :=
          {| process_list := [];
             irq_nr := i;
             signal_count := 0;
             signal_nr_with_offset := 0;
             irq_nr_with_offset := u32 (irq_off + i) |} in
        if negb (irq_request_ok env i) then irq_data :: acc
        else init_irq_entries env n' (i + 1) irq_off (irq_data :: acc)
  end.

(** [flink_device_init_irq]; the backend's [bus_data], which the C code
    stores right after this call, is passed in.  The two early returns
    print "Disabled IRQ functionality!!!" (not represented) and clear the
    parameter [nof_irq] only: [fdev->nof_irqs], set before the loop, keeps
    the requested number.  The loop counter is an [int]: [nof_irq] is
    meant below [2 ^ 31]. *)
Definition flink_device_init_irq (env : irq_setup)
  (ops : flink_bus_ops bus_data)
  (bd : bus_data) (nof_irq irq_off signal_off : Z) : device :=
  {| dev_id := 0; nof_subdevices := 0; subdevices := [];
     bus_ops := ops; dev_bus_data := bd;
     hw_irq_data := init_irq_entries env (Z.to_nat nof_irq) 0 irq_off [];
     nof_irqs := nof_irq; irq_offset := irq_off;
     signal_offset := signal_off |}.

(** A kernel that grants every allocation and every handler. *)
Definition all_granted : irq_setup :=
  {| irq_alloc_ok := fun _ => true; irq_request_ok := fun _ => true |}.

(** [list_for_each_entry(hwirq, &fdev->hw_irq_data, list)] stopping at the
    first entry with [irq_nr == nr]. *)
Fixpoint find_irq (l : list flink_irq_data) (nr : Z)
  : option flink_irq_data :=
  match l with
  | [] => None
  | hwirq :: rest =>
      if irq_nr hwirq =? nr then Some hwirq else find_irq rest nr
  end.

(** Writing through the [hwirq] pointer found by [find_irq]. *)
Fixpoint store_irq (l : list flink_irq_data) (nr : Z)
  (hwirq' : flink_irq_data) : list flink_irq_data :=
  match l with
  | [] => []
  | hwirq :: rest =>
      if irq_nr hwirq =? nr then hwirq' :: rest
      else hwirq :: store_irq rest nr hwirq'
  end.

(** The walk over [hwirq->flink_process_data] looking for the pid. *)
Definition pid_registered (l : list flink_process_data) (p : Z) : bool :=
  existsb (fun fsignal => pid (user_task fsignal) =? p) l.

(** [list_del] of the first entry of the walk that has the pid. *)
Fixpoint list_del_pid (l : list flink_process_data) (p : Z)
  : list flink_process_data :=
  match l with
  | [] => []
  | fsignal :: rest =>
      if pid (user_task fsignal) =? p then rest
      else fsignal :: list_del_pid rest p
  end.

Definition set_hw_irq_data (d : device) (l : list flink_irq_data) : device :=
  {| dev_id := dev_id d; nof_subdevices := nof_subdevices d;
     subdevices := subdevices d; bus_ops := bus_ops d;
     dev_bus_data := dev_bus_data d;
     hw_irq_data := l; nof_irqs := nof_irqs d;
     irq_offset := irq_offset d; signal_offset := signal_offset d |}.

(** ** Sessions: what a call gives back *)

(** Kernel log lines that the interrupt ioctls print unconditionally
    ([KERN_WARNING] and [KERN_ERR]; the [DBG] lines are compiled out). *)
Inductive kmsg : Type :=
| MsgIrqNotAvailable             (* "Irq functionality not available" *)
| MsgCopyFromUser                (* "Error while copying from userspace" *)
| MsgSizeNot4                    (* "size must have lenght of 4 bytes" *)
| MsgCopyPayload                 (* "Copying from user space failed" *)
| MsgIrqTooHigh (requested max : Z)
                                 (* "IRQ number %lu is too high. ..." *)
| MsgAlreadyRegistered (irq : Z) (* "IRQ %lu is already registered ..." *)
| MsgSignalAllocFailed (irq : Z) (* "Failed to allocate memory for signal" *)
| MsgNoSignalRegistered (irq : Z).
                                 (* "No signal registered on the requested IRQ" *)

(** What a call copied to user space. *)
Inductive user_out : Type :=
| NoCopy
| CopyBit (c : ioctl_bit_container_t)
| CopyData (width value : Z).

(** Result of one file operation: the value returned to the caller (a
    [long] or [ssize_t]; an [u32] result is returned unchanged, as it is
    where [long] has 64 bits), the session afterwards, the bus accesses
    made, the kernel log lines and the data copied out. *)
Record outcome : Type := {
  ret : Z;
  file_after : file bus_data;
  accesses : list bus_access;
  klog : list kmsg;
  to_user : user_out
}.

(** What the copies from and to the user-space argument yield during one
    call, with the result of the call's [kzalloc]. *)
Record user_memory : Type := {
  arg_id : option Z;                        (* the subdevice id byte *)
  arg_bit : option ioctl_bit_container_t;   (* the bit container *)
  arg_container : option ioctl_container_t; (* the container *)
  arg_payload : option Z;                   (* the u32 behind [c_data] *)
  copy_to_user_ok : bool;
  kzalloc_ok : bool
}.

Definition returns (r : Z) (f : file bus_data) : outcome :=
  {| ret := r; file_after := f; accesses := []; klog := [];
     to_user := NoCopy |}.

Definition fails (r : Z) (f : file bus_data) (m : list kmsg) : outcome :=
  {| ret := r; file_after := f; accesses := []; klog := m;
     to_user := NoCopy |}.

Definition set_fdev (f : file bus_data) (pdata : flink_private_data bus_data)
  (d : device) : file bus_data :=
  {| private_data :=
       Some {| fdev := Some d;
               current_subdevice := current_subdevice pdata |} |}.

(** [flink_select_subdevice]. *)
Definition flink_select_subdevice (f : file bus_data) (subdevice : Z)
  (excl : bool) : Z * file bus_data :=
  match private_data f with
  | Some pdata =>
      match fdev pdata with
      | Some d =>
          (0, {| private_data :=
                   Some {| fdev := Some d;
                           current_subdevice :=
                             flink_get_subdevice_by_id (Some d) subdevice |} |})
      | None => (UNKOWN_ERROR, f)
      end
  | None => (UNKOWN_ERROR, f)
  end.

(** [flink_read].  [subdev->parent] is the session's device, in which the
    subdevice was looked up; the result is [None] for a session that has a
    subdevice but no device.  [copy_ok] tells whether [copy_to_user]
    copied everything. *)
Definition flink_read (f : file bus_data) (size : Z) (offset : Z)
  (copy_ok : bool) : option outcome :=
  match private_data f with
  | Some pdata =>
      match current_subdevice pdata with
      | Some subdev =>
          match fdev pdata with
          | Some d =>
              let roffset := u32 offset in
              if mem_size subdev <? roffset then Some (returns 0 f)
              else
                let addr := u32 (base_addr subdev + roffset) in
                let reply (acc : bus_access) (width rdata : Z) :=
                  {| ret := if copy_ok then width else 0;
                     file_after := f; accesses := [acc]; klog := [];
                     to_user :=
                       if copy_ok then CopyData width rdata else NoCopy |} in
                if size =? 1 then
                  Some (reply (Rd8 addr) 1 (bus_read8 d addr))
                else if size =? 2 then
                  Some (reply (Rd16 addr) 2 (bus_read16 d addr))
                else if size =? 4 then
                  Some (reply (Rd32 addr) 4 (bus_read32 d addr))
                else Some (returns 0 f)
          | None => None
          end
      | None => Some (returns 0 f)
      end
  | None => Some (returns 0 f)
  end.

(** [flink_write].  [data] is what [copy_from_user] fetched, [None] when
    it could not copy. *)
Definition flink_write (f : file bus_data) (data : option Z) (size : Z)
  (offset : Z) : option outcome :=
  match private_data f with
  | Some pdata =>
      match current_subdevice pdata with
      | Some subdev =>
          match fdev pdata with
          | Some d =>
              let woffset := u32 offset in
              if mem_size subdev <? woffset then Some (returns 0 f)
              else
                let addr := u32 (base_addr subdev + woffset) in
                let reply (acc : bus_access) (width : Z) (d' : device) :=
                  {| ret := width; file_after := set_fdev f pdata d';
                     accesses := [acc]; klog := []; to_user := NoCopy |} in
                if (size =? 1) || (size =? 2) || (size =? 4) then
                  match data with
                  | None => Some (returns 0 f)
                  | Some wdata =>
                      if size =? 1 then
                        Some (reply (Wr8 addr (u8 wdata)) 1
                                (bus_write8 d addr wdata))
                      else if size =? 2 then
                        Some (reply (Wr16 addr (u16 wdata)) 2
                                (bus_write16 d addr wdata))
                      else
                        Some (reply (Wr32 addr (u32 wdata)) 4
                                (bus_write32 d addr wdata))
                  end
                else Some (returns 0 f)
          | None => None
          end
      | None => Some (returns 0 f)
      end
  | None => Some (returns 0 f)
  end.

(** ** [flink_ioctl] *)

(** The commands of [flink_ioctl] covered here. *)
Inductive ioctl_cmd : Type :=
| SELECT_SUBDEVICE
| SELECT_SUBDEVICE_EXCL
| READ_SINGLE_BIT
| WRITE_SINGLE_BIT
| SELECT_AND_READ
| REGISTER_IRQ
| UNREGISTER_IRQ.

(** [1 << bit] as a 32-bit mask; C leaves the shift undefined from 32 on. *)
Definition bit_mask (bit : Z) : option Z :=
  if u8 bit <? 32 then Some (u32 (Z.shiftl 1 (u8 bit))) else None.

(** [case READ_SINGLE_BIT]. *)
Definition ioctl_read_single_bit (f : file bus_data) (u : user_memory)
  : option outcome :=
  match arg_bit u with
  | None => Some (returns (- EINVAL) f)
  | Some rwbit_container =>
      match private_data f with
      | Some {| fdev := Some d; current_subdevice := Some cs |} =>
          let addr := u32 (base_addr cs + bc_offset rwbit_container) in
          let temp := bus_read32 d addr in
          match bit_mask (bc_bit rwbit_container) with
          | Some mask =>
              let out :=
                {| bc_offset := bc_offset rwbit_container;
                   bc_bit := bc_bit rwbit_container;
                   bc_value := if Z.land temp mask =? 0 then 0 else 1;
                   bc_subdevice := bc_subdevice rwbit_container |} in
              Some {| ret := if copy_to_user_ok u then 0 else - EINVAL;
                      file_after := f;
                      accesses := [Rd32 addr];
                      klog := [];
                      to_user :=
                        if copy_to_user_ok u then CopyBit out else NoCopy |}
          | None => None
          end
      | _ => None
      end
  end.

(** [case WRITE_SINGLE_BIT]. *)
Definition ioctl_write_single_bit (f : file bus_data) (u : user_memory)
  : option outcome :=
  match arg_bit u with
  | None => Some (returns (- EINVAL) f)
  | Some rwbit_container =>
      match private_data f with
      | Some ({| fdev := Some d; current_subdevice := Some cs |} as pdata) =>
          let addr := u32 (base_addr cs + bc_offset rwbit_container) in
          let temp := bus_read32 d addr in
          match bit_mask (bc_bit rwbit_container) with
          | Some mask =>
              let temp' :=
                if u8 (bc_value rwbit_container) =? 0
                then Z.land temp (u32 (Z.lnot mask))
                else Z.lor temp mask in
              Some {| ret := 0;
                      file_after :=
                        set_fdev f pdata (bus_write32 d addr temp');
                      accesses := [Rd32 addr; Wr32 addr (u32 temp')];
                      klog := [];
                      to_user := NoCopy |}
          | None => None
          end
      | _ => None
      end
  end.

(** [case SELECT_AND_READ]. *)
Definition ioctl_select_and_read (f : file bus_data) (u : user_memory)
  : option outcome :=
  match arg_container u with
  | None => Some (returns (- EINVAL) f)
  | Some rw_container =>
      if c_data rw_container =? 0 then Some (returns (- EINVAL) f)
      else
        match private_data f with
        | None => None
        | Some pdata =>
            match fdev pdata,
                  flink_get_subdevice_by_id (fdev pdata)
                    (c_subdevice rw_container) with
            | Some d, Some src =>
                if mem_size src <? u32 (c_offset rw_container)
                then Some (returns (- EINVAL) f)
                else
                  let addr := u32 (base_addr src + u32 (c_offset rw_container)) in
                  let reply (acc : bus_access) (width rdata : Z) :=
                    {| ret := if copy_to_user_ok u then width else 0;
                       file_after := f; accesses := [acc]; klog := [];
                       to_user :=
                         if copy_to_user_ok u then CopyData width rdata
                         else NoCopy |} in
                  let size := u8 (c_size rw_container) in
                  if size =? 1 then
                    Some (reply (Rd8 addr) 1 (bus_read8 d addr))
                  else if size =? 2 then
                    Some (reply (Rd16 addr) 2 (bus_read16 d addr))
                  else if size =? 4 then
                    Some (reply (Rd32 addr) 4 (bus_read32 d addr))
                  else Some (returns (- EINVAL) f)
            | _, _ => Some (returns (- EINVAL) f)
            end
        end
  end.

(** The checks that open both [case REGISTER_IRQ] and
    [case UNREGISTER_IRQ]: either the early return, or the requested line
    number. *)
Definition irq_request (f : file bus_data) (d : device) (u : user_memory)
  : outcome + Z :=
  if nof_irqs d =? 0 then inl (fails (- EPERM) f [MsgIrqNotAvailable])
  else
    match arg_container u with
    | None => inl (fails (- EINVAL) f [MsgCopyFromUser])
    | Some rw_container =>
        if negb (u8 (c_size rw_container) =? 4)
        then inl (fails (- EINVAL) f [MsgSizeNot4])
        else
          match arg_payload u with
          | None => inl (fails (- EINVAL) f [MsgCopyPayload])
          | Some v =>
              let requested_irq_nr := u32 v in
              if nof_irqs d <=? requested_irq_nr
              then inl (fails (- EINVAL) f
                          [MsgIrqTooHigh requested_irq_nr (nof_irqs d - 1)])
              else inr requested_irq_nr
          end
    end.

(** [case REGISTER_IRQ]; [user_task] is [get_current()]. *)
Definition ioctl_register_irq (user_task : task_struct) (f : file bus_data)
  (u : user_memory) : option outcome :=
  match private_data f with
  | Some ({| fdev := Some d; current_subdevice := _ |} as pdata) =>
      match irq_request f d u with
      | inl early => Some early
      | inr requested_irq_nr =>
          match find_irq (hw_irq_data d) requested_irq_nr with
          | None => Some (returns 0 f)
          | Some hwirq =>
              if pid_registered (process_list hwirq) (pid user_task)
              then Some (fails (- EINVAL) f
                           [MsgAlreadyRegistered (irq_nr hwirq)])
              else if negb (kzalloc_ok u)
              then Some (fails (- ENOMEM) f
                           [MsgSignalAllocFailed (irq_nr hwirq)])
              else
                let fsignal := {| user_task := user_task |} in
                let hwirq' :=
                  {| process_list := fsignal :: process_list hwirq;
                     irq_nr := irq_nr hwirq;
                     signal_count := u32 (signal_count hwirq + 1);
                     signal_nr_with_offset :=
                       u32 (signal_offset d + irq_nr hwirq);
                     irq_nr_with_offset := irq_nr_with_offset hwirq |} in
                let d' :=
                  set_hw_irq_data d
                    (store_irq (hw_irq_data d) requested_irq_nr hwirq') in
                Some (returns (signal_nr_with_offset hwirq')
                        (set_fdev f pdata d'))
          end
      end
  | _ => None
  end.

(** [case UNREGISTER_IRQ]. *)
Definition ioctl_unregister_irq (user_task : task_struct) (f : file bus_data)
  (u : user_memory) : option outcome :=
  match private_data f with
  | Some ({| fdev := Some d; current_subdevice := _ |} as pdata) =>
      match irq_request f d u with
      | inl early => Some early
      | inr requested_irq_nr =>
          match find_irq (hw_irq_data d) requested_irq_nr with
          | None => Some (returns 0 f)
          | Some hwirq =>
              if signal_count hwirq =? 0
              then Some (fails (- EINVAL) f
                           [MsgNoSignalRegistered (irq_nr hwirq)])
              else if pid_registered (process_list hwirq) (pid user_task)
              then
                let hwirq' :=
                  {| process_list :=
                       list_del_pid (process_list hwirq) (pid user_task);
                     irq_nr := irq_nr hwirq;
                     signal_count := signal_count hwirq;
                     signal_nr_with_offset := signal_nr_with_offset hwirq;
                     irq_nr_with_offset := irq_nr_with_offset hwirq |} in
                let d' :=
                  set_hw_irq_data d
                    (store_irq (hw_irq_data d) requested_irq_nr hwirq') in
                Some (returns 0 (set_fdev f pdata d'))
              else Some (returns (- EINVAL) f)
          end
      end
  | _ => None
  end.

(** [flink_ioctl] on the commands above. *)
Definition flink_ioctl (user_task : task_struct) (f : file bus_data)
  (cmd : ioctl_cmd) (u : user_memory) : option outcome :=
  match cmd with
  | SELECT_SUBDEVICE =>
      match arg_id u with
      | None => Some (returns (- EINVAL) f)
      | Some id =>
          let r := flink_select_subdevice f id false in
          Some (returns (fst r) (snd r))
      end
  | SELECT_SUBDEVICE_EXCL =>
      match arg_id u with
      | None => Some (returns (- EINVAL) f)
      | Some id =>
          let r := flink_select_subdevice f id true in
          Some (returns (fst r) (snd r))
      end
  | READ_SINGLE_BIT => ioctl_read_single_bit f u
  | WRITE_SINGLE_BIT => ioctl_write_single_bit f u
  | SELECT_AND_READ => ioctl_select_and_read f u
  | REGISTER_IRQ => ioctl_register_irq user_task f u
  | UNREGISTER_IRQ => ioctl_unregister_irq user_task f u
  end.

End Core.

(** ** The AXI bus backend, [zynq/flink_axi.c] *)

Module Axi.

(** [struct flink_axi_bus_data]: the size of the mapped region and, for
    [base], the byte found at each offset of the mapping. *)
Record flink_axi_bus_data : Type := {
  size : Z;
  io : Z -> Z
}.

Definition flink_check_offset (d : flink_axi_bus_data) (offset : Z) : bool :=
  offset <? size d.

(** Little-endian register accesses on the mapping. *)
Definition ioread8 (d : flink_axi_bus_data) (a : Z) : Z := u8 (io d a).
Definition ioread16 (d : flink_axi_bus_data) (a : Z) : Z :=
  ioread8 d a + 2 ^ 8 * ioread8 d (a + 1).
Definition ioread32 (d : flink_axi_bus_data) (a : Z) : Z :=
  ioread16 d a + 2 ^ 16 * ioread16 d (a + 2).

Definition iowrite8 (d : flink_axi_bus_data) (a val : Z)
  : flink_axi_bus_data :=
  {| size := size d; io := fun x => if x =? a then u8 val else io d x |}.
Definition iowrite16 (d : flink_axi_bus_data) (a val : Z)
  : flink_axi_bus_data :=
  iowrite8 (iowrite8 d a val) (a + 1) (Z.shiftr val 8).
Definition iowrite32 (d : flink_axi_bus_data) (a val : Z)
  : flink_axi_bus_data :=
  iowrite16 (iowrite16 d a val) (a + 2) (Z.shiftr val 16).

(** An access outside the region is logged, reads as 0 and writes
    nothing. *)
Definition flink_axi_read8 (d : flink_axi_bus_data) (addr : Z) : Z :=
  if flink_check_offset d addr then ioread8 d addr else 0.
Definition flink_axi_read16 (d : flink_axi_bus_data) (addr : Z) : Z :=
  if flink_check_offset d addr then ioread16 d addr else 0.
Definition flink_axi_read32 (d : flink_axi_bus_data) (addr : Z) : Z :=
  if flink_check_offset d addr then ioread32 d addr else 0.
Definition flink_axi_write8 (d : flink_axi_bus_data) (addr val : Z)
  : flink_axi_bus_data :=
  if flink_check_offset d addr then iowrite8 d addr val else d.
Definition flink_axi_write16 (d : flink_axi_bus_data) (addr val : Z)
  : flink_axi_bus_data :=
  if flink_check_offset d addr then iowrite16 d addr val else d.
Definition flink_axi_write32 (d : flink_axi_bus_data) (addr val : Z)
  : flink_axi_bus_data :=
  if flink_check_offset d addr then iowrite32 d addr val else d.
Definition flink_axi_address_space_size (d : flink_axi_bus_data) : Z :=
  u32 (size d).

Definition flink_axi_bus_ops : flink_bus_ops flink_axi_bus_data :=
  {| read8 := flink_axi_read8;
     read16 := flink_axi_read16;
     read32 := flink_axi_read32;
     write8 := flink_axi_write8;
     write16 := flink_axi_write16;
     write32 := flink_axi_write32;
     address_space_size := flink_axi_address_space_size |}.

(** A mapping whose content is a table of 32-bit registers, register [i]
    at offset [4 * i]; zero past the table. *)
Definition registers (ws : list Z) : Z -> Z :=
  fun a => u8 (Z.shiftr (nth (Z.to_nat (a / 4)) ws 0) (8 * (a mod 4))).

(** The device a probe builds for a region of [sz] bytes holding [ws],
    with [nof_irq] interrupt lines, before [flink_device_add]; [env] is
    what the kernel answers while the lines are set up. *)
Definition probe_with (env : irq_setup) (sz : Z) (ws : list Z)
  (nof_irq irq_off signal_off : Z) : flink_device flink_axi_bus_data :=
  flink_device_init_irq env flink_axi_bus_ops
    {| size := sz; io := registers ws |} nof_irq irq_off signal_off.

(** The same when every allocation and handler request is granted. *)
Definition probe (sz : Z) (ws : list Z) (nof_irq irq_off signal_off : Z)
  : flink_device flink_axi_bus_data :=
  probe_with all_granted sz ws nof_irq irq_off signal_off.

End Axi.

(** ** Sample hardware *)

(** A 256-byte region: an info subdevice at 0 (48 bytes, total length
    256), a subdevice of function 1 at 48 (48 bytes, one channel, unique
    id 0xAAAA), and a zero size word at 96. *)
Definition sample_registers : list Z :=
  [ 256; 48; 1; 1;   0; 0; 0; 0;   256; 0; 0; 0;
    66051; 48; 1; 43690;   0; 0; 0; 0;   0; 0; 0; 0;
    0; 0; 0; 0 ].

Definition sample_probe : flink_device Axi.flink_axi_bus_data :=
  Axi.probe 256 sample_registers 2 55 34.

(** The sample device once scanned, as [flink_device_add] leaves it (see
    [sample_device_added]): two subdevices, two idle interrupt lines. *)
Definition sample_device : flink_device Axi.flink_axi_bus_data :=
  {| dev_id := 0;
     nof_subdevices := 2;
     subdevices :=
       [ {| sd_id := 1; function_id := 1; sub_function_id := 2;
            function_version := 3; base_addr := 48; mem_size := 48;
            nof_channels := 1; unique_id := 43690 |};
         {| sd_id := 0; function_id := 0; sub_function_id := 1;
            function_version := 0; base_addr := 0; mem_size := 48;
            nof_channels := 1; unique_id := 1 |} ];
     bus_ops := Axi.flink_axi_bus_ops;
     dev_bus_data :=
       {| Axi.size := 256; Axi.io := Axi.registers sample_registers |};
     hw_irq_data :=
       [ {| process_list := []; irq_nr := 1; signal_count := 0;
            signal_nr_with_offset := 0; irq_nr_with_offset := 56 |};
         {| process_list := []; irq_nr := 0; signal_count := 0;
            signal_nr_with_offset := 0; irq_nr_with_offset := 55 |} ];
     nof_irqs := 2;
     irq_offset := 55;
     signal_offset := 34 |}.

(** A 48-byte region whose only header declares 1000 bytes. *)
Definition oversize_probe : flink_device Axi.flink_axi_bus_data :=
  Axi.probe 48 [66051; 1000; 1; 43690] 0 0 0.

(** The same region as [shrunk_probe], with a total length of 0 in the
    info subdevice. *)
Definition zero_total_probe : flink_device Axi.flink_axi_bus_data :=
  Axi.probe 256
    [ 256; 48; 1; 1;   0; 0; 0; 0;   0; 0; 0; 0;
      66051; 48; 1; 43690 ] 0 0 0.

(** The sample region on a kernel that refuses the handler of the first
    interrupt line (interrupt 55): [flink_device_init_irq] returns after
    creating the slot of line 0, and line 1 never gets one. *)
Definition unset_line_probe : flink_device Axi.flink_axi_bus_data :=
  Axi.probe_with
    {| irq_alloc_ok := fun _ => true;
       irq_request_ok := fun i => negb (i =? 0) |}
    256 sample_registers 2 55 34.

(** A region of size 0 (a device tree [reg] entry of length 0). *)
Definition empty_probe : flink_device Axi.flink_axi_bus_data :=
  Axi.probe 0 [] 0 0 0.

(** A 256-byte region whose info subdevice gives a total length of 48,
    followed at 48 by one more well-formed header. *)
Definition shrunk_probe : flink_device Axi.flink_axi_bus_data :=
  Axi.probe 256
    [ 256; 48; 1; 1;   0; 0; 0; 0;   48; 0; 0; 0;
      66051; 48; 1; 43690 ] 0 0 0.

(** The state of the scan of the sample region when it reaches offset 96. *)
Definition sample_scan_at_96 : @scan_state Axi.flink_axi_bus_data :=
  {| scan_fdev := sample_device;
     subdevice_counter := 2;
     current_address := 96;
     last_address := 255;
     scan_accesses := [] |}.

(** The second subdevice of the sample device: base 48, 48 bytes. *)
Definition sample_subdevice : flink_subdevice :=
  {| sd_id := 1; function_id := 1; sub_function_id := 2;
     function_version := 3; base_addr := 48; mem_size := 48;
     nof_channels := 1; unique_id := 43690 |}.

(** A 4-byte read request on subdevice 1 at offset 49, one past its size. *)
Definition past_size_container : ioctl_container_t :=
  {| c_subdevice := 1; c_offset := 49; c_size := 4; c_data := 1 |}.

(** Bit 3 of the word at offset 1000. *)
Definition far_bit_container : ioctl_bit_container_t :=
  {| bc_offset := 1000; bc_bit := 3; bc_value := 1; bc_subdevice := 0 |}.

(** ** Notions used in the statements *)

Section Statements.

Context {bus_data : Type}.

(** The byte-size word of the header at the scan pointer. *)
Definition declared_size (st : @scan_state bus_data) : Z :=
  bus_read32 (scan_fdev st) (current_address st + SUBDEV_SIZE_OFFSET).

(** The total-length word of an info subdevice at the scan pointer. *)
Definition declared_total (st : @scan_state bus_data) : Z :=
  bus_read32 (scan_fdev st)
    (current_address st + MAIN_HEADER_SIZE + SUB_HEADER_SIZE).

(** The last valid address that a subdevice leaves to its successors:
    an info subdevice replaces it.  [rd] is the 32-bit read of the bus. *)
Definition last_after (rd : Z -> Z) (last : Z) (sd : flink_subdevice) : Z :=
  if function_id sd =? INFO_FUNCTION_ID
  then u32 (rd (base_addr sd + MAIN_HEADER_SIZE + SUB_HEADER_SIZE) - 1)
  else last.

(** Subdevices in the order of their creation, each starting below the
    last valid address in effect when its header was read. *)
Fixpoint under_last (rd : Z -> Z) (last : Z) (sds : list flink_subdevice)
  : Prop :=
  match sds with
  | [] => True
  | sd :: rest =>
      base_addr sd < last /\ under_last rd (last_after rd last sd) rest
  end.

(** The upper scan bound that a subdevice leaves to its successors. *)
Definition bound_after (rd : Z -> Z) (bound : Z) (sd : flink_subdevice) : Z :=
  if function_id sd =? INFO_FUNCTION_ID
  then rd (base_addr sd + MAIN_HEADER_SIZE + SUB_HEADER_SIZE)
  else bound.

(** Subdevices in the order of their creation, each starting strictly
    inside the upper scan bound in effect when its header was read; nothing
    is said under a bound of 0. *)
Fixpoint starts_within (rd : Z -> Z) (bound : Z) (sds : list flink_subdevice)
  : Prop :=
  match sds with
  | [] => True
  | sd :: rest =>
      (1 <= bound -> base_addr sd + 1 < bound)
      /\ starts_within rd (bound_after rd bound sd) rest
  end.

(** Every line that the device declares has its slot in the table. *)
Definition irq_table_ok (d : flink_device bus_data) : Prop :=
  forall L, 0 <= L < nof_irqs d ->
    exists hwirq, find_irq (hw_irq_data d) L = Some hwirq.

(** The kernel granted memory and handler for the [n] lines from [i] on. *)
Fixpoint lines_granted (env : irq_setup) (i : Z) (n : nat) : bool :=
  match n with
  | O => true
  | S n' =>
      irq_alloc_ok env i && irq_request_ok env i
      && lines_granted env (i + 1) n'
  end.

(** The loop of [flink_device_init_irq] gets as far as creating the slot of
    line [L]: every line before it got its memory and its handler, and
    line [L] its memory. *)
Definition line_created (env : irq_setup) (L : Z) : bool :=
  lines_granted env 0 (Z.to_nat L) && irq_alloc_ok env L.

(** The slot that [flink_device_init_irq] creates for line [L]. *)
Definition fresh_line (irq_off L : Z) : flink_irq_data :=
  {| process_list := []; irq_nr := L; signal_count := 0;
     signal_nr_with_offset := 0; irq_nr_with_offset := u32 (irq_off + L) |}.

(** A call succeeded when it did not return a negative error code. *)
Definition succeeded (o : @outcome bus_data) : Prop := 0 <= ret o.

(** A well-formed request naming line [line]: a container of size 4 whose
    data pointer leads to the line number. *)
Definition irq_request_for (line : Z) (alloc : bool) : user_memory :=
  {| arg_id := None; arg_bit := None;
     arg_container :=
       Some {| c_subdevice := 0; c_offset := 0; c_size := 4; c_data := 1 |};
     arg_payload := Some line;
     copy_to_user_ok := true; kzalloc_ok := alloc |}.

(** A request whose argument is the container [c]. *)
Definition container_request (c : ioctl_container_t) (out_ok : bool)
  : user_memory :=
  {| arg_id := None; arg_bit := None; arg_container := Some c;
     arg_payload := None; copy_to_user_ok := out_ok; kzalloc_ok := true |}.

(** A request whose argument is the bit container [c]. *)
Definition bit_request (c : ioctl_bit_container_t) (out_ok : bool)
  : user_memory :=
  {| arg_id := None; arg_bit := Some c; arg_container := None;
     arg_payload := None; copy_to_user_ok := out_ok; kzalloc_ok := true |}.

(** A request whose argument is the subdevice id byte. *)
Definition id_request (id : Z) : user_memory :=
  {| arg_id := Some id; arg_bit := None; arg_container := None;
     arg_payload := None; copy_to_user_ok := true; kzalloc_ok := true |}.

(** The session of a handle opened on device [d]. *)
Definition session_of (d : flink_device bus_data)
  (cs : option flink_subdevice) : file bus_data :=
  {| private_data := Some {| fdev := Some d; current_subdevice := cs |} |}.

(** The device a session is bound to. *)
Definition device_of (f : file bus_data) : option (flink_device bus_data) :=
  match private_data f with
  | Some pdata => fdev pdata
  | None => None
  end.

(** What a session sees of line [L] of its device: the subscription count
    and the pids of the subscribed processes, in list order. *)
Definition line_state (f : file bus_data) (L : Z) : option (Z * list Z) :=
  match device_of f with
  | Some d =>
      option_map
        (fun hwirq =>
           (signal_count hwirq,
            map (fun fsignal => pid (user_task fsignal)) (process_list hwirq)))
        (find_irq (hw_irq_data d) L)
  | None => None
  end.

(** A device without its bus: id, subdevice count and list, line table,
    line count and the two offsets. *)
Definition registry_of (d : flink_device bus_data)
  : Z * Z * list flink_subdevice * list flink_irq_data * Z * Z * Z :=
  (dev_id d, nof_subdevices d, subdevices d, hw_irq_data d, nof_irqs d,
   irq_offset d, signal_offset d).

(** A device with another id; [flink_device_add] stores the counter in
    the [u8] id field before it scans. *)
Definition set_dev_id (d : flink_device bus_data) (id : Z)
  : flink_device bus_data :=
  {| dev_id := u8 id; nof_subdevices := nof_subdevices d;
     subdevices := subdevices d; bus_ops := bus_ops d;
     dev_bus_data := dev_bus_data d; hw_irq_data := hw_irq_data d;
     nof_irqs := nof_irqs d; irq_offset := irq_offset d;
     signal_offset := signal_offset d |}.

(** REGISTER_IRQ then UNREGISTER_IRQ by process [t] for line [L]: the two
    return values, each with the state of the line after the call. *)
Definition register_then_unregister (t : task_struct) (f : file bus_data)
  (L : Z) : option (Z * option (Z * list Z) * Z * option (Z * list Z)) :=
  match flink_ioctl t f REGISTER_IRQ (irq_request_for L true) with
  | Some o1 =>
      match flink_ioctl t (file_after o1) UNREGISTER_IRQ
              (irq_request_for L true) with
      | Some o2 =>
          Some (ret o1, line_state (file_after o1) L,
                ret o2, line_state (file_after o2) L)
      | None => None
      end
  | None => None
  end.

End Statements.

(** ** The rest of the core: remaining file operations, the interrupt
       handler and the device list *)

Section CoreRest.

Context {bus_data : Type}.

(** [flink_device_init]: the deprecated initializer, no interrupt line.
    With [nof_irq = 0] the loop of [flink_device_init_irq] is not entered,
    so nothing is asked of the kernel. *)
Definition flink_device_init (ops : flink_bus_ops bus_data) (bd : bus_data)
  : flink_device bus_data :=
  flink_device_init_irq all_granted ops bd 0 0 0.

(** [flink_open]: a zeroed session bound to whatever device the lookup by
    character device gave ([fd], NULL when none). *)
Definition flink_open (fd : option (flink_device bus_data))
  : Z * file bus_data :=
  (0, {| private_data := Some {| fdev := fd; current_subdevice := None |} |}).

(** A value of the signed 64-bit type [loff_t]. *)
Definition loff_t_ok (x : Z) : bool := (- 2 ^ 63 <=? x) && (x <? 2 ^ 63).

(** [flink_llseek]; [f_pos] is the handle's position.  Returns the value
    returned and the position afterwards; [None] when the addition leaves
    [loff_t] (signed overflow). *)
Definition flink_llseek (f : file bus_data) (f_pos : Z) (off : Z)
  (whence : Z) : option (Z * Z) :=
  match private_data f with
  | Some {| fdev := _; current_subdevice := Some cs |} =>
      let finish (newpos : Z) : option (Z * Z) :=
        if loff_t_ok newpos then
          if newpos <? 0 then Some (- EINVAL, f_pos)
          else Some (newpos, newpos)
        else None in
      if whence =? 0 then finish off
      else if whence =? 1 then finish (f_pos + off)
      else if whence =? 2 then finish (mem_size cs + off)
      else Some (- EINVAL, f_pos)
  | _ => Some (- EINVAL, f_pos)
  end.

(** [irqreturn_t]. *)
Inductive irqreturn_t : Type := IRQ_NONE | IRQ_HANDLED.

(** [flink_threaded_irq_handler] for the line [irq_data], called for
    interrupt number [irq]: the result and the calls of [send_sig_info], in
    order, each with the signal number passed and the task it goes to.
    The [int irq] is compared as unsigned; [send_sig_info] takes an [int],
    so the line's [u32] signal number is converted.  Every entry of the
    list holds the task that registered, so the NULL test on [user_task]
    always passes. *)
Definition flink_threaded_irq_handler (irq : Z) (irq_data : flink_irq_data)
  : irqreturn_t * list (Z * task_struct) :=
  if negb (u32 irq =? irq_nr_with_offset irq_data) then (IRQ_NONE, [])
  else
    (IRQ_HANDLED,
     map (fun signal_data =>
            (s32 (signal_nr_with_offset irq_data), user_task signal_data))
       (process_list irq_data)).

(** [case READ_NOF_SUBDEVICES]. *)
Definition ioctl_read_nof_subdevices (f : file bus_data) (u : user_memory)
  : option outcome :=
  match private_data f with
  | Some {| fdev := Some d; current_subdevice := _ |} =>
      Some {| ret := if copy_to_user_ok u then 0 else - EINVAL;
              file_after := f; accesses := []; klog := [];
              to_user :=
                if copy_to_user_ok u
                then CopyData 1 (u8 (nof_subdevices d)) else NoCopy |}
  | _ => None
  end.

(** [case READ_SUBDEVICE_INFO]: the value returned and the subdevice whose
    fields from [id] on were copied out, if any. *)
Definition ioctl_read_subdevice_info (f : file bus_data) (u : user_memory)
  : option (Z * option flink_subdevice) :=
  match arg_id u with
  | None => Some (- EINVAL, None)
  | Some id =>
      match private_data f with
      | Some {| fdev := Some d; current_subdevice := _ |} =>
          if u8 (nof_subdevices d) <=? u8 id then Some (- EINVAL, None)
          else
            match flink_get_subdevice_by_id (Some d) id with
            | None => Some (- EINVAL, None)
            | Some src =>
                if copy_to_user_ok u then Some (0, Some src)
                else Some (- EINVAL, None)
            end
      | _ => None
      end
  end.

(** [case SELECT_AND_READ_BIT]. *)
Definition ioctl_select_and_read_bit (f : file bus_data) (u : user_memory)
  : option outcome :=
  match arg_bit u with
  | None => Some (returns (- EINVAL) f)
  | Some rwbit_container =>
      match private_data f with
      | None => None
      | Some pdata =>
          match fdev pdata,
                flink_get_subdevice_by_id (fdev pdata)
                  (bc_subdevice rwbit_container) with
          | Some d, Some src =>
              let addr := u32 (base_addr src + bc_offset rwbit_container) in
              let temp := bus_read32 d addr in
              match bit_mask (bc_bit rwbit_container) with
              | Some mask =>
                  let out :=
                    {| bc_offset := bc_offset rwbit_container;
                       bc_bit := bc_bit rwbit_container;
                       bc_value := if Z.land temp mask =? 0 then 0 else 1;
                       bc_subdevice := bc_subdevice rwbit_container |} in
                  Some {| ret := if copy_to_user_ok u then 0 else - EINVAL;
                          file_after := f;
                          accesses := [Rd32 addr];
                          klog := [];
                          to_user :=
                            if copy_to_user_ok u then CopyBit out
                            else NoCopy |}
              | None => None
              end
          | _, _ => Some (returns (- EINVAL) f)
          end
      end
  end.

(** [case SELECT_AND_WRITE_BIT]. *)
Definition ioctl_select_and_write_bit (f : file bus_data) (u : user_memory)
  : option outcome :=
  match arg_bit u with
  | None => Some (returns (- EINVAL) f)
  | Some rwbit_container =>
      match private_data f with
      | None => None
      | Some pdata =>
          match fdev pdata,
                flink_get_subdevice_by_id (fdev pdata)
                  (bc_subdevice rwbit_container) with
          | Some d, Some src =>
              let addr := u32 (base_addr src + bc_offset rwbit_container) in
              let temp := bus_read32 d addr in
              match bit_mask (bc_bit rwbit_container) with
              | Some mask =>
                  let temp' :=
                    if u8 (bc_value rwbit_container) =? 0
                    then Z.land temp (u32 (Z.lnot mask))
                    else Z.lor temp mask in
                  Some {| ret := 0;
                          file_after :=
                            set_fdev f pdata (bus_write32 d addr temp');
                          accesses := [Rd32 addr; Wr32 addr (u32 temp')];
                          klog := [];
                          to_user := NoCopy |}
              | None => None
              end
          | _, _ => Some (returns (- EINVAL) f)
          end
      end
  end.

(** [case SELECT_AND_WRITE]; [arg_payload] is what [copy_from_user] fetches
    behind [c_data]. *)
Definition ioctl_select_and_write (f : file bus_data) (u : user_memory)
  : option outcome :=
  match arg_container u with
  | None => Some (returns (- EINVAL) f)
  | Some rw_container =>
      if c_data rw_container =? 0 then Some (returns (- EINVAL) f)
      else
        match private_data f with
        | None => None
        | Some pdata =>
            match fdev pdata,
                  flink_get_subdevice_by_id (fdev pdata)
                    (c_subdevice rw_container) with
            | Some d, Some src =>
                if mem_size src <? u32 (c_offset rw_container)
                then Some (returns (- EINVAL) f)
                else
                  let addr := u32 (base_addr src + u32 (c_offset rw_container)) in
                  let reply (acc : bus_access) (width : Z)
                            (d' : flink_device bus_data) :=
                    {| ret := width; file_after := set_fdev f pdata d';
                       accesses := [acc]; klog := []; to_user := NoCopy |} in
                  let size := u8 (c_size rw_container) in
                  if (size =? 1) || (size =? 2) || (size =? 4) then
                    match arg_payload u with
                    | None => Some (returns (- EINVAL) f)
                    | Some wdata =>
                        if size =? 1 then
                          Some (reply (Wr8 addr (u8 wdata)) 1
                                  (bus_write8 d addr wdata))
                        else if size =? 2 then
                          Some (reply (Wr16 addr (u16 wdata)) 2
                                  (bus_write16 d addr wdata))
                        else
                          Some (reply (Wr32 addr (u32 wdata)) 4
                                  (bus_write32 d addr wdata))
                    end
                  else Some (returns (- EINVAL) f)
            | _, _ => Some (returns (- EINVAL) f)
            end
        end
  end.

(** [case GET_SIGNAL_OFFSET].  The second component tells whether the
    warning "Copying to user space failed" was logged. *)
Definition ioctl_get_signal_offset (f : file bus_data) (u : user_memory)
  : option (outcome * bool) :=
  match private_data f with
  | Some {| fdev := Some d; current_subdevice := _ |} =>
      if nof_irqs d =? 0
      then Some (fails (- EPERM) f [MsgIrqNotAvailable], false)
      else
        match arg_container u with
        | None => Some (fails (- EINVAL) f [MsgCopyFromUser], false)
        | Some rw_container =>
            if negb (u8 (c_size rw_container) =? 4)
            then Some (fails (- EINVAL) f [MsgSizeNot4], false)
            else if copy_to_user_ok u
            then Some ({| ret := 4; file_after := f; accesses := [];
                          klog := [];
                          to_user := CopyData 4 (u32 (signal_offset d)) |},
                       false)
            else Some (returns 0 f, true)
        end
  | _ => None
  end.

(** Every command that the [switch] of [flink_ioctl] tells apart: the
    seven of [ioctl_cmd], the six further ones, and any other command
    number, which goes to the [default] case. *)
Inductive ioctl_command : Type :=
| Cmd (cmd : ioctl_cmd)
| READ_NOF_SUBDEVICES
| READ_SUBDEVICE_INFO
| SELECT_AND_READ_BIT
| SELECT_AND_WRITE_BIT
| SELECT_AND_WRITE
| GET_SIGNAL_OFFSET
| ILLEGAL_COMMAND.

(** The whole [switch] of [flink_ioctl]: the value returned and the
    session afterwards, for every command. *)
Definition flink_ioctl_all (user_task : task_struct) (f : file bus_data)
  (cmd : ioctl_command) (u : user_memory) : option (Z * file bus_data) :=
  let effect (o : outcome) := (ret o, file_after o) in
  match cmd with
  | Cmd cmd' => option_map effect (flink_ioctl user_task f cmd' u)
  | READ_NOF_SUBDEVICES => option_map effect (ioctl_read_nof_subdevices f u)
  | READ_SUBDEVICE_INFO =>
      option_map (fun r => (fst r, f)) (ioctl_read_subdevice_info f u)
  | SELECT_AND_READ_BIT => option_map effect (ioctl_select_and_read_bit f u)
  | SELECT_AND_WRITE_BIT => option_map effect (ioctl_select_and_write_bit f u)
  | SELECT_AND_WRITE => option_map effect (ioctl_select_and_write f u)
  | GET_SIGNAL_OFFSET =>
      option_map (fun r => effect (fst r)) (ioctl_get_signal_offset f u)
  | ILLEGAL_COMMAND => Some (- EINVAL, f)
  end.

(** The module's static data: [device_list] and the [dev_counter] of
    [flink_device_add]. *)
Record core : Type := {
  device_list : list (flink_device bus_data);
  dev_counter : Z                      (* static unsigned int *)
}.

(** [flink_device_add] on the device list: the device gets the counter as
    id, goes to the head of the list and is scanned.  Returns the id, the
    module data and the bus accesses of the scan; a NULL device gives
    [UNKOWN_ERROR]. *)
Definition flink_device_add_to (c : core)
  (fd : option (flink_device bus_data))
  : option (Z * core * list bus_access) :=
  match fd with
  | None => Some (UNKOWN_ERROR, c, [])
  | Some d =>
      match flink_device_add (dev_counter c) d with
      | Some (id, d', acc) =>
          Some (id,
                {| device_list := d' :: device_list c;
                   dev_counter := u32 (dev_counter c + 1) |},
                acc)
      | None => None
      end
  end.

(** [flink_get_device_by_id]. *)
Definition flink_get_device_by_id (c : core) (id : Z)
  : option (flink_device bus_data) :=
  find (fun d => dev_id d =? u8 id) (device_list c).

End CoreRest.

(** ** Further notions used in the statements *)

(** Subdevices in the order of their creation carrying the ids [n],
    [n + 1], ... as bytes. *)
Fixpoint ids_from (n : Z) (sds : list flink_subdevice) : Prop :=
  match sds with
  | [] => True
  | sd :: rest => sd_id sd = u8 n /\ ids_from (n + 1) rest
  end.

(** Subdevices in the order of their creation lying one after the other
    from offset [cur] on: each starts where the previous one ends (in
    32-bit arithmetic) and has the size its header declares, more than the
    two headers.  [rd] is the 32-bit read of the bus. *)
Fixpoint chained (rd : Z -> Z) (cur : Z) (sds : list flink_subdevice)
  : Prop :=
  match sds with
  | [] => True
  | sd :: rest =>
      base_addr sd = cur
      /\ mem_size sd = rd (cur + SUBDEV_SIZE_OFFSET)
      /\ MAIN_HEADER_SIZE + SUB_HEADER_SIZE < mem_size sd
      /\ chained rd (u32 (cur + mem_size sd)) rest
  end.

Definition is_read32 (a : bus_access) : Prop :=
  match a with
  | Rd32 _ => True
  | _ => False
  end.

(** The pids subscribed to a line, in list order (newest first). *)
Definition subscribers (hwirq : flink_irq_data) : list Z :=
  map (fun fsignal => pid (user_task fsignal)) (process_list hwirq).

(** At most one subscription per process on every line that a lookup can
    reach. *)
Definition one_subscription_per_process {bus_data : Type}
  (d : flink_device bus_data) : Prop :=
  forall L hwirq,
    find_irq (hw_irq_data d) L = Some hwirq -> NoDup (subscribers hwirq).

(** Line 0 of the sample device with processes 2000 and 1000 subscribed
    (1000 first, then 2000). *)
Definition sample_line0_subscribed : flink_irq_data :=
  {| process_list :=
       [ {| user_task := {| pid := 2000 |} |};
         {| user_task := {| pid := 1000 |} |} ];
     irq_nr := 0; signal_count := 2; signal_nr_with_offset := 34;
     irq_nr_with_offset := 55 |}.

(** The sample device in that state. *)
Definition sample_subscribed : flink_device Axi.flink_axi_bus_data :=
  set_hw_irq_data sample_device
    [ {| process_list := []; irq_nr := 1; signal_count := 0;
         signal_nr_with_offset := 0; irq_nr_with_offset := 56 |};
      sample_line0_subscribed ].

(** The container of a well-formed interrupt request. *)
Definition irq_container : ioctl_container_t :=
  {| c_subdevice := 0; c_offset := 0; c_size := 4; c_data := 1 |}.

(** A region holding 256 headers of 48 bytes each, one after the other. *)
Definition full_registers : list Z :=
  flat_map (fun _ => [66051; 48; 1; 7; 0; 0; 0; 0; 0; 0; 0; 0]) (seq 0 256).

Definition full_probe : flink_device Axi.flink_axi_bus_data :=
  Axi.probe 12288 full_registers 0 0 0.

(** A 4-byte transfer of 0x12345678 at offset 16 of subdevice 1. *)
Definition transfer_container : ioctl_container_t :=
  {| c_subdevice := 1; c_offset := 16; c_size := 4; c_data := 1 |}.

Definition transfer_request : user_memory :=
  {| arg_id := None; arg_bit := None;
     arg_container := Some transfer_container;
     arg_payload := Some 305419896;
     copy_to_user_ok := true; kzalloc_ok := true |}.

(** Settles each [x =? y] of the goal that [lia] can decide. *)
Ltac eqb_off :=
  repeat match goal with
    | |- context [?x =? ?y] =>
        first [ replace (x =? y) with true by (symmetry; apply Z.eqb_eq; lia)
              | replace (x =? y) with false by (symmetry; apply Z.eqb_neq; lia) ]
    end.

(** * Properties *)

(** A result known through one of its views. *)
Lemma some_of_view {A B : Type} (x : option A) (view : A -> B) (b : B) :
  option_map view x = Some b -> exists a, x = Some a /\ view a = b.
Proof.
  destruct x as [a |]; cbn [option_map]; intros H.
  - exists a. split; [reflexivity |]. injection H as H. exact H.
  - discriminate H.
Qed.

(** ** Machine integers *)

Lemma u32_range x : 0 <= u32 x < 2 ^ 32.
Proof. unfold u32. apply Z.mod_pos_bound. lia. Qed.

Lemma u32_small x : 0 <= x < 2 ^ 32 -> u32 x = x.
Proof. intros H. unfold u32. apply Z.mod_small. exact H. Qed.

Lemma u32_pred x : 1 <= x < 2 ^ 32 -> u32 (x - 1) = x - 1.
Proof. intros H. apply u32_small. lia. Qed.

(** ** The scanner *)

Section ScannerFacts.

Context {bus_data : Type}.
Implicit Types (st : @scan_state bus_data) (d : flink_device bus_data).

(** The loop body when the size word exceeds both headers. *)
Lemma scan_body_big st :
  MAIN_HEADER_SIZE + SUB_HEADER_SIZE < declared_size st ->
  scan_body st =
    (Continue,
     {| scan_fdev :=
          snd (flink_subdevice_add (scan_fdev st)
                 (header_subdevice (scan_fdev st) (current_address st)));
        subdevice_counter := subdevice_counter st + 1;
        current_address := u32 (current_address st + declared_size st);
        last_address :=
          if function_id (header_subdevice (scan_fdev st) (current_address st))
             =? INFO_FUNCTION_ID
          then u32 (declared_total st - 1) else last_address st;
        scan_accesses :=
          scan_accesses st
          ++ [Rd32 (u32 (current_address st + SUBDEV_FUNCTION_OFFSET));
              Rd32 (u32 (current_address st + SUBDEV_SIZE_OFFSET))]
          ++ [Rd32 (u32 (current_address st + SUBDEV_NOFCHANNELS_OFFSET));
              Rd32 (u32 (current_address st + SUBDEV_UNIQUE_ID_OFFSET))]
          ++ (if function_id
                   (header_subdevice (scan_fdev st) (current_address st))
                 =? INFO_FUNCTION_ID
              then [Rd32 (u32 (current_address st + MAIN_HEADER_SIZE
                               + SUB_HEADER_SIZE))]
              else []) |}).
Proof.
  intros H. unfold scan_body. fold (declared_size st).
  apply Z.ltb_lt in H. rewrite H. reflexivity.
Qed.

(** The loop body when it does not. *)
Lemma scan_body_small st :
  declared_size st <= MAIN_HEADER_SIZE + SUB_HEADER_SIZE ->
  scan_body st =
    (Break,
     {| scan_fdev := scan_fdev st;
        subdevice_counter := subdevice_counter st;
        current_address := current_address st;
        last_address := last_address st;
        scan_accesses :=
          scan_accesses st
          ++ [Rd32 (u32 (current_address st + SUBDEV_FUNCTION_OFFSET));
              Rd32 (u32 (current_address st + SUBDEV_SIZE_OFFSET))] |}).
Proof.
  intros H. unfold scan_body. fold (declared_size st).
  apply Z.ltb_ge in H. rewrite H. reflexivity.
Qed.

Lemma scan_body_cases st :
  (MAIN_HEADER_SIZE + SUB_HEADER_SIZE < declared_size st
   /\ fst (scan_body st) = Continue)
  \/ (declared_size st <= MAIN_HEADER_SIZE + SUB_HEADER_SIZE
      /\ fst (scan_body st) = Break).
Proof.
  destruct (Z_lt_le_dec (MAIN_HEADER_SIZE + SUB_HEADER_SIZE) (declared_size st))
    as [H | H].
  - left. split; [exact H | rewrite (scan_body_big st H); reflexivity].
  - right. split; [exact H | rewrite (scan_body_small st H); reflexivity].
Qed.

(** One unrolling of the loop. *)
Lemma scan_loop_step fuel st :
  scan_guard st = true ->
  scan_loop (S fuel) st =
    match scan_body st with
    | (Break, st') => Some st'
    | (Continue, st') => scan_loop fuel st'
    end.
Proof. intros G. simpl. rewrite G. reflexivity. Qed.

Lemma scan_loop_exit fuel st :
  scan_guard st = false -> scan_loop fuel st = Some st.
Proof. intros G. destruct fuel; simpl; rewrite G; reflexivity. Qed.

(** The loop ends within [MAX_NOF_SUBDEVICES] iterations counted from the
    subdevices already found. *)
Lemma scan_loop_total fuel : forall st,
  (Z.to_nat (MAX_NOF_SUBDEVICES - subdevice_counter st) <= fuel)%nat ->
  exists st', scan_loop fuel st = Some st'.
Proof.
  unfold MAX_NOF_SUBDEVICES.
  induction fuel as [| fuel IH]; intros st Hfuel.
  - destruct (scan_guard st) eqn:G.
    + unfold scan_guard in G. apply andb_prop in G. destruct G as [_ G].
      apply Z.ltb_lt in G. unfold MAX_NOF_SUBDEVICES in G. lia.
    + exists st. apply scan_loop_exit. exact G.
  - destruct (scan_guard st) eqn:G.
    + rewrite (scan_loop_step fuel st G).
      pose proof G as G'. unfold scan_guard in G'.
      apply andb_prop in G'. destruct G' as [_ G'].
      apply Z.ltb_lt in G'. unfold MAX_NOF_SUBDEVICES in G'.
      destruct (Z_lt_le_dec (MAIN_HEADER_SIZE + SUB_HEADER_SIZE)
                  (declared_size st)) as [H | H].
      * rewrite (scan_body_big st H). apply IH.
        cbn [subdevice_counter]. lia.
      * rewrite (scan_body_small st H). eexists. reflexivity.
    + exists st. apply scan_loop_exit. exact G.
Qed.

(** [scan_for_subdevices] always returns. *)
Lemma scan_for_subdevices_total d :
  exists st, scan_for_subdevices d = Some st.
Proof.
  unfold scan_for_subdevices. apply scan_loop_total. simpl.
  unfold MAX_NOF_SUBDEVICES. lia.
Qed.

(** The scan reads the same bus throughout: it never writes. *)
Lemma flink_subdevice_add_bus d sd a :
  bus_read32 (snd (flink_subdevice_add d sd)) a = bus_read32 d a.
Proof. reflexivity. Qed.

(** What [flink_subdevice_add] puts at the head of the list. *)
Lemma flink_subdevice_add_head d sd :
  exists sd',
    subdevices (snd (flink_subdevice_add d sd)) = sd' :: subdevices d
    /\ sd_id sd' = u8 (nof_subdevices d)
    /\ function_id sd' = function_id sd
    /\ base_addr sd' = base_addr sd
    /\ mem_size sd' = mem_size sd
    /\ nof_channels sd' = nof_channels sd
    /\ unique_id sd' = unique_id sd.
Proof. eexists. cbn. repeat split. Qed.

(** Every subdevice that the loop adds starts below the last valid address
    in effect when its header was read. *)
Lemma scan_loop_under_last fuel : forall st fin,
  scan_loop fuel st = Some fin ->
  exists new,
    subdevices (scan_fdev fin) = rev new ++ subdevices (scan_fdev st)
    /\ under_last (bus_read32 (scan_fdev st)) (last_address st) new.
Proof.
  induction fuel as [| fuel IH]; intros st fin Hrun.
  - simpl in Hrun. destruct (scan_guard st); [discriminate |].
    inversion Hrun; subst fin. exists []. split; [reflexivity | exact I].
  - destruct (scan_guard st) eqn:G.
    + rewrite (scan_loop_step fuel st G) in Hrun.
      unfold scan_guard in G. apply andb_prop in G. destruct G as [G _].
      apply Z.ltb_lt in G.
      destruct (Z_lt_le_dec (MAIN_HEADER_SIZE + SUB_HEADER_SIZE)
                  (declared_size st)) as [H | H].
      * rewrite (scan_body_big st H) in Hrun.
        destruct (IH _ _ Hrun) as [new [Hsub Hlast]].
        cbn [scan_fdev last_address] in Hsub, Hlast.
        destruct (flink_subdevice_add_head (scan_fdev st)
                    (header_subdevice (scan_fdev st) (current_address st)))
          as [sd' [Hhd [_ [Hfun [Hbase _]]]]].
        exists (sd' :: new). split.
        -- rewrite Hsub, Hhd. cbn [rev]. rewrite <- app_assoc. reflexivity.
        -- cbn [under_last]. split.
           ++ rewrite Hbase. exact G.
           ++ unfold last_after. rewrite Hfun, Hbase. exact Hlast.
      * rewrite (scan_body_small st H) in Hrun.
        inversion Hrun; subst fin. exists [].
        split; [reflexivity | exact I].
    + rewrite (scan_loop_exit _ _ G) in Hrun.
      inversion Hrun; subst fin. exists []. split; [reflexivity | exact I].
Qed.

Lemma under_last_starts_within (rd : Z -> Z) :
  (forall a, 0 <= rd a < 2 ^ 32) ->
  forall sds bound,
    0 <= bound < 2 ^ 32 ->
    under_last rd (u32 (bound - 1)) sds ->
    starts_within rd bound sds.
Proof.
  intros Hrd. induction sds as [| sd rest IH]; intros bound Hb Hu.
  - exact I.
  - cbn [under_last starts_within] in *. destruct Hu as [Hbase Hrest]. split.
    + intros H1. rewrite u32_pred in Hbase by lia. lia.
    + unfold last_after in Hrest. unfold bound_after.
      destruct (function_id sd =? INFO_FUNCTION_ID).
      * apply IH; [apply Hrd | exact Hrest].
      * apply IH; [exact Hb | exact Hrest].
Qed.

Lemma bus_read32_range d a : 0 <= bus_read32 d a < 2 ^ 32.
Proof. unfold bus_read32. apply u32_range. Qed.

(** The loop only ever adds to the accesses made so far. *)
Lemma scan_loop_accesses_grow fuel : forall st fin,
  scan_loop fuel st = Some fin ->
  exists more, scan_accesses fin = scan_accesses st ++ more.
Proof.
  induction fuel as [| fuel IH]; intros st fin Hrun.
  - simpl in Hrun. destruct (scan_guard st); [discriminate |].
    inversion Hrun; subst fin. exists []. symmetry. apply app_nil_r.
  - destruct (scan_guard st) eqn:G.
    + rewrite (scan_loop_step fuel st G) in Hrun.
      destruct (Z_lt_le_dec (MAIN_HEADER_SIZE + SUB_HEADER_SIZE)
                  (declared_size st)) as [H | H].
      * rewrite (scan_body_big st H) in Hrun.
        destruct (IH _ _ Hrun) as [more Hmore].
        cbn [scan_accesses] in Hmore. rewrite Hmore.
        eexists. rewrite <- app_assoc. reflexivity.
      * rewrite (scan_body_small st H) in Hrun.
        inversion Hrun; subst fin. eexists. reflexivity.
    + rewrite (scan_loop_exit _ _ G) in Hrun.
      inversion Hrun; subst fin. exists []. symmetry. apply app_nil_r.
Qed.

(** On a bus that reports size 0 the last valid address wraps to
    0xFFFFFFFF, so the loop is entered and the first header is read. *)
Lemma scan_zero_size_reads_header d :
  bus_address_space_size d = 0 ->
  last_address (scan_init d) = 2 ^ 32 - 1
  /\ exists fin more,
       scan_for_subdevices d = Some fin
       /\ scan_accesses fin = [Rd32 0; Rd32 4] ++ more.
Proof.
  intros Hsize.
  assert (Hlast : last_address (scan_init d) = 2 ^ 32 - 1).
  { cbn [scan_init last_address]. rewrite Hsize. reflexivity. }
  split; [exact Hlast |].
  assert (G : scan_guard (scan_init d) = true).
  { unfold scan_guard. rewrite Hlast. reflexivity. }
  destruct (scan_for_subdevices_total d) as [fin Hfin].
  exists fin. pose proof Hfin as Hrun.
  unfold scan_for_subdevices in Hrun.
  change (Z.to_nat MAX_NOF_SUBDEVICES) with (S 255) in Hrun.
  rewrite (scan_loop_step 255 _ G) in Hrun.
  destruct (Z_lt_le_dec (MAIN_HEADER_SIZE + SUB_HEADER_SIZE)
              (declared_size (scan_init d))) as [H | H].
  - rewrite (scan_body_big _ H) in Hrun.
    destruct (scan_loop_accesses_grow _ _ _ Hrun) as [more Hmore].
    cbn [scan_accesses scan_init current_address app] in Hmore.
    eexists. split; [exact Hfin |]. rewrite Hmore. reflexivity.
  - rewrite (scan_body_small _ H) in Hrun.
    inversion Hrun; subst fin. exists [].
    split; [exact Hfin | reflexivity].
Qed.

(** On such a bus a subdevice is even materialized at offset 0 when the
    backend answers the size read with more than 32. *)
Lemma scan_zero_size_can_materialize d :
  bus_address_space_size d = 0 ->
  MAIN_HEADER_SIZE + SUB_HEADER_SIZE < bus_read32 d SUBDEV_SIZE_OFFSET ->
  exists fin new sd,
    scan_for_subdevices d = Some fin
    /\ subdevices (scan_fdev fin) = rev new ++ sd :: subdevices d
    /\ base_addr sd = 0.
Proof.
  intros Hsize Hbig.
  assert (G : scan_guard (scan_init d) = true).
  { unfold scan_guard. cbn [scan_init last_address current_address
                            subdevice_counter].
    rewrite Hsize. reflexivity. }
  destruct (scan_for_subdevices_total d) as [fin Hfin].
  pose proof Hfin as Hrun.
  unfold scan_for_subdevices in Hrun.
  change (Z.to_nat MAX_NOF_SUBDEVICES) with (S 255) in Hrun.
  rewrite (scan_loop_step 255 _ G) in Hrun.
  rewrite (scan_body_big (scan_init d) Hbig) in Hrun.
  destruct (scan_loop_under_last _ _ _ Hrun) as [new [Hsub _]].
  cbn [scan_fdev scan_init current_address] in Hsub.
  destruct (flink_subdevice_add_head d (header_subdevice d 0))
    as [sd [Hhd [_ [_ [Hbase _]]]]].
  exists fin, new, sd.
  split; [exact Hfin |]. split; [rewrite Hsub, Hhd; reflexivity |].
  rewrite Hbase. reflexivity.
Qed.

End ScannerFacts.

Section ScannerClaims.

Context {bus_data : Type}.
Implicit Types (st : @scan_state bus_data) (d : flink_device bus_data).

(** C2, as amended: for every device, the scan returns, and every
    subdevice it materializes starts strictly inside the upper scan bound in
    effect when its header was read (the reported address-space size, or
    the total length of the latest info subdevice), whenever that bound is
    at least 1: [base_addr + 1 < bound].  The declared size is not compared
    with the bound. *)
Theorem c2_subdevices_start_within_bound d :
  exists fin new,
    scan_for_subdevices d = Some fin
    /\ subdevices (scan_fdev fin) = rev new ++ subdevices d
    /\ starts_within (bus_read32 d) (bus_address_space_size d) new.
Proof.
  destruct (scan_for_subdevices_total d) as [fin Hfin].
  destruct (scan_loop_under_last _ _ _ Hfin) as [new [Hsub Hlast]].
  exists fin, new. split; [exact Hfin |]. split; [exact Hsub |].
  apply under_last_starts_within.
  - intros a. apply bus_read32_range.
  - unfold bus_address_space_size. apply u32_range.
  - exact Hlast.
Qed.

(** C5: at every scan step (the loop condition holds), a subdevice is
    materialized at the scan pointer exactly when the size word read there
    exceeds the 32 bytes of the two headers; it gets that size, the channel
    count and unique id read at offsets 8 and 12, and the scan pointer
    advances by the size (in 32-bit arithmetic).  Otherwise, a size word
    of 0 included, the loop ends there and the scan returns the count
    reached, with no subdevice added. *)
Theorem c5_scan_step fuel st :
  scan_guard st = true ->
  (MAIN_HEADER_SIZE + SUB_HEADER_SIZE < declared_size st ->
   exists st' sd,
     scan_body st = (Continue, st')
     /\ scan_loop (S fuel) st = scan_loop fuel st'
     /\ subdevices (scan_fdev st') = sd :: subdevices (scan_fdev st)
     /\ base_addr sd = current_address st
     /\ mem_size sd = declared_size st
     /\ nof_channels sd =
          bus_read32 (scan_fdev st)
            (current_address st + SUBDEV_NOFCHANNELS_OFFSET)
     /\ unique_id sd =
          bus_read32 (scan_fdev st)
            (current_address st + SUBDEV_UNIQUE_ID_OFFSET)
     /\ subdevice_counter st' = subdevice_counter st + 1
     /\ current_address st' = u32 (current_address st + declared_size st)
     /\ (0 <= current_address st ->
         current_address st + declared_size st < 2 ^ 32 ->
         current_address st' = current_address st + declared_size st))
  /\ (declared_size st <= MAIN_HEADER_SIZE + SUB_HEADER_SIZE ->
      exists st',
        scan_body st = (Break, st')
        /\ scan_loop (S fuel) st = Some st'
        /\ scan_fdev st' = scan_fdev st
        /\ subdevice_counter st' = subdevice_counter st).
Proof.
  intros G. split; intros H.
  - destruct (flink_subdevice_add_head (scan_fdev st)
                (header_subdevice (scan_fdev st) (current_address st)))
      as [sd [Hhd [_ [_ [Hbase [Hsize [Hch Huid]]]]]]].
    eexists. exists sd.
    split; [apply (scan_body_big st H) |].
    split; [rewrite (scan_loop_step fuel st G), (scan_body_big st H);
            reflexivity |].
    cbn [scan_fdev subdevice_counter current_address].
    split; [exact Hhd |].
    split; [exact Hbase |].
    split; [exact Hsize |].
    split; [exact Hch |].
    split; [exact Huid |].
    split; [reflexivity |].
    split; [reflexivity |].
    intros Hcur Hsum. apply u32_small.
    pose proof (bus_read32_range (scan_fdev st)
                  (current_address st + SUBDEV_SIZE_OFFSET)) as Hr.
    fold (declared_size st) in Hr. lia.
  - eexists.
    split; [apply (scan_body_small st H) |].
    split; [rewrite (scan_loop_step fuel st G), (scan_body_small st H);
            reflexivity |].
    split; reflexivity.
Qed.

(** When the subdevice materialized at a scan step has function id 0x00,
    the total-length word read at offset 32 of that subdevice replaces the
    scan limit: the last valid address becomes that word minus 1 in 32-bit
    arithmetic.  For a word of at least 1 the bound is the word itself; a
    word of 0 gives the last valid address [2 ^ 32 - 1].  The new last
    valid address stays in force for the rest of the walk: every subdevice
    materialized later starts below the one in effect, and when the scan
    pointer has already reached it the walk ends at once, whatever bytes
    follow. *)
Lemma info_subdevice_replaces_bound fuel st :
  scan_guard st = true ->
  MAIN_HEADER_SIZE + SUB_HEADER_SIZE < declared_size st ->
  function_id (header_subdevice (scan_fdev st) (current_address st))
    = INFO_FUNCTION_ID ->
  (Z.to_nat (MAX_NOF_SUBDEVICES - (subdevice_counter st + 1)) <= fuel)%nat ->
  exists st',
    scan_body st = (Continue, st')
    /\ scan_loop (S fuel) st = scan_loop fuel st'
    /\ In (Rd32 (u32 (current_address st + MAIN_HEADER_SIZE + SUB_HEADER_SIZE)))
         (scan_accesses st')
    /\ current_address st' = u32 (current_address st + declared_size st)
    /\ last_address st' = u32 (declared_total st - 1)
    /\ (1 <= declared_total st -> last_address st' + 1 = declared_total st)
    /\ (declared_total st = 0 -> last_address st' = 2 ^ 32 - 1)
    /\ (exists fin new,
          scan_loop fuel st' = Some fin
          /\ subdevices (scan_fdev fin) = rev new ++ subdevices (scan_fdev st')
          /\ under_last (bus_read32 (scan_fdev st))
               (u32 (declared_total st - 1)) new)
    /\ (u32 (declared_total st - 1) <= current_address st' ->
        scan_loop fuel st' = Some st').
Proof.
  intros G H Hinfo Hfuel.
  apply Z.eqb_eq in Hinfo.
  eexists. split; [apply (scan_body_big st H) |].
  rewrite Hinfo.
  split; [rewrite (scan_loop_step fuel st G), (scan_body_big st H), Hinfo;
          reflexivity |].
  cbn [scan_accesses last_address current_address].
  split.
  { apply in_or_app. right. apply in_or_app. right.
    apply in_or_app. right. left. reflexivity. }
  split; [reflexivity |].
  split; [reflexivity |].
  split.
  { intros H1. unfold declared_total in *.
    pose proof (bus_read32_range (scan_fdev st)
                  (current_address st + MAIN_HEADER_SIZE + SUB_HEADER_SIZE)).
    rewrite u32_pred by lia. lia. }
  split.
  { intros H0. rewrite H0. reflexivity. }
  split.
  - match goal with |- context [scan_loop fuel ?s] => set (st1 := s) end.
    destruct (scan_loop_total fuel st1 Hfuel) as [fin Hfin].
    destruct (scan_loop_under_last _ _ _ Hfin) as [new [Hsub Hlast]].
    exists fin, new. split; [exact Hfin |]. split; [exact Hsub |].
    exact Hlast.
  - intros Hstop. apply scan_loop_exit. unfold scan_guard.
    cbn [current_address last_address].
    apply andb_false_intro1. apply Z.ltb_ge. exact Hstop.
Qed.

End ScannerClaims.

(** ** The scanner on the sample hardware *)

Example sample_device_added :
  option_map (fun r => (fst (fst r), registry_of (snd (fst r)), snd r))
    (flink_device_add 0 sample_probe)
  = Some (0, registry_of sample_device,
          [Rd32 0; Rd32 4; Rd32 8; Rd32 12; Rd32 32;
           Rd32 48; Rd32 52; Rd32 56; Rd32 60; Rd32 96; Rd32 100]).
Proof. vm_compute. reflexivity. Qed.

Example scan_sample :
  option_map (fun st => (subdevice_counter st, current_address st,
                         last_address st))
    (scan_for_subdevices sample_probe)
  = Some (2, 96, 255).
Proof. vm_compute. reflexivity. Qed.

(** The info subdevice of [shrunk_probe] lowers the limit to 47: the
    header at 48 is never read. *)
Example scan_shrunk :
  option_map (fun st => (subdevice_counter st, map base_addr
                           (subdevices (scan_fdev st)), scan_accesses st))
    (scan_for_subdevices shrunk_probe)
  = Some (1, [0], [Rd32 0; Rd32 4; Rd32 8; Rd32 12; Rd32 32]).
Proof. vm_compute. reflexivity. Qed.

(** C2, counterexample to the claim as stated: in a 48-byte region whose
    first header declares 1000 bytes the scan creates a subdevice with
    [base_addr + mem_size = 1000 > 48]. *)
Lemma c2_oversize_subdevice :
  exists fin sd,
    scan_for_subdevices oversize_probe = Some fin
    /\ In sd (subdevices (scan_fdev fin))
    /\ bus_address_space_size oversize_probe = 48
    /\ ~ (base_addr sd + mem_size sd
          <= bus_address_space_size oversize_probe).
Proof.
  destruct (scan_for_subdevices_total oversize_probe) as [fin E].
  assert (Hs : option_map (fun s => subdevices (scan_fdev s))
                 (scan_for_subdevices oversize_probe) =
               Some [{| sd_id := 0; function_id := 1; sub_function_id := 2;
                        function_version := 3; base_addr := 0;
                        mem_size := 1000; nof_channels := 1;
                        unique_id := 43690 |}])
    by (vm_compute; reflexivity).
  rewrite E in Hs. cbn [option_map] in Hs. injection Hs as Hs.
  exists fin. eexists.
  split; [exact E |].
  split; [rewrite Hs; left; reflexivity |].
  split; [vm_compute; reflexivity |].
  cbn [base_addr mem_size].
  replace (bus_address_space_size oversize_probe) with 48
    by (vm_compute; reflexivity).
  lia.
Qed.

(** C5, instance: on the sample region the first step materializes the
    48-byte subdevice at offset 0 and moves on to 48; the step at offset 96
    reads a size word of 0 and ends the scan with two subdevices. *)
Lemma c5_scan_step_witness :
  (exists st' sd,
     scan_body (scan_init sample_probe) = (Continue, st')
     /\ base_addr sd = 0 /\ mem_size sd = 48
     /\ subdevices (scan_fdev st') = [sd]
     /\ current_address st' = 48)
  /\ (exists st',
        scan_loop 1 sample_scan_at_96 = Some st'
        /\ subdevice_counter st' = 2).
Proof.
  assert (G1 : scan_guard (scan_init sample_probe) = true)
    by (vm_compute; reflexivity).
  assert (B1 : MAIN_HEADER_SIZE + SUB_HEADER_SIZE
               < declared_size (scan_init sample_probe))
    by (vm_compute; reflexivity).
  assert (G2 : scan_guard sample_scan_at_96 = true)
    by (vm_compute; reflexivity).
  assert (S2 : declared_size sample_scan_at_96
               <= MAIN_HEADER_SIZE + SUB_HEADER_SIZE)
    by (vm_compute; discriminate).
  split.
  - destruct (c5_scan_step 255 (scan_init sample_probe) G1) as [Hbig _].
    destruct (Hbig B1)
      as [st' [sd [Hb [_ [Hs [Hbase [Hsize [_ [_ [_ [Hcur _]]]]]]]]]]].
    exists st', sd.
    split; [exact Hb |].
    split; [rewrite Hbase; vm_compute; reflexivity |].
    split; [rewrite Hsize; vm_compute; reflexivity |].
    split; [rewrite Hs; vm_compute; reflexivity |].
    rewrite Hcur. vm_compute. reflexivity.
  - destruct (c5_scan_step 0 sample_scan_at_96 G2) as [_ Hsmall].
    destruct (Hsmall S2) as [st' [_ [Hl [_ Hc]]]].
    exists st'. split; [exact Hl |].
    rewrite Hc. vm_compute. reflexivity.
Defined.

(** The info subdevice at offset 0 of [shrunk_probe] sets the last valid
    address to 47, and the walk ends there although a well-formed header
    follows at 48. *)
Lemma info_subdevice_shrinks_bound_on_sample :
  exists st',
    scan_body (scan_init shrunk_probe) = (Continue, st')
    /\ last_address st' = 47
    /\ current_address st' = 48
    /\ scan_loop 255 st' = Some st'.
Proof.
  assert (G : scan_guard (scan_init shrunk_probe) = true)
    by (vm_compute; reflexivity).
  assert (B : MAIN_HEADER_SIZE + SUB_HEADER_SIZE
              < declared_size (scan_init shrunk_probe))
    by (vm_compute; reflexivity).
  assert (F : function_id (header_subdevice (scan_fdev (scan_init shrunk_probe))
                             (current_address (scan_init shrunk_probe)))
              = INFO_FUNCTION_ID)
    by (vm_compute; reflexivity).
  assert (Hfuel : (Z.to_nat (MAX_NOF_SUBDEVICES
                             - (subdevice_counter (scan_init shrunk_probe) + 1))
                   <= 255)%nat) by (vm_compute; apply le_n).
  destruct (info_subdevice_replaces_bound 255 (scan_init shrunk_probe)
              G B F Hfuel)
    as [st' [Hb [_ [_ [Hc [Hl [_ [_ [_ Hstop]]]]]]]]].
  assert (Hc' : current_address st' = 48)
    by (rewrite Hc; vm_compute; reflexivity).
  exists st'.
  split; [exact Hb |].
  split; [rewrite Hl; vm_compute; reflexivity |].
  split; [exact Hc' |].
  apply Hstop. rewrite Hc'. vm_compute. discriminate.
Qed.

(** C6, what the code does with an info subdevice whose total-length word
    is 0: the last valid address wraps to 0xFFFFFFFF instead of ruling out
    every further address, so the walk goes on and materializes the
    subdevice whose header follows at 48, past the new bound 0. *)
Lemma c6_zero_total_length_lifts_bound :
  function_id (header_subdevice zero_total_probe 0) = INFO_FUNCTION_ID
  /\ declared_total (scan_init zero_total_probe) = 0
  /\ last_address (snd (scan_body (scan_init zero_total_probe))) = 4294967295
  /\ option_map
       (fun st => (subdevice_counter st,
                   map base_addr (subdevices (scan_fdev st)),
                   scan_accesses st))
       (scan_for_subdevices zero_total_probe)
     = Some (2, [48; 0],
             [Rd32 0; Rd32 4; Rd32 8; Rd32 12; Rd32 32;
              Rd32 48; Rd32 52; Rd32 56; Rd32 60; Rd32 96; Rd32 100]).
Proof. vm_compute. repeat split. Qed.

(** C8, what the code does on a bus of size 0: the last valid address
    wraps to 0xFFFFFFFF, the loop is entered and the header words at
    offsets 0 and 4 are read (the AXI backend answers 0 to both, so the
    scan then stops with no subdevice). *)
Lemma c8_zero_size_bus_is_read :
  bus_address_space_size empty_probe = 0
  /\ last_address (scan_init empty_probe) = 4294967295
  /\ scan_guard (scan_init empty_probe) = true
  /\ option_map (fun st => (subdevice_counter st, scan_accesses st))
       (scan_for_subdevices empty_probe)
     = Some (0, [Rd32 0; Rd32 4]).
Proof. vm_compute. repeat split. Qed.

(** ** The interrupt line table *)

Section IrqFacts.

Context {bus_data : Type}.
Implicit Types (d : flink_device bus_data) (f : file bus_data)
  (l : list flink_irq_data) (hwirq : flink_irq_data).

Lemma find_irq_nr l : forall nr hwirq,
  find_irq l nr = Some hwirq -> irq_nr hwirq = nr.
Proof.
  induction l as [| h rest IH]; intros nr hwirq H; simpl in H.
  - discriminate.
  - destruct (irq_nr h =? nr) eqn:E.
    + inversion H; subst. apply Z.eqb_eq. exact E.
    + apply IH. exact H.
Qed.

(** Reading the table after a write through the pointer of line [nr]. *)
Lemma find_store_irq l : forall nr hwirq hwirq' L,
  irq_nr hwirq' = nr ->
  find_irq l nr = Some hwirq ->
  find_irq (store_irq l nr hwirq') L =
    if L =? nr then Some hwirq' else find_irq l L.
Proof.
  induction l as [| h rest IH]; intros nr hwirq hwirq' L Hnr Hfind;
    simpl in Hfind.
  - discriminate.
  - simpl. destruct (irq_nr h =? nr) eqn:E.
    + simpl. rewrite Hnr. apply Z.eqb_eq in E. rewrite E.
      rewrite (Z.eqb_sym nr L). destruct (L =? nr); reflexivity.
    + simpl. rewrite (IH nr hwirq hwirq' L Hnr Hfind).
      destruct (L =? nr) eqn:EL.
      * apply Z.eqb_eq in EL. subst L. rewrite E. reflexivity.
      * reflexivity.
Qed.

Lemma lines_granted_all env n : forall i,
  (forall j, i <= j < i + Z.of_nat n ->
     irq_alloc_ok env j = true /\ irq_request_ok env j = true) ->
  lines_granted env i n = true.
Proof.
  induction n as [| n IH]; intros i H; cbn [lines_granted].
  - reflexivity.
  - destruct (H i ltac:(lia)) as [Ha Hr]. rewrite Ha, Hr. cbn [andb].
    apply IH. intros j Hj. apply H. lia.
Qed.

Lemma lines_granted_all_granted n : forall i,
  lines_granted all_granted i n = true.
Proof.
  intros i. apply lines_granted_all. intros j _. split; reflexivity.
Qed.

(** A line that was not fully granted stops the loop for all later ones. *)
Lemma lines_granted_stop env n : forall i k,
  (k < n)%nat ->
  irq_alloc_ok env (i + Z.of_nat k) && irq_request_ok env (i + Z.of_nat k)
  = false ->
  lines_granted env i n = false.
Proof.
  induction n as [| n IH]; intros i k Hk Hfail; [lia |].
  cbn [lines_granted]. destruct k as [| k].
  - replace (i + Z.of_nat 0) with i in Hfail by lia.
    rewrite Hfail. reflexivity.
  - rewrite (IH (i + 1) k); [apply andb_false_r | lia |].
    replace (i + 1 + Z.of_nat k) with (i + Z.of_nat (S k)) by lia.
    exact Hfail.
Qed.

(** Reading the table that the loop of [flink_device_init_irq] leaves: the
    slot of a line is there exactly when the loop got as far as creating
    it. *)
Lemma find_init_irq_entries_gen env n : forall i off acc L,
  find_irq (init_irq_entries env n i off acc) L =
    if (i <=? L) && (L <? i + Z.of_nat n)
       && lines_granted env i (Z.to_nat (L - i)) && irq_alloc_ok env L
    then Some (fresh_line off L)
    else find_irq acc L.
Proof.
  induction n as [| n IH]; intros i off acc L.
  - cbn [init_irq_entries].
    replace ((i <=? L) && (L <? i + Z.of_nat 0)) with false; [reflexivity |].
    symmetry. apply andb_false_iff.
    destruct (Z.leb_spec i L); [right; apply Z.ltb_ge; lia | left; reflexivity].
  - cbn [init_irq_entries].
    destruct (Z.leb_spec i L) as [Hle | Hgt]; cbn [andb].
    2: { (* L < i: the new slots are for later lines *)
      destruct (irq_alloc_ok env i); cbn [negb]; [| reflexivity].
      assert (Hne : (i =? L) = false) by (apply Z.eqb_neq; lia).
      destruct (irq_request_ok env i); cbn [negb].
      - rewrite IH.
        replace (i + 1 <=? L) with false by (symmetry; apply Z.leb_gt; lia).
        cbn [andb find_irq irq_nr]. rewrite Hne. reflexivity.
      - cbn [find_irq irq_nr]. rewrite Hne. reflexivity. }
    destruct (Z.eq_dec L i) as [-> | Hne].
    + (* the line being set up *)
      replace (i <? i + Z.of_nat (S n)) with true
        by (symmetry; apply Z.ltb_lt; lia).
      replace (Z.to_nat (i - i)) with O by lia.
      cbn [lines_granted andb].
      destruct (irq_alloc_ok env i); cbn [negb]; [| reflexivity].
      destruct (irq_request_ok env i); cbn [negb].
      * rewrite IH.
        replace (i + 1 <=? i) with false by (symmetry; apply Z.leb_gt; lia).
        cbn [andb find_irq irq_nr]. rewrite Z.eqb_refl. reflexivity.
      * cbn [find_irq irq_nr]. rewrite Z.eqb_refl. reflexivity.
    + (* a later line *)
      assert (Hne' : (i =? L) = false) by (apply Z.eqb_neq; lia).
      replace (Z.to_nat (L - i)) with (S (Z.to_nat (L - (i + 1)))) by lia.
      cbn [lines_granted].
      destruct (irq_alloc_ok env i); cbn [negb andb].
      2: { rewrite andb_false_r. reflexivity. }
      destruct (irq_request_ok env i); cbn [negb andb].
      * rewrite IH.
        replace (i + 1 <=? L) with true by (symmetry; apply Z.leb_le; lia).
        replace (L <? i + 1 + Z.of_nat n) with (L <? i + Z.of_nat (S n))
          by (f_equal; lia).
        cbn [andb].
        destruct ((L <? i + Z.of_nat (S n))
                  && lines_granted env (i + 1) (Z.to_nat (L - (i + 1)))
                  && irq_alloc_ok env L); [reflexivity |].
        cbn [find_irq irq_nr]. rewrite Hne'. reflexivity.
      * rewrite andb_false_r. cbn [andb find_irq irq_nr].
        rewrite Hne'. reflexivity.
Qed.

Lemma find_init_irq_entries_below env n : forall i off acc L,
  L < i -> find_irq (init_irq_entries env n i off acc) L = find_irq acc L.
Proof.
  intros i off acc L H. rewrite find_init_irq_entries_gen.
  replace (i <=? L) with false by (symmetry; apply Z.leb_gt; lia).
  reflexivity.
Qed.

(** When the kernel grants everything, [flink_device_init_irq] gives every
    declared line a fresh slot. *)
Lemma find_init_irq_entries env n : forall i off acc L,
  (forall j, i <= j < i + Z.of_nat n ->
     irq_alloc_ok env j = true /\ irq_request_ok env j = true) ->
  i <= L < i + Z.of_nat n ->
  find_irq (init_irq_entries env n i off acc) L =
    Some {| process_list := []; irq_nr := L; signal_count := 0;
            signal_nr_with_offset := 0;
            irq_nr_with_offset := u32 (off + L) |}.
Proof.
  intros i off acc L Hall H. rewrite find_init_irq_entries_gen.
  replace (i <=? L) with true by (symmetry; apply Z.leb_le; lia).
  replace (L <? i + Z.of_nat n) with true by (symmetry; apply Z.ltb_lt; lia).
  rewrite lines_granted_all by (intros j Hj; apply Hall; lia).
  destruct (Hall L H) as [-> _]. reflexivity.
Qed.

Lemma irq_table_ok_init env (ops : flink_bus_ops bus_data) (bd : bus_data)
  (nof_irq irq_off signal_off : Z) :
  (forall j, 0 <= j < nof_irq ->
     irq_alloc_ok env j = true /\ irq_request_ok env j = true) ->
  irq_table_ok (flink_device_init_irq env ops bd nof_irq irq_off signal_off).
Proof.
  intros Hall L HL. cbn [flink_device_init_irq nof_irqs hw_irq_data] in *.
  eexists. apply find_init_irq_entries; [| lia].
  intros j Hj. apply Hall. lia.
Qed.

Lemma pid_registered_spec (pl : list flink_process_data) (p : Z) :
  pid_registered pl p = true <->
  exists fsignal, In fsignal pl /\ pid (user_task fsignal) = p.
Proof.
  unfold pid_registered. rewrite existsb_exists.
  split; intros [x [Hin Hx]]; exists x; split; try exact Hin.
  - apply Z.eqb_eq. exact Hx.
  - apply Z.eqb_eq. exact Hx.
Qed.

(** A well-formed request for a declared line passes the opening checks. *)
Lemma irq_request_in_range f d (u : user_memory) c L :
  nof_irqs d <> 0 ->
  arg_container u = Some c ->
  u8 (c_size c) = 4 ->
  arg_payload u = Some L ->
  0 <= L < 2 ^ 32 ->
  L < nof_irqs d ->
  irq_request f d u = inr L.
Proof.
  intros Hn Hc Hs Hp HL Hlt. unfold irq_request.
  apply Z.eqb_neq in Hn. rewrite Hn, Hc, Hs, Hp. cbn [Z.eqb negb].
  rewrite (u32_small L HL).
  replace (nof_irqs d <=? L) with false by (symmetry; apply Z.leb_gt; lia).
  reflexivity.
Qed.

(** [case REGISTER_IRQ] once the line is found. *)
Lemma register_irq_found (t : task_struct) d cs (u : user_memory) c L hwirq :
  nof_irqs d <> 0 ->
  arg_container u = Some c ->
  u8 (c_size c) = 4 ->
  arg_payload u = Some L ->
  0 <= L < 2 ^ 32 ->
  L < nof_irqs d ->
  find_irq (hw_irq_data d) L = Some hwirq ->
  flink_ioctl t (session_of d cs) REGISTER_IRQ u =
    Some
      (if pid_registered (process_list hwirq) (pid t)
       then fails (- EINVAL) (session_of d cs) [MsgAlreadyRegistered L]
       else if negb (kzalloc_ok u)
       then fails (- ENOMEM) (session_of d cs) [MsgSignalAllocFailed L]
       else
         returns (u32 (signal_offset d + L))
           (session_of
              (set_hw_irq_data d
                 (store_irq (hw_irq_data d) L
                    {| process_list :=
                         {| user_task := t |} :: process_list hwirq;
                       irq_nr := L;
                       signal_count := u32 (signal_count hwirq + 1);
                       signal_nr_with_offset := u32 (signal_offset d + L);
                       irq_nr_with_offset := irq_nr_with_offset hwirq |}))
              cs)).
Proof.
  intros Hn Hc Hs Hp HL Hlt Hfind.
  cbn [flink_ioctl ioctl_register_irq session_of private_data].
  rewrite (irq_request_in_range _ d u c L Hn Hc Hs Hp HL Hlt), Hfind.
  rewrite (find_irq_nr _ _ _ Hfind).
  destruct (pid_registered (process_list hwirq) (pid t)); [reflexivity |].
  destruct (kzalloc_ok u); reflexivity.
Qed.

(** [case UNREGISTER_IRQ] once the line is found. *)
Lemma unregister_irq_found (t : task_struct) d cs (u : user_memory) c L hwirq :
  nof_irqs d <> 0 ->
  arg_container u = Some c ->
  u8 (c_size c) = 4 ->
  arg_payload u = Some L ->
  0 <= L < 2 ^ 32 ->
  L < nof_irqs d ->
  find_irq (hw_irq_data d) L = Some hwirq ->
  flink_ioctl t (session_of d cs) UNREGISTER_IRQ u =
    Some
      (if signal_count hwirq =? 0
       then fails (- EINVAL) (session_of d cs) [MsgNoSignalRegistered L]
       else if pid_registered (process_list hwirq) (pid t)
       then
         returns 0
           (session_of
              (set_hw_irq_data d
                 (store_irq (hw_irq_data d) L
                    {| process_list :=
                         list_del_pid (process_list hwirq) (pid t);
                       irq_nr := L;
                       signal_count := signal_count hwirq;
                       signal_nr_with_offset := signal_nr_with_offset hwirq;
                       irq_nr_with_offset := irq_nr_with_offset hwirq |}))
              cs)
       else returns (- EINVAL) (session_of d cs)).
Proof.
  intros Hn Hc Hs Hp HL Hlt Hfind.
  cbn [flink_ioctl ioctl_unregister_irq session_of private_data].
  rewrite (irq_request_in_range _ d u c L Hn Hc Hs Hp HL Hlt), Hfind.
  rewrite (find_irq_nr _ _ _ Hfind).
  destruct (signal_count hwirq =? 0); [reflexivity |].
  destruct (pid_registered (process_list hwirq) (pid t)); reflexivity.
Qed.

(** A write through the pointer of a line keeps every slot in place. *)
Lemma irq_table_ok_store d L hwirq hwirq' :
  irq_table_ok d ->
  find_irq (hw_irq_data d) L = Some hwirq ->
  irq_nr hwirq' = L ->
  irq_table_ok (set_hw_irq_data d (store_irq (hw_irq_data d) L hwirq')).
Proof.
  intros Hok Hfind Hnr L' HL'.
  cbn [set_hw_irq_data hw_irq_data nof_irqs] in *.
  rewrite (find_store_irq _ L hwirq hwirq' L' Hnr Hfind).
  destruct (L' =? L); [eexists; reflexivity | apply Hok; exact HL'].
Qed.

(** Every call of [flink_ioctl] leaves the session on a device with the
    same declared lines and offsets, and with every slot in place. *)
Lemma flink_ioctl_keeps_irq_table (t : task_struct) d cs
  (cmd : ioctl_cmd) (u : user_memory) (o : outcome) :
  irq_table_ok d ->
  flink_ioctl t (session_of d cs) cmd u = Some o ->
  exists d' cs',
    file_after o = session_of d' cs'
    /\ irq_table_ok d'
    /\ nof_irqs d' = nof_irqs d
    /\ signal_offset d' = signal_offset d.
Proof.
  intros Hok Hrun.
  assert (Hsame : forall r m,
            exists d' cs',
              file_after (fails r (session_of d cs) m) = session_of d' cs'
              /\ irq_table_ok d' /\ nof_irqs d' = nof_irqs d
              /\ signal_offset d' = signal_offset d).
  { intros r m. exists d, cs. repeat split; try reflexivity. exact Hok. }
  destruct cmd; cbn [flink_ioctl] in Hrun.
  - destruct (arg_id u); inversion Hrun; subst o; [| apply (Hsame _ [])].
    eexists d, _. repeat split; try reflexivity. exact Hok.
  - destruct (arg_id u); inversion Hrun; subst o; [| apply (Hsame _ [])].
    eexists d, _. repeat split; try reflexivity. exact Hok.
  - unfold ioctl_read_single_bit in Hrun.
    destruct (arg_bit u) as [c |];
      [| inversion Hrun; subst o; apply (Hsame _ [])].
    cbn [session_of private_data] in Hrun.
    destruct cs as [sd |]; [| discriminate Hrun].
    destruct (bit_mask (bc_bit c)); [| discriminate Hrun].
    inversion Hrun; subst o. exists d, (Some sd).
    repeat split; try reflexivity. exact Hok.
  - unfold ioctl_write_single_bit in Hrun.
    destruct (arg_bit u) as [c |];
      [| inversion Hrun; subst o; apply (Hsame _ [])].
    cbn [session_of private_data] in Hrun.
    destruct cs as [sd |]; [| discriminate Hrun].
    destruct (bit_mask (bc_bit c)); [| discriminate Hrun].
    inversion Hrun; subst o. eexists _, (Some sd).
    split; [reflexivity |]. repeat split; try reflexivity. exact Hok.
  - unfold ioctl_select_and_read in Hrun.
    destruct (arg_container u) as [c |];
      [| inversion Hrun; subst o; apply (Hsame _ [])].
    destruct (c_data c =? 0);
      [inversion Hrun; subst o; apply (Hsame _ []) |].
    cbn [session_of private_data fdev] in Hrun.
    destruct (flink_get_subdevice_by_id (Some d) (c_subdevice c)) as [src |];
      [| inversion Hrun; subst o; apply (Hsame _ [])].
    destruct (mem_size src <? u32 (c_offset c));
      [inversion Hrun; subst o; apply (Hsame _ []) |].
    destruct (u8 (c_size c) =? 1);
      [inversion Hrun; subst o; exists d, cs;
       repeat split; try reflexivity; exact Hok |].
    destruct (u8 (c_size c) =? 2);
      [inversion Hrun; subst o; exists d, cs;
       repeat split; try reflexivity; exact Hok |].
    destruct (u8 (c_size c) =? 4);
      inversion Hrun; subst o; exists d, cs;
      repeat split; try reflexivity; exact Hok.
  - cbn [ioctl_register_irq session_of private_data] in Hrun.
    destruct (irq_request (session_of d cs) d u) as [early | L] eqn:Hreq.
    + unfold irq_request in Hreq.
      destruct (nof_irqs d =? 0);
        [inversion Hreq; subst early; inversion Hrun; subst o; apply Hsame |].
      destruct (arg_container u) as [c |];
        [| inversion Hreq; subst early; inversion Hrun; subst o; apply Hsame].
      destruct (negb (u8 (c_size c) =? 4));
        [inversion Hreq; subst early; inversion Hrun; subst o; apply Hsame |].
      destruct (arg_payload u) as [v |];
        [| inversion Hreq; subst early; inversion Hrun; subst o; apply Hsame].
      destruct (nof_irqs d <=? u32 v);
        [inversion Hreq; subst early; inversion Hrun; subst o; apply Hsame
        | discriminate Hreq].
    + destruct (find_irq (hw_irq_data d) L) as [hwirq |] eqn:Hfind;
        [| inversion Hrun; subst o; apply (Hsame _ [])].
      destruct (pid_registered (process_list hwirq) (pid t));
        [inversion Hrun; subst o; apply Hsame |].
      destruct (negb (kzalloc_ok u));
        [inversion Hrun; subst o; apply Hsame |].
      inversion Hrun; subst o. eexists _, cs.
      split; [reflexivity |]. split; [| split; reflexivity].
      apply (irq_table_ok_store d L hwirq); [exact Hok | exact Hfind |].
      cbn [irq_nr]. apply (find_irq_nr _ _ _ Hfind).
  - cbn [ioctl_unregister_irq session_of private_data] in Hrun.
    destruct (irq_request (session_of d cs) d u) as [early | L] eqn:Hreq.
    + unfold irq_request in Hreq.
      destruct (nof_irqs d =? 0);
        [inversion Hreq; subst early; inversion Hrun; subst o; apply Hsame |].
      destruct (arg_container u) as [c |];
        [| inversion Hreq; subst early; inversion Hrun; subst o; apply Hsame].
      destruct (negb (u8 (c_size c) =? 4));
        [inversion Hreq; subst early; inversion Hrun; subst o; apply Hsame |].
      destruct (arg_payload u) as [v |];
        [| inversion Hreq; subst early; inversion Hrun; subst o; apply Hsame].
      destruct (nof_irqs d <=? u32 v);
        [inversion Hreq; subst early; inversion Hrun; subst o; apply Hsame
        | discriminate Hreq].
    + destruct (find_irq (hw_irq_data d) L) as [hwirq |] eqn:Hfind;
        [| inversion Hrun; subst o; apply (Hsame _ [])].
      destruct (signal_count hwirq =? 0);
        [inversion Hrun; subst o; apply Hsame |].
      destruct (pid_registered (process_list hwirq) (pid t));
        [| inversion Hrun; subst o; apply (Hsame _ [])].
      inversion Hrun; subst o. eexists _, cs.
      split; [reflexivity |]. split; [| split; reflexivity].
      apply (irq_table_ok_store d L hwirq); [exact Hok | exact Hfind |].
      cbn [irq_nr]. apply (find_irq_nr _ _ _ Hfind).
Qed.

End IrqFacts.

Section IrqClaims.

Context {bus_data : Type}.
Implicit Types (d : flink_device bus_data) (f : file bus_data)
  (hwirq : flink_irq_data) (t : task_struct).

(** A successful registration: the process was not subscribed, it now
    heads the line's list, and the count went up by one. *)
Lemma register_irq_success t d cs (u : user_memory) c L hwirq o :
  nof_irqs d <> 0 ->
  arg_container u = Some c ->
  u8 (c_size c) = 4 ->
  arg_payload u = Some L ->
  0 <= L < 2 ^ 32 ->
  L < nof_irqs d ->
  find_irq (hw_irq_data d) L = Some hwirq ->
  flink_ioctl t (session_of d cs) REGISTER_IRQ u = Some o ->
  succeeded o ->
  pid_registered (process_list hwirq) (pid t) = false
  /\ ret o = u32 (signal_offset d + L)
  /\ exists d',
       file_after o = session_of d' cs
       /\ nof_irqs d' = nof_irqs d
       /\ signal_offset d' = signal_offset d
       /\ find_irq (hw_irq_data d') L =
            Some {| process_list := {| user_task := t |} :: process_list hwirq;
                    irq_nr := L;
                    signal_count := u32 (signal_count hwirq + 1);
                    signal_nr_with_offset := u32 (signal_offset d + L);
                    irq_nr_with_offset := irq_nr_with_offset hwirq |}.
Proof.
  intros Hn Hc Hs Hp HL Hlt Hfind Hrun Hok.
  rewrite (register_irq_found t d cs u c L hwirq Hn Hc Hs Hp HL Hlt Hfind)
    in Hrun.
  unfold succeeded in Hok.
  destruct (pid_registered (process_list hwirq) (pid t)).
  { inversion Hrun; subst o. cbn in Hok. lia. }
  destruct (kzalloc_ok u); cbn [negb] in Hrun.
  2: { inversion Hrun; subst o. cbn in Hok. lia. }
  inversion Hrun; subst o. cbn [ret returns file_after].
  split; [reflexivity |]. split; [reflexivity |].
  eexists. split; [reflexivity |].
  cbn [set_hw_irq_data nof_irqs signal_offset hw_irq_data].
  split; [reflexivity |]. split; [reflexivity |].
  erewrite find_store_irq; [| reflexivity | exact Hfind].
  rewrite Z.eqb_refl. reflexivity.
Qed.

(** On a device with at least one declared line, a successful
    REGISTER_IRQ for an in-range line [L] that has its slot returns the
    line's notification number, [signal_offset + L] computed in the [u32]
    field [signal_nr_with_offset] (the plain sum whenever it fits in 32
    bits), and that is the number stored in the line's slot. *)
Lemma register_returns_signal_number t d cs (u : user_memory) c L hwirq :
  1 <= nof_irqs d ->
  find_irq (hw_irq_data d) L = Some hwirq ->
  arg_container u = Some c ->
  u8 (c_size c) = 4 ->
  arg_payload u = Some L ->
  0 <= L < 2 ^ 32 ->
  L < nof_irqs d ->
  exists o,
    flink_ioctl t (session_of d cs) REGISTER_IRQ u = Some o
    /\ (succeeded o ->
        ret o = u32 (signal_offset d + L)
        /\ (0 <= signal_offset d -> signal_offset d + L < 2 ^ 32 ->
            ret o = signal_offset d + L)
        /\ exists d' hwirq',
             device_of (file_after o) = Some d'
             /\ find_irq (hw_irq_data d') L = Some hwirq'
             /\ signal_nr_with_offset hwirq' = ret o).
Proof.
  intros Hn Hfind Hc Hs Hp HL Hlt.
  assert (Hn' : nof_irqs d <> 0) by lia.
  pose proof (register_irq_found t d cs u c L hwirq Hn' Hc Hs Hp HL Hlt Hfind)
    as Hrun.
  eexists. split; [exact Hrun |].
  intros Hsucc.
  destruct (register_irq_success t d cs u c L hwirq _
              Hn' Hc Hs Hp HL Hlt Hfind Hrun Hsucc)
    as [_ [Hret [d' [Hfile [_ [_ Hline]]]]]].
  split; [exact Hret |]. split.
  - intros H0 Hfit. rewrite Hret. apply u32_small. lia.
  - exists d'. eexists. rewrite Hfile. split; [reflexivity |].
    split; [exact Hline |]. rewrite Hret. reflexivity.
Qed.

(** For an in-range line without slot REGISTER_IRQ and UNREGISTER_IRQ walk
    the whole table, find nothing and return 0 with the session as it
    was. *)
Lemma irq_ioctl_without_slot t d cs (u : user_memory) c L :
  nof_irqs d <> 0 ->
  arg_container u = Some c ->
  u8 (c_size c) = 4 ->
  arg_payload u = Some L ->
  0 <= L < 2 ^ 32 ->
  L < nof_irqs d ->
  find_irq (hw_irq_data d) L = None ->
  flink_ioctl t (session_of d cs) REGISTER_IRQ u
  = Some (returns 0 (session_of d cs))
  /\ flink_ioctl t (session_of d cs) UNREGISTER_IRQ u
     = Some (returns 0 (session_of d cs)).
Proof.
  intros Hn Hc Hs Hp HL Hlt Hfind.
  cbn [flink_ioctl ioctl_register_irq ioctl_unregister_irq session_of
       private_data].
  rewrite (irq_request_in_range _ d u c L Hn Hc Hs Hp HL Hlt), Hfind.
  split; reflexivity.
Qed.

(** C4: REGISTER_IRQ is rejected
    - with [-EPERM] and "Irq functionality not available" when the device
      declares no interrupt line (NotSupported);
    - with [-EINVAL] and "IRQ number ... is too high" when the requested
      line is not below the declared count (InvalidArgument);
    - with [-EINVAL] and "IRQ ... is already registered" when the line's
      list already holds the calling process (AlreadyRegistered);
    each time leaving the session and its device as they were.  In
    particular a second registration right after a successful one is
    rejected as already registered, and the line keeps the count the first
    one left. *)
Theorem c4_register_rejections t d cs (u : user_memory) :
  (nof_irqs d = 0 ->
   flink_ioctl t (session_of d cs) REGISTER_IRQ u =
     Some (fails (- EPERM) (session_of d cs) [MsgIrqNotAvailable]))
  /\ (forall c L,
        nof_irqs d <> 0 ->
        arg_container u = Some c -> u8 (c_size c) = 4 ->
        arg_payload u = Some L -> 0 <= L < 2 ^ 32 ->
        nof_irqs d <= L ->
        flink_ioctl t (session_of d cs) REGISTER_IRQ u =
          Some (fails (- EINVAL) (session_of d cs)
                  [MsgIrqTooHigh L (nof_irqs d - 1)]))
  /\ (forall c L hwirq fsignal,
        nof_irqs d <> 0 ->
        arg_container u = Some c -> u8 (c_size c) = 4 ->
        arg_payload u = Some L -> 0 <= L < 2 ^ 32 ->
        L < nof_irqs d ->
        find_irq (hw_irq_data d) L = Some hwirq ->
        In fsignal (process_list hwirq) ->
        pid (user_task fsignal) = pid t ->
        flink_ioctl t (session_of d cs) REGISTER_IRQ u =
          Some (fails (- EINVAL) (session_of d cs) [MsgAlreadyRegistered L]))
  /\ (forall c L o,
        irq_table_ok d ->
        nof_irqs d <> 0 ->
        arg_container u = Some c -> u8 (c_size c) = 4 ->
        arg_payload u = Some L -> 0 <= L < 2 ^ 32 ->
        L < nof_irqs d ->
        flink_ioctl t (session_of d cs) REGISTER_IRQ u = Some o ->
        succeeded o ->
        exists o',
          flink_ioctl t (file_after o) REGISTER_IRQ u = Some o'
          /\ ret o' = - EINVAL
          /\ klog o' = [MsgAlreadyRegistered L]
          /\ file_after o' = file_after o
          /\ line_state (file_after o') L = line_state (file_after o) L).
Proof.
  split; [| split; [| split]].
  - intros Hn. cbn [flink_ioctl ioctl_register_irq session_of private_data].
    unfold irq_request. rewrite Hn. reflexivity.
  - intros c L Hn Hc Hs Hp HL Hge.
    cbn [flink_ioctl ioctl_register_irq session_of private_data].
    unfold irq_request. apply Z.eqb_neq in Hn.
    rewrite Hn, Hc, Hs, Hp. cbn [Z.eqb negb].
    rewrite (u32_small L HL).
    replace (nof_irqs d <=? L) with true by (symmetry; apply Z.leb_le; lia).
    reflexivity.
  - intros c L hwirq fsignal Hn Hc Hs Hp HL Hlt Hfind Hin Hpid.
    rewrite (register_irq_found t d cs u c L hwirq Hn Hc Hs Hp HL Hlt Hfind).
    replace (pid_registered (process_list hwirq) (pid t)) with true.
    + reflexivity.
    + symmetry. apply pid_registered_spec. exists fsignal. split; assumption.
  - intros c L o Hok Hn Hc Hs Hp HL Hlt Hrun Hsucc.
    destruct (Hok L) as [hwirq Hfind]; [lia |].
    destruct (register_irq_success t d cs u c L hwirq o
                Hn Hc Hs Hp HL Hlt Hfind Hrun Hsucc)
      as [_ [_ [d' [Hfile [Hn' [_ Hline]]]]]].
    rewrite Hfile.
    assert (Hn2 : nof_irqs d' <> 0) by (rewrite Hn'; exact Hn).
    assert (Hlt2 : L < nof_irqs d') by (rewrite Hn'; exact Hlt).
    rewrite (register_irq_found t d' cs u c L _ Hn2 Hc Hs Hp HL Hlt2 Hline).
    cbn [process_list pid_registered existsb user_task].
    rewrite Z.eqb_refl. cbn [orb].
    eexists. split; [reflexivity |]. repeat split.
Qed.

(** A registration followed by the same process's unregistration: the
    process list is back to what it was, the count is not. *)
Lemma register_unregister_round_trip t d cs (u : user_memory) c L hwirq o1 :
  nof_irqs d <> 0 ->
  arg_container u = Some c ->
  u8 (c_size c) = 4 ->
  arg_payload u = Some L ->
  0 <= L < 2 ^ 32 ->
  L < nof_irqs d ->
  find_irq (hw_irq_data d) L = Some hwirq ->
  flink_ioctl t (session_of d cs) REGISTER_IRQ u = Some o1 ->
  succeeded o1 ->
  u32 (signal_count hwirq + 1) <> 0 ->
  exists o2 d2,
    flink_ioctl t (file_after o1) UNREGISTER_IRQ u = Some o2
    /\ ret o2 = 0
    /\ file_after o2 = session_of d2 cs
    /\ find_irq (hw_irq_data d2) L =
         Some {| process_list := process_list hwirq;
                 irq_nr := L;
                 signal_count := u32 (signal_count hwirq + 1);
                 signal_nr_with_offset := u32 (signal_offset d + L);
                 irq_nr_with_offset := irq_nr_with_offset hwirq |}.
Proof.
  intros Hn Hc Hs Hp HL Hlt Hfind Hrun Hsucc Hcount.
  destruct (register_irq_success t d cs u c L hwirq o1
              Hn Hc Hs Hp HL Hlt Hfind Hrun Hsucc)
    as [_ [_ [d' [Hfile [Hn' [_ Hline]]]]]].
  rewrite Hfile.
  assert (Hn2 : nof_irqs d' <> 0) by (rewrite Hn'; exact Hn).
  assert (Hlt2 : L < nof_irqs d') by (rewrite Hn'; exact Hlt).
  rewrite (unregister_irq_found t d' cs u c L _ Hn2 Hc Hs Hp HL Hlt2 Hline).
  cbn [signal_count process_list pid_registered existsb user_task
       list_del_pid signal_nr_with_offset irq_nr_with_offset].
  apply Z.eqb_neq in Hcount. rewrite Hcount.
  rewrite Z.eqb_refl. cbn [orb].
  eexists. eexists. split; [reflexivity |].
  cbn [ret returns file_after]. split; [reflexivity |].
  split; [reflexivity |].
  cbn [set_hw_irq_data hw_irq_data].
  erewrite find_store_irq; [| reflexivity | exact Hline].
  rewrite Z.eqb_refl. reflexivity.
Qed.

End IrqClaims.

(** ** The interrupt ioctls on the sample device *)

Lemma sample_device_irq_table_ok : irq_table_ok sample_device.
Proof.
  intros L HL.
  assert (Hn : nof_irqs sample_device = 2) by (vm_compute; reflexivity).
  rewrite Hn in HL.
  assert (HL' : L = 0 \/ L = 1) by lia.
  destruct HL' as [-> | ->]; eexists; vm_compute; reflexivity.
Qed.

(** Process 1000 registers on line 1 of the sample device (signal offset
    34) and gets 35. *)
Lemma register_returns_signal_number_on_sample :
  exists o,
    flink_ioctl {| pid := 1000 |} (session_of sample_device None)
      REGISTER_IRQ (irq_request_for 1 true) = Some o
    /\ succeeded o
    /\ ret o = 35.
Proof.
  assert (Hn : 1 <= nof_irqs sample_device) by (vm_compute; discriminate).
  assert (Hs : u8 (c_size {| c_subdevice := 0; c_offset := 0; c_size := 4;
                             c_data := 1 |}) = 4)
    by (vm_compute; reflexivity).
  assert (HL : 0 <= 1 < 2 ^ 32) by lia.
  assert (Hlt : 1 < nof_irqs sample_device) by (vm_compute; reflexivity).
  destruct (sample_device_irq_table_ok 1 ltac:(split; [lia | exact Hlt]))
    as [hwirq Hfind].
  destruct (register_returns_signal_number {| pid := 1000 |}
              sample_device None (irq_request_for 1 true) _ 1 hwirq
              Hn Hfind eq_refl Hs eq_refl HL Hlt)
    as [o [Hrun Hprop]].
  assert (Hret : option_map ret
                   (flink_ioctl {| pid := 1000 |}
                      (session_of sample_device None) REGISTER_IRQ
                      (irq_request_for 1 true)) = Some 35)
    by (vm_compute; reflexivity).
  rewrite Hrun in Hret. cbn [option_map] in Hret. injection Hret as Hret.
  assert (Hsucc : succeeded o) by (unfold succeeded; rewrite Hret; lia).
  exists o. split; [exact Hrun |]. split; [exact Hsucc |].
  destruct (Hprop Hsucc) as [Hsum _].
  rewrite Hsum. vm_compute. reflexivity.
Qed.

(** C7, what the code does after a failed line set-up: the kernel refuses
    the handler of line 0, [flink_device_init_irq] logs that the interrupt
    functionality is disabled and returns, but the device still declares
    its 2 lines and only line 0 has a slot.  REGISTER_IRQ for the in-range
    line 1 then finds no slot and returns 0, a success, with nothing
    logged and nothing registered, where the line's notification number
    is [34 + 1]. *)
Lemma c7_register_on_unset_line_returns_zero :
  option_map
    (fun r =>
       (nof_irqs (snd (fst r)), signal_offset (snd (fst r)),
        map irq_nr (hw_irq_data (snd (fst r))),
        option_map (fun o => (ret o, klog o, line_state (file_after o) 1))
          (flink_ioctl {| pid := 1000 |} (session_of (snd (fst r)) None)
             REGISTER_IRQ (irq_request_for 1 true))))
    (flink_device_add 0 unset_line_probe)
  = Some (2, 34, [0], Some (0, [], None)).
Proof. vm_compute. reflexivity. Qed.

(** C4, instances: registration is refused with [-EPERM] on a device
    without interrupt lines, with [-EINVAL] for line 2 of the two-line
    sample device, and with [-EINVAL] when process 1000 registers on line 0
    a second time; the count of line 0 stays at 1. *)
Lemma c4_register_rejections_witness :
  option_map ret
    (flink_ioctl {| pid := 1000 |} (session_of oversize_probe None)
       REGISTER_IRQ (irq_request_for 0 true)) = Some (-1)
  /\ option_map ret
       (flink_ioctl {| pid := 1000 |} (session_of sample_device None)
          REGISTER_IRQ (irq_request_for 2 true)) = Some (-22)
  /\ exists o o',
       flink_ioctl {| pid := 1000 |} (session_of sample_device None)
         REGISTER_IRQ (irq_request_for 0 true) = Some o
       /\ flink_ioctl {| pid := 1000 |} (file_after o) REGISTER_IRQ
            (irq_request_for 0 true) = Some o'
       /\ ret o' = -22
       /\ line_state (file_after o') 0 = Some (1, [1000]).
Proof.
  assert (Hn : nof_irqs sample_device <> 0) by (vm_compute; discriminate).
  assert (Hs : u8 (c_size {| c_subdevice := 0; c_offset := 0; c_size := 4;
                             c_data := 1 |}) = 4)
    by (vm_compute; reflexivity).
  split; [| split].
  - assert (H0 : nof_irqs oversize_probe = 0) by (vm_compute; reflexivity).
    destruct (c4_register_rejections {| pid := 1000 |} oversize_probe None
                (irq_request_for 0 true)) as [H _].
    rewrite (H H0). vm_compute. reflexivity.
  - destruct (c4_register_rejections {| pid := 1000 |} sample_device None
                (irq_request_for 2 true)) as [_ [H _]].
    assert (Hge : nof_irqs sample_device <= 2) by (vm_compute; discriminate).
    assert (HL : 0 <= 2 < 2 ^ 32) by lia.
    rewrite (H _ 2 Hn eq_refl Hs eq_refl HL Hge). vm_compute. reflexivity.
  - destruct (c4_register_rejections {| pid := 1000 |} sample_device None
                (irq_request_for 0 true)) as [_ [_ [_ H]]].
    assert (Hlt : 0 < nof_irqs sample_device) by (vm_compute; reflexivity).
    assert (HL : 0 <= 0 < 2 ^ 32) by lia.
    assert (Hfirst :
              exists o,
                flink_ioctl {| pid := 1000 |} (session_of sample_device None)
                  REGISTER_IRQ (irq_request_for 0 true) = Some o
                /\ ret o = 34
                /\ line_state (file_after o) 0 = Some (1, [1000])).
    { destruct (some_of_view
                  (flink_ioctl {| pid := 1000 |}
                     (session_of sample_device None)
                     REGISTER_IRQ (irq_request_for 0 true))
                  (fun o => (ret o, line_state (file_after o) 0))
                  (34, Some (1, [1000])))
        as [o [Hrun Hview]]; [vm_compute; reflexivity |].
      exists o. injection Hview as Hret Hline.
      split; [exact Hrun |]. split; [exact Hret | exact Hline]. }
    destruct Hfirst as [o [Hrun [Hret Hline]]].
    assert (Hsucc : succeeded o) by (unfold succeeded; rewrite Hret; lia).
    destruct (H _ 0 o sample_device_irq_table_ok Hn eq_refl Hs eq_refl
                HL Hlt Hrun Hsucc)
      as [o' [Hrun' [Hret' [_ [_ Hsame]]]]].
    exists o, o'. split; [exact Hrun |]. split; [exact Hrun' |].
    split; [rewrite Hret'; vm_compute; reflexivity |].
    rewrite Hsame. exact Hline.
Defined.

(** C1, what the code does: process 1000 registers on line 0 of the
    sample device, whose line 0 starts with count 0 and no subscriber, and
    then unregisters.  Both calls succeed; the subscriber list is empty
    again, but the count is still 1, since UNREGISTER_IRQ never decrements
    [signal_count]. *)
Lemma c1_round_trip_leaves_count_at_one :
  line_state (session_of sample_device None) 0 = Some (0, [])
  /\ register_then_unregister {| pid := 1000 |}
       (session_of sample_device None) 0
     = Some (34, Some (1, [1000]), 0, Some (1, [])).
Proof. split; vm_compute; reflexivity. Qed.

(** ** Session forwarding *)

Section SessionClaims.

Context {bus_data : Type}.
Implicit Types (d : flink_device bus_data) (f : file bus_data)
  (sd : flink_subdevice) (t : task_struct).

(** C3, as amended: SELECT_AND_READ with an offset strictly greater than
    the [mem_size] of the addressed subdevice returns the error [-EINVAL];
    it performs no bus access, copies nothing to user space and leaves the
    session as it was. *)
Theorem c3_select_and_read_past_size t f pdata (u : user_memory) c sd :
  arg_container u = Some c ->
  private_data f = Some pdata ->
  flink_get_subdevice_by_id (fdev pdata) (c_subdevice c) = Some sd ->
  mem_size sd < u32 (c_offset c) ->
  exists o,
    flink_ioctl t f SELECT_AND_READ u = Some o
    /\ ret o = - EINVAL
    /\ accesses o = []
    /\ to_user o = NoCopy
    /\ file_after o = f.
Proof.
  intros Hc Hp Hsd Hoff.
  exists (returns (- EINVAL) f). split; [| repeat split].
  cbn [flink_ioctl]. unfold ioctl_select_and_read. rewrite Hc.
  destruct (c_data c =? 0); [reflexivity |].
  rewrite Hp, Hsd.
  destruct (fdev pdata) as [d |]; [| reflexivity].
  apply Z.ltb_lt in Hoff. rewrite Hoff. reflexivity.
Qed.

(** Stream reads and writes with no subdevice selected. *)
Lemma flink_read_unselected d size offset ok :
  flink_read (session_of d None) size offset ok
  = Some (returns 0 (session_of d None)).
Proof. reflexivity. Qed.

Lemma flink_write_unselected d data size offset :
  flink_write (session_of d None) data size offset
  = Some (returns 0 (session_of d None)).
Proof. reflexivity. Qed.

(** Stream reads and writes past the size of the selected subdevice. *)
Lemma flink_read_past_size d sd size offset ok :
  mem_size sd < u32 offset ->
  flink_read (session_of d (Some sd)) size offset ok
  = Some (returns 0 (session_of d (Some sd))).
Proof.
  intros H. cbn [flink_read session_of private_data current_subdevice fdev].
  apply Z.ltb_lt in H. rewrite H. reflexivity.
Qed.

Lemma flink_write_past_size d sd data size offset :
  mem_size sd < u32 offset ->
  flink_write (session_of d (Some sd)) data size offset
  = Some (returns 0 (session_of d (Some sd))).
Proof.
  intros H. cbn [flink_write session_of private_data current_subdevice fdev].
  apply Z.ltb_lt in H. rewrite H. reflexivity.
Qed.

(** C9: on a session bound to a device, [flink_select_subdevice] returns 0
    for every id, with or without the exclusive flag, and the session's
    current subdevice becomes the result of the id lookup.  When no
    subdevice has the id, the selection becomes empty and the call still
    returns 0; stream reads and writes on the session then return 0 bytes
    without any bus access.  SELECT_SUBDEVICE and SELECT_SUBDEVICE_EXCL
    return what [flink_select_subdevice] returns. *)
Theorem c9_select_subdevice_always_succeeds d cs id excl :
  fst (flink_select_subdevice (session_of d cs) id excl) = 0
  /\ snd (flink_select_subdevice (session_of d cs) id excl)
     = session_of d (flink_get_subdevice_by_id (Some d) id)
  /\ (flink_get_subdevice_by_id (Some d) id = None ->
      snd (flink_select_subdevice (session_of d cs) id excl)
      = session_of d None
      /\ (forall size offset ok,
            flink_read (session_of d None) size offset ok
            = Some (returns 0 (session_of d None)))
      /\ (forall data size offset,
            flink_write (session_of d None) data size offset
            = Some (returns 0 (session_of d None))))
  /\ (forall t (u : user_memory),
        arg_id u = Some id ->
        flink_ioctl t (session_of d cs) SELECT_SUBDEVICE u
        = Some (returns 0
                  (session_of d (flink_get_subdevice_by_id (Some d) id)))
        /\ flink_ioctl t (session_of d cs) SELECT_SUBDEVICE_EXCL u
           = Some (returns 0
                     (session_of d (flink_get_subdevice_by_id (Some d) id)))).
Proof.
  split; [reflexivity |]. split; [reflexivity |]. split.
  - intros Hmiss. split.
    + cbn [flink_select_subdevice session_of private_data fdev snd].
      rewrite Hmiss. reflexivity.
    + split; intros; reflexivity.
  - intros t u Hid. cbn [flink_ioctl]. rewrite Hid. split; reflexivity.
Qed.

(** C10: with a subdevice selected, READ_SINGLE_BIT reads the 32-bit word
    at [base_addr + offset] and WRITE_SINGLE_BIT reads and then writes it,
    for every offset: the offset is not compared with the subdevice's size.
    With no subdevice selected both commands dereference the NULL
    selection (no defined result), whereas [flink_read] and [flink_write]
    return 0 bytes without bus access both when nothing is selected and
    when the offset exceeds the size. *)
Theorem c10_single_bit_access_is_unguarded t d sd (u : user_memory) c :
  arg_bit u = Some c ->
  u8 (bc_bit c) < 32 ->
  (exists o,
     flink_ioctl t (session_of d (Some sd)) READ_SINGLE_BIT u = Some o
     /\ accesses o = [Rd32 (u32 (base_addr sd + bc_offset c))])
  /\ (exists o v,
        flink_ioctl t (session_of d (Some sd)) WRITE_SINGLE_BIT u = Some o
        /\ ret o = 0
        /\ accesses o = [Rd32 (u32 (base_addr sd + bc_offset c));
                         Wr32 (u32 (base_addr sd + bc_offset c)) v])
  /\ flink_ioctl t (session_of d None) READ_SINGLE_BIT u = None
  /\ flink_ioctl t (session_of d None) WRITE_SINGLE_BIT u = None
  /\ (forall size offset ok data,
        flink_read (session_of d None) size offset ok
        = Some (returns 0 (session_of d None))
        /\ flink_write (session_of d None) data size offset
           = Some (returns 0 (session_of d None)))
  /\ (forall size offset ok data,
        mem_size sd < u32 offset ->
        flink_read (session_of d (Some sd)) size offset ok
        = Some (returns 0 (session_of d (Some sd)))
        /\ flink_write (session_of d (Some sd)) data size offset
           = Some (returns 0 (session_of d (Some sd)))).
Proof.
  intros Hc Hbit.
  assert (Hmask : bit_mask (bc_bit c) = Some (u32 (Z.shiftl 1 (u8 (bc_bit c))))).
  { unfold bit_mask. apply Z.ltb_lt in Hbit. rewrite Hbit. reflexivity. }
  split; [| split; [| split; [| split; [| split]]]].
  - eexists. split.
    + cbn [flink_ioctl]. unfold ioctl_read_single_bit.
      rewrite Hc. cbn [session_of private_data]. rewrite Hmask. reflexivity.
    + reflexivity.
  - eexists. eexists. split.
    + cbn [flink_ioctl]. unfold ioctl_write_single_bit.
      rewrite Hc. cbn [session_of private_data]. rewrite Hmask. reflexivity.
    + split; reflexivity.
  - cbn [flink_ioctl]. unfold ioctl_read_single_bit. rewrite Hc. reflexivity.
  - cbn [flink_ioctl]. unfold ioctl_write_single_bit. rewrite Hc. reflexivity.
  - intros. split; reflexivity.
  - intros size offset ok data Hoff. split.
    + apply flink_read_past_size. exact Hoff.
    + apply flink_write_past_size. exact Hoff.
Qed.

End SessionClaims.

(** ** Session forwarding on the sample device *)

Example sample_lookup :
  flink_get_subdevice_by_id (Some sample_device) 1 = Some sample_subdevice
  /\ flink_get_subdevice_by_id (Some sample_device) 7 = None.
Proof. vm_compute. split; reflexivity. Qed.

(** C3, counterexample to the claim as stated: reading subdevice 1 of the
    sample device (48 bytes) at offset 49 returns -22, not 0 bytes. *)
Lemma c3_select_and_read_returns_error :
  exists sd o,
    flink_get_subdevice_by_id (Some sample_device)
      (c_subdevice past_size_container) = Some sd
    /\ mem_size sd < c_offset past_size_container
    /\ flink_ioctl {| pid := 1000 |} (session_of sample_device None)
         SELECT_AND_READ (container_request past_size_container true) = Some o
    /\ ~ (ret o = 0 /\ accesses o = []).
Proof.
  destruct (some_of_view
              (flink_ioctl {| pid := 1000 |} (session_of sample_device None)
                 SELECT_AND_READ (container_request past_size_container true))
              (fun o => (ret o, accesses o)) (-22, []))
    as [o [Hrun Hview]]; [vm_compute; reflexivity |].
  injection Hview as Hret _.
  exists sample_subdevice, o.
  split; [vm_compute; reflexivity |].
  split; [vm_compute; reflexivity |].
  split; [exact Hrun |].
  intros [H _]. rewrite H in Hret. discriminate Hret.
Qed.

(** C3, instance of the amended statement on the same request. *)
Lemma c3_select_and_read_past_size_witness :
  exists o,
    flink_ioctl {| pid := 1000 |} (session_of sample_device None)
      SELECT_AND_READ (container_request past_size_container true) = Some o
    /\ ret o = -22
    /\ accesses o = [].
Proof.
  assert (Hsd : flink_get_subdevice_by_id (Some sample_device)
                  (c_subdevice past_size_container) = Some sample_subdevice)
    by (vm_compute; reflexivity).
  assert (Hoff : mem_size sample_subdevice
                 < u32 (c_offset past_size_container))
    by (vm_compute; reflexivity).
  destruct (c3_select_and_read_past_size {| pid := 1000 |}
              (session_of sample_device None)
              {| fdev := Some sample_device; current_subdevice := None |}
              (container_request past_size_container true)
              past_size_container sample_subdevice
              eq_refl eq_refl Hsd Hoff)
    as [o [Hrun [Hret [Hacc _]]]].
  exists o. split; [exact Hrun |].
  split; [rewrite Hret; vm_compute; reflexivity | exact Hacc].
Defined.

(** C9, instance: selecting the unknown id 7 on the sample device returns
    0 and empties the selection. *)
Lemma c9_select_subdevice_always_succeeds_witness :
  fst (flink_select_subdevice (session_of sample_device (Some sample_subdevice))
         7 false) = 0
  /\ snd (flink_select_subdevice
            (session_of sample_device (Some sample_subdevice)) 7 false)
     = session_of sample_device None
  /\ flink_read (session_of sample_device None) 4 0 true
     = Some (returns 0 (session_of sample_device None)).
Proof.
  destruct (c9_select_subdevice_always_succeeds sample_device
              (Some sample_subdevice) 7 false)
    as [Hret [_ [Hmiss _]]].
  assert (Hnone : flink_get_subdevice_by_id (Some sample_device) 7 = None)
    by (vm_compute; reflexivity).
  destruct (Hmiss Hnone) as [Hsel [Hread _]].
  split; [exact Hret |]. split; [exact Hsel | apply Hread].
Defined.

(** C10, instance: with subdevice 1 of the sample device selected (base
    48, 48 bytes), reading bit 3 at offset 1000 reads the bus at 1048. *)
Lemma c10_single_bit_access_is_unguarded_witness :
  mem_size sample_subdevice < bc_offset far_bit_container
  /\ (exists o,
        flink_ioctl {| pid := 1000 |}
          (session_of sample_device (Some sample_subdevice))
          READ_SINGLE_BIT (bit_request far_bit_container true) = Some o
        /\ accesses o = [Rd32 1048])
  /\ flink_ioctl {| pid := 1000 |} (session_of sample_device None)
       READ_SINGLE_BIT (bit_request far_bit_container true) = None.
Proof.
  assert (Hbit : u8 (bc_bit far_bit_container) < 32)
    by (vm_compute; reflexivity).
  destruct (c10_single_bit_access_is_unguarded {| pid := 1000 |}
              sample_device sample_subdevice
              (bit_request far_bit_container true) far_bit_container
              eq_refl Hbit)
    as [[o [Hrun Hacc]] [_ [Hnull _]]].
  split; [vm_compute; reflexivity |]. split.
  - exists o. split; [exact Hrun |].
    rewrite Hacc. vm_compute. reflexivity.
  - exact Hnull.
Defined.

(** * Further properties of the code *)

(** ** The scanner and the subdevice registry *)

Lemma u8_range x : 0 <= u8 x < 2 ^ 8.
Proof. unfold u8. apply Z.mod_pos_bound. lia. Qed.

Lemma u8_small x : 0 <= x < 2 ^ 8 -> u8 x = x.
Proof. intros H. unfold u8. apply Z.mod_small. exact H. Qed.

Lemma u8_succ n m : u8 n = u8 m -> u8 (n + 1) = u8 (m + 1).
Proof.
  unfold u8. intros H.
  rewrite (Z.add_mod n 1), (Z.add_mod m 1) by lia. rewrite H. reflexivity.
Qed.

Lemma u32_u32 n : u32 (u32 n) = u32 n.
Proof. unfold u32. apply Z.mod_mod. lia. Qed.

Lemma u8_u8 n : u8 (u8 n) = u8 n.
Proof. unfold u8. apply Z.mod_mod. lia. Qed.

Lemma ids_from_u8 sds : forall n m,
  u8 n = u8 m -> ids_from n sds -> ids_from m sds.
Proof.
  induction sds as [| sd rest IH]; intros n m H Hids.
  - exact I.
  - cbn [ids_from] in *. destruct Hids as [Hid Hrest]. split.
    + rewrite <- H. exact Hid.
    + apply (IH (n + 1)); [apply u8_succ; exact H | exact Hrest].
Qed.

Section ScannerMore.

Context {bus_data : Type}.
Implicit Types (st : @scan_state bus_data) (d : flink_device bus_data).

(** What the loop adds to the registry: the new subdevices, their
    number, their ids and the subdevice count of the device. *)
Lemma scan_loop_registry fuel : forall st fin,
  scan_loop fuel st = Some fin ->
  subdevice_counter st <= MAX_NOF_SUBDEVICES ->
  exists new,
    subdevices (scan_fdev fin) = rev new ++ subdevices (scan_fdev st)
    /\ subdevice_counter fin = subdevice_counter st + Z.of_nat (length new)
    /\ subdevice_counter fin <= MAX_NOF_SUBDEVICES
    /\ ids_from (nof_subdevices (scan_fdev st)) new
    /\ u8 (nof_subdevices (scan_fdev fin))
       = u8 (nof_subdevices (scan_fdev st) + Z.of_nat (length new)).
Proof.
  unfold MAX_NOF_SUBDEVICES.
  induction fuel as [| fuel IH]; intros st fin Hrun Hcnt.
  - simpl in Hrun. destruct (scan_guard st); [discriminate |].
    inversion Hrun; subst fin. exists [].
    cbn [rev app length Z.of_nat ids_from].
    rewrite !Z.add_0_r. repeat split; try reflexivity. exact Hcnt.
  - destruct (scan_guard st) eqn:G.
    + rewrite (scan_loop_step fuel st G) in Hrun.
      unfold scan_guard in G. apply andb_prop in G. destruct G as [_ G].
      apply Z.ltb_lt in G. unfold MAX_NOF_SUBDEVICES in G.
      destruct (Z_lt_le_dec (MAIN_HEADER_SIZE + SUB_HEADER_SIZE)
                  (declared_size st)) as [H | H].
      * rewrite (scan_body_big st H) in Hrun.
        destruct (IH _ _ Hrun) as [new [Hsub [Hc [Hmax [Hids Hnof]]]]];
          [cbn [subdevice_counter]; lia |].
        cbn [scan_fdev subdevice_counter] in Hsub, Hc, Hids, Hnof.
        destruct (flink_subdevice_add_head (scan_fdev st)
                    (header_subdevice (scan_fdev st) (current_address st)))
          as [sd' [Hhd [Hid _]]].
        cbn [flink_subdevice_add snd nof_subdevices] in Hids, Hnof.
        exists (sd' :: new). cbn [length ids_from].
        rewrite Nat2Z.inj_succ.
        split; [rewrite Hsub, Hhd; cbn [rev]; rewrite <- app_assoc;
                reflexivity |].
        split; [lia |]. split; [exact Hmax |].
        split.
        -- split; [exact Hid |].
           apply (ids_from_u8 new (u8 (nof_subdevices (scan_fdev st) + 1)));
             [apply u8_u8 | exact Hids].
        -- rewrite Hnof.
           replace (nof_subdevices (scan_fdev st) + Z.succ (Z.of_nat (length new)))
             with (nof_subdevices (scan_fdev st) + 1 + Z.of_nat (length new))
             by lia.
           unfold u8.
           rewrite (Z.add_mod ((nof_subdevices (scan_fdev st) + 1) mod 2 ^ 8))
             by lia.
           rewrite Z.mod_mod by lia.
           rewrite <- Z.add_mod by lia. reflexivity.
      * rewrite (scan_body_small st H) in Hrun.
        inversion Hrun; subst fin. exists [].
        cbn [rev app length Z.of_nat ids_from scan_fdev subdevice_counter].
        rewrite !Z.add_0_r. repeat split; try reflexivity. exact Hcnt.
    + rewrite (scan_loop_exit _ _ G) in Hrun.
      inversion Hrun; subst fin. exists [].
      cbn [rev app length Z.of_nat ids_from].
      rewrite !Z.add_0_r. repeat split; try reflexivity. exact Hcnt.
Qed.

(** The new subdevices lie one after the other from the scan pointer. *)
Lemma scan_loop_chained fuel : forall st fin,
  scan_loop fuel st = Some fin ->
  exists new,
    subdevices (scan_fdev fin) = rev new ++ subdevices (scan_fdev st)
    /\ chained (bus_read32 (scan_fdev st)) (current_address st) new.
Proof.
  induction fuel as [| fuel IH]; intros st fin Hrun.
  - simpl in Hrun. destruct (scan_guard st); [discriminate |].
    inversion Hrun; subst fin. exists []. split; [reflexivity | exact I].
  - destruct (scan_guard st) eqn:G.
    + rewrite (scan_loop_step fuel st G) in Hrun.
      destruct (Z_lt_le_dec (MAIN_HEADER_SIZE + SUB_HEADER_SIZE)
                  (declared_size st)) as [H | H].
      * rewrite (scan_body_big st H) in Hrun.
        destruct (IH _ _ Hrun) as [new [Hsub Hch]].
        cbn [scan_fdev current_address] in Hsub, Hch.
        destruct (flink_subdevice_add_head (scan_fdev st)
                    (header_subdevice (scan_fdev st) (current_address st)))
          as [sd' [Hhd [_ [_ [Hbase [Hsize _]]]]]].
        cbn [header_subdevice base_addr mem_size] in Hbase, Hsize.
        exists (sd' :: new). split.
        -- rewrite Hsub, Hhd. cbn [rev]. rewrite <- app_assoc. reflexivity.
        -- cbn [chained]. rewrite Hbase, Hsize.
           split; [reflexivity |]. split; [reflexivity |].
           split; [exact H | exact Hch].
      * rewrite (scan_body_small st H) in Hrun.
        inversion Hrun; subst fin. exists [].
        split; [reflexivity | exact I].
    + rewrite (scan_loop_exit _ _ G) in Hrun.
      inversion Hrun; subst fin. exists []. split; [reflexivity | exact I].
Qed.

(** The loop only reads, 32 bits at a time, and touches nothing of the
    device but its subdevice list and count. *)
Lemma scan_loop_reads_only fuel : forall st fin,
  scan_loop fuel st = Some fin ->
  (exists more,
     scan_accesses fin = scan_accesses st ++ more /\ Forall is_read32 more)
  /\ bus_ops (scan_fdev fin) = bus_ops (scan_fdev st)
  /\ dev_bus_data (scan_fdev fin) = dev_bus_data (scan_fdev st)
  /\ hw_irq_data (scan_fdev fin) = hw_irq_data (scan_fdev st)
  /\ nof_irqs (scan_fdev fin) = nof_irqs (scan_fdev st)
  /\ irq_offset (scan_fdev fin) = irq_offset (scan_fdev st)
  /\ signal_offset (scan_fdev fin) = signal_offset (scan_fdev st)
  /\ dev_id (scan_fdev fin) = dev_id (scan_fdev st).
Proof.
  induction fuel as [| fuel IH]; intros st fin Hrun.
  - simpl in Hrun. destruct (scan_guard st); [discriminate |].
    inversion Hrun; subst fin. split; [| repeat split].
    exists []. split; [symmetry; apply app_nil_r | constructor].
  - destruct (scan_guard st) eqn:G.
    + rewrite (scan_loop_step fuel st G) in Hrun.
      destruct (Z_lt_le_dec (MAIN_HEADER_SIZE + SUB_HEADER_SIZE)
                  (declared_size st)) as [H | H].
      * rewrite (scan_body_big st H) in Hrun.
        destruct (IH _ _ Hrun)
          as [[more [Hacc Hrd]] [H1 [H2 [H3 [H4 [H5 [H6 H7]]]]]]].
        cbn [scan_fdev scan_accesses flink_subdevice_add snd bus_ops
             dev_bus_data hw_irq_data nof_irqs irq_offset signal_offset
             dev_id] in *.
        split; [| repeat split; assumption].
        eexists. split; [rewrite Hacc, <- app_assoc; reflexivity |].
        apply Forall_app. split; [| exact Hrd].
        repeat (apply Forall_cons; [exact I |]).
        destruct (function_id _ =? INFO_FUNCTION_ID);
          repeat constructor.
      * rewrite (scan_body_small st H) in Hrun.
        inversion Hrun; subst fin. split; [| repeat split].
        eexists. split; [reflexivity |]. repeat constructor.
    + rewrite (scan_loop_exit _ _ G) in Hrun.
      inversion Hrun; subst fin. split; [| repeat split].
      exists []. split; [symmetry; apply app_nil_r | constructor].
Qed.

End ScannerMore.

Lemma ids_from_seq sds : forall n,
  0 <= n ->
  n + Z.of_nat (length sds) <= 2 ^ 8 ->
  ids_from n sds ->
  map sd_id sds = map Z.of_nat (seq (Z.to_nat n) (length sds)).
Proof.
  induction sds as [| sd rest IH]; intros n Hn Hlen Hids.
  - reflexivity.
  - cbn [ids_from length] in *. rewrite Nat2Z.inj_succ in Hlen.
    destruct Hids as [Hid Hrest].
    cbn [map seq]. rewrite Hid, u8_small by lia.
    rewrite Z2Nat.id by lia. f_equal.
    replace (S (Z.to_nat n)) with (Z.to_nat (n + 1)) by lia.
    apply IH; [lia | lia | exact Hrest].
Qed.

Lemma ids_from_app l : forall n x,
  ids_from n (l ++ [x]) ->
  ids_from n l /\ sd_id x = u8 (n + Z.of_nat (length l)).
Proof.
  induction l as [| sd rest IH]; intros n x H.
  - cbn in H. destruct H as [H _]. split; [exact I |].
    cbn [length Z.of_nat]. rewrite Z.add_0_r. exact H.
  - cbn [app ids_from] in H. destruct H as [Hid Hrest].
    destruct (IH _ _ Hrest) as [Hl Hx]. split.
    + cbn [ids_from]. split; assumption.
    + rewrite Hx. f_equal. cbn [length]. lia.
Qed.

(** With ids 0, 1, ... given in order and at most 256 of them, the walk
    from the head of the list (newest first) finds for id [k] the [k]-th
    subdevice created. *)
Lemma find_rev_ids new :
  ids_from 0 new ->
  Z.of_nat (length new) <= 2 ^ 8 ->
  forall k, (k < length new)%nat ->
    find (fun subdev => sd_id subdev =? u8 (Z.of_nat k)) (rev new)
    = nth_error new k.
Proof.
  induction new as [| x l IH] using rev_ind; intros Hids Hlen k Hk.
  - cbn in Hk. lia.
  - rewrite length_app in Hlen, Hk. cbn [length] in Hlen, Hk.
    destruct (ids_from_app _ _ _ Hids) as [Hl Hx].
    rewrite rev_app_distr. cbn [rev app find].
    rewrite Hx, Z.add_0_l.
    rewrite (u8_small (Z.of_nat (length l))) by lia.
    rewrite (u8_small (Z.of_nat k)) by lia.
    destruct (Z.eqb_spec (Z.of_nat (length l)) (Z.of_nat k)) as [E | E].
    + apply Nat2Z.inj in E. subst k.
      rewrite nth_error_app2 by lia. rewrite Nat.sub_diag. reflexivity.
    + assert (Hk' : (k < length l)%nat) by lia.
      rewrite nth_error_app1 by exact Hk'.
      rewrite <- (IH Hl ltac:(lia) k Hk').
      rewrite (u8_small (Z.of_nat k)) by lia. reflexivity.
Qed.

Section ScannerExtras.

Context {bus_data : Type}.
Implicit Types (st : @scan_state bus_data) (d : flink_device bus_data).

(** X1: the scan of any device returns, makes only 32-bit reads, and
    changes nothing of the device but its subdevice list and count: bus
    operations, bus data, interrupt table, line count, offsets and id are
    as before. *)
Theorem scan_only_reads d :
  exists fin,
    scan_for_subdevices d = Some fin
    /\ Forall is_read32 (scan_accesses fin)
    /\ bus_ops (scan_fdev fin) = bus_ops d
    /\ dev_bus_data (scan_fdev fin) = dev_bus_data d
    /\ hw_irq_data (scan_fdev fin) = hw_irq_data d
    /\ nof_irqs (scan_fdev fin) = nof_irqs d
    /\ irq_offset (scan_fdev fin) = irq_offset d
    /\ signal_offset (scan_fdev fin) = signal_offset d
    /\ dev_id (scan_fdev fin) = dev_id d.
Proof.
  destruct (scan_for_subdevices_total d) as [fin Hfin].
  destruct (scan_loop_reads_only _ _ _ Hfin) as [[more [Hacc Hrd]] Hrest].
  exists fin. split; [exact Hfin |]. split; [| exact Hrest].
  rewrite Hacc. exact Hrd.
Qed.

(** X2: the number the scan returns is the number of subdevices it added
    to the list, at most 256; the device's [u8] subdevice count advances
    by that number modulo 256. *)
Theorem scan_counts_added_subdevices d :
  exists fin new,
    scan_for_subdevices d = Some fin
    /\ subdevices (scan_fdev fin) = rev new ++ subdevices d
    /\ subdevice_counter fin = Z.of_nat (length new)
    /\ subdevice_counter fin <= MAX_NOF_SUBDEVICES
    /\ u8 (nof_subdevices (scan_fdev fin))
       = u8 (nof_subdevices d + subdevice_counter fin).
Proof.
  destruct (scan_for_subdevices_total d) as [fin Hfin].
  destruct (scan_loop_registry _ _ _ Hfin)
    as [new [Hsub [Hc [Hmax [_ Hnof]]]]].
  { cbn. unfold MAX_NOF_SUBDEVICES. lia. }
  cbn [scan_init scan_fdev subdevice_counter] in Hsub, Hc, Hnof.
  exists fin, new. split; [exact Hfin |]. split; [exact Hsub |].
  split; [lia |]. split; [exact Hmax |].
  rewrite Hnof. f_equal. lia.
Qed.

(** X3: on a device whose subdevice count is 0, the subdevices created by
    the scan carry the ids 0, 1, ..., N-1 in the order of their creation,
    N being the number returned. *)
Theorem scan_ids_contiguous d :
  nof_subdevices d = 0 ->
  exists fin new,
    scan_for_subdevices d = Some fin
    /\ subdevices (scan_fdev fin) = rev new ++ subdevices d
    /\ subdevice_counter fin = Z.of_nat (length new)
    /\ map sd_id new = map Z.of_nat (seq 0 (length new)).
Proof.
  intros Hfresh.
  destruct (scan_for_subdevices_total d) as [fin Hfin].
  destruct (scan_loop_registry _ _ _ Hfin)
    as [new [Hsub [Hc [Hmax [Hids _]]]]].
  { cbn. unfold MAX_NOF_SUBDEVICES. lia. }
  cbn [scan_init scan_fdev subdevice_counter] in Hsub, Hc, Hids.
  unfold MAX_NOF_SUBDEVICES in Hmax. rewrite Hfresh in Hids.
  exists fin, new. split; [exact Hfin |]. split; [exact Hsub |].
  split; [lia |].
  apply (ids_from_seq new 0); [lia | lia | exact Hids].
Qed.

(** X4: the subdevices created by the scan lie one after the other: the
    first at offset 0, each next one at the previous base plus the previous
    size (in 32-bit arithmetic), and each has the size its header declares,
    which is more than 32. *)
Theorem scan_chain_contiguous d :
  exists fin new,
    scan_for_subdevices d = Some fin
    /\ subdevices (scan_fdev fin) = rev new ++ subdevices d
    /\ chained (bus_read32 d) 0 new.
Proof.
  destruct (scan_for_subdevices_total d) as [fin Hfin].
  destruct (scan_loop_chained _ _ _ Hfin) as [new [Hsub Hch]].
  exists fin, new. split; [exact Hfin |]. split; [exact Hsub | exact Hch].
Qed.

(** X5: after the scan of a device that had no subdevice, looking up id
    [k] below the number returned finds the [k]-th subdevice created. *)
Theorem scan_then_lookup d :
  nof_subdevices d = 0 ->
  subdevices d = [] ->
  exists fin new,
    scan_for_subdevices d = Some fin
    /\ subdevice_counter fin = Z.of_nat (length new)
    /\ forall k, (k < length new)%nat ->
         flink_get_subdevice_by_id (Some (scan_fdev fin)) (Z.of_nat k)
         = nth_error new k.
Proof.
  intros Hfresh Hempty.
  destruct (scan_for_subdevices_total d) as [fin Hfin].
  destruct (scan_loop_registry _ _ _ Hfin)
    as [new [Hsub [Hc [Hmax [Hids _]]]]].
  { cbn. unfold MAX_NOF_SUBDEVICES. lia. }
  cbn [scan_init scan_fdev subdevice_counter] in Hsub, Hc, Hids.
  unfold MAX_NOF_SUBDEVICES in Hmax.
  rewrite Hfresh in Hids. rewrite Hempty, app_nil_r in Hsub.
  exists fin, new. split; [exact Hfin |]. split; [lia |].
  intros k Hk. cbn [flink_get_subdevice_by_id]. rewrite Hsub.
  apply find_rev_ids; [exact Hids | lia | exact Hk].
Qed.

End ScannerExtras.

(** X3, instance: the two subdevices of the sample region get ids 0, 1. *)
Lemma scan_ids_contiguous_witness :
  exists fin new,
    scan_for_subdevices sample_probe = Some fin
    /\ subdevices (scan_fdev fin) = rev new ++ subdevices sample_probe
    /\ map sd_id new = [0; 1].
Proof.
  assert (Hfresh : nof_subdevices sample_probe = 0)
    by (vm_compute; reflexivity).
  destruct (scan_ids_contiguous sample_probe Hfresh)
    as [fin [new [Hfin [Hsub [Hc Hids]]]]].
  assert (Hview : option_map subdevice_counter
                    (scan_for_subdevices sample_probe) = Some 2)
    by (vm_compute; reflexivity).
  rewrite Hfin in Hview. cbn [option_map] in Hview. injection Hview as Hn.
  assert (Hlen : length new = 2%nat) by lia.
  exists fin, new. split; [exact Hfin |]. split; [exact Hsub |].
  rewrite Hids, Hlen. reflexivity.
Defined.

(** X5, instance: after the scan of the sample region, id 1 is the
    second subdevice created. *)
Lemma scan_then_lookup_witness :
  exists fin new,
    scan_for_subdevices sample_probe = Some fin
    /\ flink_get_subdevice_by_id (Some (scan_fdev fin)) 1 = nth_error new 1
    /\ length new = 2%nat.
Proof.
  assert (Hfresh : nof_subdevices sample_probe = 0)
    by (vm_compute; reflexivity).
  assert (Hempty : subdevices sample_probe = [])
    by (vm_compute; reflexivity).
  destruct (scan_then_lookup sample_probe Hfresh Hempty)
    as [fin [new [Hfin [Hc Hlook]]]].
  assert (Hview : option_map subdevice_counter
                    (scan_for_subdevices sample_probe) = Some 2)
    by (vm_compute; reflexivity).
  rewrite Hfin in Hview. cbn [option_map] in Hview. injection Hview as Hn.
  assert (Hlen : length new = 2%nat) by lia.
  exists fin, new. split; [exact Hfin |].
  split; [apply (Hlook 1%nat); lia | exact Hlen].
Defined.

(** ** Interrupt registration and dispatch *)

Lemma find_init_irq_entries_above env n : forall i off acc L,
  i + Z.of_nat n <= L ->
  find_irq (init_irq_entries env n i off acc) L = find_irq acc L.
Proof.
  intros i off acc L H. rewrite find_init_irq_entries_gen.
  replace (L <? i + Z.of_nat n) with false by (symmetry; apply Z.ltb_ge; lia).
  rewrite andb_false_r. reflexivity.
Qed.

Lemma length_init_irq_entries env n : forall i off acc,
  (forall j, i <= j < i + Z.of_nat n ->
     irq_alloc_ok env j = true /\ irq_request_ok env j = true) ->
  length (init_irq_entries env n i off acc) = (n + length acc)%nat.
Proof.
  induction n as [| n IH]; intros i off acc Hall; cbn [init_irq_entries].
  - reflexivity.
  - destruct (Hall i ltac:(lia)) as [-> ->]. cbn [negb].
    rewrite IH by (intros j Hj; apply Hall; lia). cbn [length]. lia.
Qed.

Lemma s32_small x : 0 <= x < 2 ^ 31 -> s32 x = x.
Proof.
  intros H. unfold s32. rewrite u32_small by lia.
  destruct (Z.ltb_spec x (2 ^ 31)); [reflexivity | lia].
Qed.

Lemma s32_big x : 2 ^ 31 <= x < 2 ^ 32 -> s32 x = x - 2 ^ 32.
Proof.
  intros H. unfold s32. rewrite u32_small by lia.
  destruct (Z.ltb_spec x (2 ^ 31)); [lia | reflexivity].
Qed.

Lemma subscribers_list_del_pid (pl : list flink_process_data) (p : Z) :
  forall q, q <> p ->
    (In q (map (fun fsignal => pid (user_task fsignal)) (list_del_pid pl p))
     <-> In q (map (fun fsignal => pid (user_task fsignal)) pl)).
Proof.
  intros q Hq. induction pl as [| fs rest IH]; cbn [list_del_pid map].
  - tauto.
  - destruct (Z.eqb_spec (pid (user_task fs)) p) as [E | E].
    + cbn [In]. split; [intros H; right; exact H |].
      intros [H | H]; [congruence | exact H].
    + cbn [map In]. rewrite IH. tauto.
Qed.

Lemma list_del_pid_incl (pl : list flink_process_data) (p : Z) :
  forall q,
    In q (map (fun fsignal => pid (user_task fsignal)) (list_del_pid pl p)) ->
    In q (map (fun fsignal => pid (user_task fsignal)) pl).
Proof.
  intros q. induction pl as [| fs rest IH]; cbn [list_del_pid map].
  - tauto.
  - destruct (pid (user_task fs) =? p).
    + cbn [In]. intros H. right. exact H.
    + cbn [map In]. intros [H | H]; [left; exact H | right; apply IH, H].
Qed.

Lemma NoDup_list_del_pid (pl : list flink_process_data) (p : Z) :
  NoDup (map (fun fsignal => pid (user_task fsignal)) pl) ->
  NoDup (map (fun fsignal => pid (user_task fsignal)) (list_del_pid pl p))
  /\ ~ In p (map (fun fsignal => pid (user_task fsignal))
               (list_del_pid pl p)).
Proof.
  induction pl as [| fs rest IH]; cbn [list_del_pid map]; intros Hnd.
  - split; [constructor | intros []].
  - inversion Hnd as [| x xs Hnotin Hrest]; subst.
    destruct (Z.eqb_spec (pid (user_task fs)) p) as [E | E].
    + split; [exact Hrest | rewrite <- E; exact Hnotin].
    + destruct (IH Hrest) as [Hnd' Hnot]. split.
      * cbn [map]. constructor; [| exact Hnd'].
        intros Hin. apply Hnotin. apply (list_del_pid_incl _ p). exact Hin.
      * cbn [map In]. intros [H | H]; [congruence | exact (Hnot H)].
Qed.

Lemma pid_registered_subscribers (hwirq : flink_irq_data) (p : Z) :
  pid_registered (process_list hwirq) p = true <-> In p (subscribers hwirq).
Proof.
  rewrite pid_registered_spec. unfold subscribers. rewrite in_map_iff.
  split; intros [x [H1 H2]]; exists x; tauto.
Qed.

Section IrqExtras.

Context {bus_data : Type}.
Implicit Types (d : flink_device bus_data) (f : file bus_data)
  (hwirq : flink_irq_data) (t : task_struct).

(** X6: [flink_device_init_irq] records the number of lines asked for and
    the two offsets whatever the kernel grants, and creates the slots in
    order until the kernel refuses something: a line [L] below [nof_irq]
    has a slot (no subscriber, count 0, hardware interrupt number
    [irq_offset + L]) exactly when every line before it got its memory and
    its handler and line [L] got its memory; no other number has a slot.
    So when everything is granted there are exactly the declared lines,
    [nof_irq] slots in all; and after a refusal at line [k] no line after
    [k] has a slot, although the device still declares [nof_irq] lines. *)
Theorem init_irq_creates_declared_lines (env : irq_setup)
  (ops : flink_bus_ops bus_data) (bd : bus_data)
  (nof_irq irq_off signal_off : Z) :
  nof_irqs (flink_device_init_irq env ops bd nof_irq irq_off signal_off)
  = nof_irq
  /\ irq_offset (flink_device_init_irq env ops bd nof_irq irq_off signal_off)
     = irq_off
  /\ signal_offset
       (flink_device_init_irq env ops bd nof_irq irq_off signal_off)
     = signal_off
  /\ (forall L,
        find_irq
          (hw_irq_data
             (flink_device_init_irq env ops bd nof_irq irq_off signal_off)) L
        = if (0 <=? L) && (L <? nof_irq) && line_created env L
          then Some (fresh_line irq_off L)
          else None)
  /\ ((forall j, 0 <= j < nof_irq ->
         irq_alloc_ok env j = true /\ irq_request_ok env j = true) ->
      (forall L, 0 <= L < nof_irq ->
         find_irq
           (hw_irq_data
              (flink_device_init_irq env ops bd nof_irq irq_off signal_off)) L
         = Some (fresh_line irq_off L))
      /\ length
           (hw_irq_data
              (flink_device_init_irq env ops bd nof_irq irq_off signal_off))
         = Z.to_nat nof_irq)
  /\ (forall k L,
        0 <= k < L ->
        irq_alloc_ok env k && irq_request_ok env k = false ->
        find_irq
          (hw_irq_data
             (flink_device_init_irq env ops bd nof_irq irq_off signal_off)) L
        = None).
Proof.
  cbn [flink_device_init_irq nof_irqs irq_offset signal_offset hw_irq_data].
  assert (Hfind : forall L,
            find_irq (init_irq_entries env (Z.to_nat nof_irq) 0 irq_off []) L
            = if (0 <=? L) && (L <? nof_irq) && line_created env L
              then Some (fresh_line irq_off L)
              else None).
  { intros L. rewrite find_init_irq_entries_gen. cbn [find_irq].
    unfold line_created. rewrite Z.sub_0_r.
    destruct (Z.leb_spec 0 L) as [H0 | H0]; cbn [andb]; [| reflexivity].
    replace (L <? 0 + Z.of_nat (Z.to_nat nof_irq)) with (L <? nof_irq).
    - destruct (L <? nof_irq); cbn [andb]; [| reflexivity].
      destruct (lines_granted env 0 (Z.to_nat L)); cbn [andb]; reflexivity.
    - destruct (Z.ltb_spec L nof_irq); symmetry;
        [apply Z.ltb_lt | apply Z.ltb_ge]; lia. }
  split; [reflexivity |]. split; [reflexivity |]. split; [reflexivity |].
  split; [exact Hfind |]. split.
  - intros Hall. split.
    + intros L HL. apply find_init_irq_entries; [| lia].
      intros j Hj. apply Hall. lia.
    + rewrite length_init_irq_entries; [cbn [length]; lia |].
      intros j Hj. apply Hall. lia.
  - intros k L Hk Hfail. rewrite Hfind. unfold line_created.
    rewrite (lines_granted_stop env (Z.to_nat L) 0 (Z.to_nat k));
      [rewrite andb_false_r; reflexivity | lia |].
    replace (0 + Z.of_nat (Z.to_nat k)) with k by lia. exact Hfail.
Qed.

(** X7: a device set up with the deprecated [flink_device_init] has no
    interrupt line: REGISTER_IRQ, UNREGISTER_IRQ and GET_SIGNAL_OFFSET
    return [-EPERM] with "Irq functionality not available" for every
    request and every process, and leave the session as it was. *)
Theorem device_init_has_no_irq (ops : flink_bus_ops bus_data) (bd : bus_data)
  t cs (u : user_memory) :
  flink_ioctl t (session_of (flink_device_init ops bd) cs) REGISTER_IRQ u
  = Some (fails (- EPERM) (session_of (flink_device_init ops bd) cs)
            [MsgIrqNotAvailable])
  /\ flink_ioctl t (session_of (flink_device_init ops bd) cs) UNREGISTER_IRQ u
     = Some (fails (- EPERM) (session_of (flink_device_init ops bd) cs)
               [MsgIrqNotAvailable])
  /\ ioctl_get_signal_offset (session_of (flink_device_init ops bd) cs) u
     = Some (fails (- EPERM) (session_of (flink_device_init ops bd) cs)
               [MsgIrqNotAvailable], false).
Proof. repeat split. Qed.

(** X8: for a well-formed request naming a line that has its slot,
    REGISTER_IRQ succeeds exactly when the calling process is not yet
    subscribed to the line and the allocation succeeds; when it fails the
    session and device are as before. *)
Theorem register_succeeds_iff t d cs (u : user_memory) c L hwirq :
  nof_irqs d <> 0 ->
  arg_container u = Some c ->
  u8 (c_size c) = 4 ->
  arg_payload u = Some L ->
  0 <= L < 2 ^ 32 ->
  L < nof_irqs d ->
  find_irq (hw_irq_data d) L = Some hwirq ->
  exists o,
    flink_ioctl t (session_of d cs) REGISTER_IRQ u = Some o
    /\ (succeeded o <->
        ~ In (pid t) (subscribers hwirq) /\ kzalloc_ok u = true)
    /\ (~ succeeded o -> file_after o = session_of d cs).
Proof.
  intros Hn Hc Hs Hp HL Hlt Hfind.
  rewrite (register_irq_found t d cs u c L hwirq Hn Hc Hs Hp HL Hlt Hfind).
  pose proof (pid_registered_subscribers hwirq (pid t)) as Hreg.
  eexists. split; [reflexivity |].
  destruct (pid_registered (process_list hwirq) (pid t)).
  - unfold succeeded. cbn [ret fails file_after]. unfold EINVAL.
    split; [split; [lia |] | reflexivity].
    intros [Hnot _]. exfalso. apply Hnot. apply Hreg. reflexivity.
  - assert (Hnot : ~ In (pid t) (subscribers hwirq)).
    { intros Hin. apply Hreg in Hin. discriminate Hin. }
    destruct (kzalloc_ok u); cbn [negb].
    + unfold succeeded. cbn [ret returns file_after].
      pose proof (u32_range (signal_offset d + L)).
      split; [split; [intros _; split; [exact Hnot | reflexivity] | lia] |].
      intros Hfail. lia.
    + unfold succeeded. cbn [ret fails file_after]. unfold ENOMEM.
      split; [split; [lia | intros [_ Hk]; discriminate Hk] | reflexivity].
Qed.

(** X9: for a well-formed request naming a line that has its slot,
    UNREGISTER_IRQ is refused with [-EINVAL] and "No signal registered"
    when the line's count is 0, and with [-EINVAL] when the count is not 0
    but the calling process is not in the line's list; both leave the
    session and device as they were. *)
Theorem unregister_rejections t d cs (u : user_memory) c L hwirq :
  nof_irqs d <> 0 ->
  arg_container u = Some c ->
  u8 (c_size c) = 4 ->
  arg_payload u = Some L ->
  0 <= L < 2 ^ 32 ->
  L < nof_irqs d ->
  find_irq (hw_irq_data d) L = Some hwirq ->
  (signal_count hwirq = 0 ->
   flink_ioctl t (session_of d cs) UNREGISTER_IRQ u
   = Some (fails (- EINVAL) (session_of d cs) [MsgNoSignalRegistered L]))
  /\ (signal_count hwirq <> 0 ->
      ~ In (pid t) (subscribers hwirq) ->
      flink_ioctl t (session_of d cs) UNREGISTER_IRQ u
      = Some (returns (- EINVAL) (session_of d cs))).
Proof.
  intros Hn Hc Hs Hp HL Hlt Hfind.
  rewrite (unregister_irq_found t d cs u c L hwirq Hn Hc Hs Hp HL Hlt Hfind).
  split.
  - intros H0. rewrite H0. reflexivity.
  - intros H0 Hnot. apply Z.eqb_neq in H0. rewrite H0.
    destruct (pid_registered (process_list hwirq) (pid t)) eqn:E;
      [| reflexivity].
    exfalso. apply Hnot. apply pid_registered_subscribers. exact E.
Qed.

(** X10: a successful UNREGISTER_IRQ (the line's count is not 0 and the
    calling process is in its list) returns 0 and removes the first entry
    of the calling process only: every other process is subscribed
    afterwards exactly if it was before, and if the process had a single
    entry it is no longer subscribed. *)
Theorem unregister_removes_only_caller t d cs (u : user_memory) c L hwirq :
  nof_irqs d <> 0 ->
  arg_container u = Some c ->
  u8 (c_size c) = 4 ->
  arg_payload u = Some L ->
  0 <= L < 2 ^ 32 ->
  L < nof_irqs d ->
  find_irq (hw_irq_data d) L = Some hwirq ->
  signal_count hwirq <> 0 ->
  In (pid t) (subscribers hwirq) ->
  exists o d' hwirq',
    flink_ioctl t (session_of d cs) UNREGISTER_IRQ u = Some o
    /\ ret o = 0
    /\ file_after o = session_of d' cs
    /\ find_irq (hw_irq_data d') L = Some hwirq'
    /\ (forall q, q <> pid t ->
          (In q (subscribers hwirq') <-> In q (subscribers hwirq)))
    /\ (NoDup (subscribers hwirq) -> ~ In (pid t) (subscribers hwirq')).
Proof.
  intros Hn Hc Hs Hp HL Hlt Hfind H0 Hin.
  rewrite (unregister_irq_found t d cs u c L hwirq Hn Hc Hs Hp HL Hlt Hfind).
  apply Z.eqb_neq in H0. rewrite H0.
  apply pid_registered_subscribers in Hin. rewrite Hin.
  eexists. eexists. eexists.
  split; [reflexivity |]. split; [reflexivity |]. split; [reflexivity |].
  cbn [set_hw_irq_data hw_irq_data].
  split; [erewrite find_store_irq; [| reflexivity | exact Hfind];
          rewrite Z.eqb_refl; reflexivity |].
  unfold subscribers. cbn [process_list]. split.
  - intros q Hq. apply subscribers_list_del_pid. exact Hq.
  - intros Hnd. apply (NoDup_list_del_pid _ _ Hnd).
Qed.

End IrqExtras.

Section IrqEffects.

Context {bus_data : Type}.
Implicit Types (d : flink_device bus_data) (f : file bus_data)
  (hwirq : flink_irq_data) (t : task_struct).

(** The opening checks either return early with the session untouched or
    yield the line number read from the request. *)
Lemma irq_request_cases f d (u : user_memory) :
  match irq_request f d u with
  | inl early => file_after early = f
  | inr L => exists v, arg_payload u = Some v /\ L = u32 v
  end.
Proof.
  unfold irq_request.
  destruct (nof_irqs d =? 0); [reflexivity |].
  destruct (arg_container u) as [c |]; [| reflexivity].
  destruct (negb (u8 (c_size c) =? 4)); [reflexivity |].
  destruct (arg_payload u) as [v |]; [| reflexivity].
  destruct (nof_irqs d <=? u32 v); [reflexivity |].
  exists v. split; reflexivity.
Qed.

(** What a call of [flink_ioctl] does to the interrupt table: nothing, or
    one write through the pointer of the requested line that either puts
    the calling process, not subscribed before, at the head of its list, or
    takes the first entry of the calling process out of it. *)
Lemma flink_ioctl_irq_effect t d cs (cmd : ioctl_cmd) (u : user_memory)
  (o : outcome) :
  flink_ioctl t (session_of d cs) cmd u = Some o ->
  exists d' cs',
    file_after o = session_of d' cs'
    /\ (cmd = REGISTER_IRQ \/ cmd = UNREGISTER_IRQ -> cs' = cs)
    /\ (hw_irq_data d' = hw_irq_data d
        \/ exists L hwirq hwirq',
             find_irq (hw_irq_data d) L = Some hwirq
             /\ hw_irq_data d' = store_irq (hw_irq_data d) L hwirq'
             /\ irq_nr hwirq' = L
             /\ (exists v, arg_payload u = Some v /\ L = u32 v)
             /\ ((~ In (pid t) (subscribers hwirq)
                  /\ subscribers hwirq' = pid t :: subscribers hwirq)
                 \/ process_list hwirq'
                    = list_del_pid (process_list hwirq) (pid t))).
Proof.
  intros Hrun.
  assert (Hsame : forall r m,
            exists d' cs',
              file_after (fails r (session_of d cs) m) = session_of d' cs'
              /\ (cmd = REGISTER_IRQ \/ cmd = UNREGISTER_IRQ -> cs' = cs)
              /\ (hw_irq_data d' = hw_irq_data d
                  \/ exists L hwirq hwirq',
                       find_irq (hw_irq_data d) L = Some hwirq
                       /\ hw_irq_data d' = store_irq (hw_irq_data d) L hwirq'
                       /\ irq_nr hwirq' = L
                       /\ (exists v, arg_payload u = Some v /\ L = u32 v)
                       /\ ((~ In (pid t) (subscribers hwirq)
                            /\ subscribers hwirq' = pid t :: subscribers hwirq)
                           \/ process_list hwirq'
                              = list_del_pid (process_list hwirq) (pid t)))).
  { intros r m. exists d, cs. split; [reflexivity |].
    split; [reflexivity | left; reflexivity]. }
  destruct cmd; cbn [flink_ioctl] in Hrun.
  - destruct (arg_id u); inversion Hrun; subst o; [| apply (Hsame _ [])].
    eexists d, _. split; [reflexivity |].
    split; [intros [H | H]; discriminate H | left; reflexivity].
  - destruct (arg_id u); inversion Hrun; subst o; [| apply (Hsame _ [])].
    eexists d, _. split; [reflexivity |].
    split; [intros [H | H]; discriminate H | left; reflexivity].
  - unfold ioctl_read_single_bit in Hrun.
    destruct (arg_bit u) as [c |];
      [| inversion Hrun; subst o; apply (Hsame _ [])].
    cbn [session_of private_data] in Hrun.
    destruct cs as [sd |]; [| discriminate Hrun].
    destruct (bit_mask (bc_bit c)); [| discriminate Hrun].
    inversion Hrun; subst o. exists d, (Some sd).
    split; [reflexivity |]. split; [reflexivity | left; reflexivity].
  - unfold ioctl_write_single_bit in Hrun.
    destruct (arg_bit u) as [c |];
      [| inversion Hrun; subst o; apply (Hsame _ [])].
    cbn [session_of private_data] in Hrun.
    destruct cs as [sd |]; [| discriminate Hrun].
    destruct (bit_mask (bc_bit c)); [| discriminate Hrun].
    inversion Hrun; subst o. eexists _, (Some sd).
    split; [reflexivity |]. split; [reflexivity | left; reflexivity].
  - unfold ioctl_select_and_read in Hrun.
    destruct (arg_container u) as [c |];
      [| inversion Hrun; subst o; apply (Hsame _ [])].
    destruct (c_data c =? 0);
      [inversion Hrun; subst o; apply (Hsame _ []) |].
    cbn [session_of private_data fdev] in Hrun.
    destruct (flink_get_subdevice_by_id (Some d) (c_subdevice c)) as [src |];
      [| inversion Hrun; subst o; apply (Hsame _ [])].
    destruct (mem_size src <? u32 (c_offset c));
      [inversion Hrun; subst o; apply (Hsame _ []) |].
    destruct (u8 (c_size c) =? 1);
      [inversion Hrun; subst o; exists d, cs;
       split; [reflexivity |]; split; [reflexivity | left; reflexivity] |].
    destruct (u8 (c_size c) =? 2);
      [inversion Hrun; subst o; exists d, cs;
       split; [reflexivity |]; split; [reflexivity | left; reflexivity] |].
    destruct (u8 (c_size c) =? 4);
      inversion Hrun; subst o; exists d, cs;
      (split; [reflexivity |]); (split; [reflexivity | left; reflexivity]).
  - cbn [ioctl_register_irq session_of private_data] in Hrun.
    pose proof (irq_request_cases (session_of d cs) d u) as Hreq.
    destruct (irq_request (session_of d cs) d u) as [early | L].
    + inversion Hrun; subst o. exists d, cs.
      split; [exact Hreq |]. split; [reflexivity | left; reflexivity].
    + destruct (find_irq (hw_irq_data d) L) as [hwirq |] eqn:Hfind;
        [| inversion Hrun; subst o; apply (Hsame _ [])].
      destruct (pid_registered (process_list hwirq) (pid t)) eqn:Hreg;
        [inversion Hrun; subst o; apply Hsame |].
      destruct (negb (kzalloc_ok u));
        [inversion Hrun; subst o; apply Hsame |].
      inversion Hrun; subst o. eexists _, cs.
      split; [reflexivity |]. split; [reflexivity |].
      right. exists L, hwirq. eexists.
      split; [exact Hfind |].
      cbn [set_hw_irq_data hw_irq_data].
      split; [reflexivity |].
      split; [cbn [irq_nr]; apply (find_irq_nr _ _ _ Hfind) |].
      split; [exact Hreq |].
      left. split; [| reflexivity].
      intros Hin. apply pid_registered_subscribers in Hin. congruence.
  - cbn [ioctl_unregister_irq session_of private_data] in Hrun.
    pose proof (irq_request_cases (session_of d cs) d u) as Hreq.
    destruct (irq_request (session_of d cs) d u) as [early | L].
    + inversion Hrun; subst o. exists d, cs.
      split; [exact Hreq |]. split; [reflexivity | left; reflexivity].
    + destruct (find_irq (hw_irq_data d) L) as [hwirq |] eqn:Hfind;
        [| inversion Hrun; subst o; apply (Hsame _ [])].
      destruct (signal_count hwirq =? 0);
        [inversion Hrun; subst o; apply Hsame |].
      destruct (pid_registered (process_list hwirq) (pid t));
        [| inversion Hrun; subst o; apply (Hsame _ [])].
      inversion Hrun; subst o. eexists _, cs.
      split; [reflexivity |]. split; [reflexivity |].
      right. exists L, hwirq. eexists.
      split; [exact Hfind |].
      cbn [set_hw_irq_data hw_irq_data].
      split; [reflexivity |].
      split; [cbn [irq_nr]; apply (find_irq_nr _ _ _ Hfind) |].
      split; [exact Hreq |].
      right. reflexivity.
Qed.

(** X11: REGISTER_IRQ and UNREGISTER_IRQ for line [v] leave the slot of
    every other line as it was, whether they succeed or not, and never
    change the session's selected subdevice. *)
Theorem irq_ioctls_touch_one_line t d cs (cmd : ioctl_cmd) (u : user_memory)
  v (o : outcome) :
  cmd = REGISTER_IRQ \/ cmd = UNREGISTER_IRQ ->
  arg_payload u = Some v ->
  flink_ioctl t (session_of d cs) cmd u = Some o ->
  exists d',
    file_after o = session_of d' cs
    /\ forall L', L' <> u32 v ->
         find_irq (hw_irq_data d') L' = find_irq (hw_irq_data d) L'.
Proof.
  intros Hcmd Hv Hrun.
  destruct (flink_ioctl_irq_effect t d cs cmd u o Hrun)
    as [d' [cs' [Hfile [Hcs Heff]]]].
  rewrite (Hcs Hcmd) in Hfile.
  exists d'. split; [exact Hfile |].
  intros L' HL'.
  destruct Heff as [Hsame | [L [hwirq [hwirq' [Hfind [Hst [Hnr [[v' [Hv' HL]] _]]]]]]]].
  - rewrite Hsame. reflexivity.
  - rewrite Hst. rewrite (find_store_irq _ L hwirq hwirq' L' Hnr Hfind).
    rewrite Hv in Hv'. injection Hv' as Hvv. subst v'. rewrite HL.
    apply Z.eqb_neq in HL'. rewrite HL'. reflexivity.
Qed.

(** The commands outside [ioctl_cmd] leave the interrupt table and the
    selected subdevice as they were. *)
Lemma flink_ioctl_rest_keeps_irq_table t d cs (cmd : ioctl_command)
  (u : user_memory) r f' :
  (forall cmd', cmd <> Cmd cmd') ->
  flink_ioctl_all t (session_of d cs) cmd u = Some (r, f') ->
  exists d', f' = session_of d' cs /\ hw_irq_data d' = hw_irq_data d.
Proof.
  intros Hrest Hrun.
  assert (Hsame : exists d', session_of d cs = session_of d' cs
                             /\ hw_irq_data d' = hw_irq_data d)
    by (exists d; split; reflexivity).
  destruct cmd; cbn [flink_ioctl_all] in Hrun.
  - exfalso. apply (Hrest cmd). reflexivity.
  - unfold ioctl_read_nof_subdevices in Hrun.
    cbn [session_of private_data option_map ret file_after] in Hrun.
    injection Hrun as _ <-. exact Hsame.
  - destruct (ioctl_read_subdevice_info (session_of d cs) u);
      [| discriminate Hrun].
    cbn [option_map] in Hrun. injection Hrun as _ <-. exact Hsame.
  - unfold ioctl_select_and_read_bit in Hrun.
    destruct (arg_bit u) as [c |];
      [| cbn in Hrun; injection Hrun as _ <-; exact Hsame].
    cbn [session_of private_data fdev] in Hrun.
    destruct (flink_get_subdevice_by_id (Some d) (bc_subdevice c));
      [| cbn in Hrun; injection Hrun as _ <-; exact Hsame].
    destruct (bit_mask (bc_bit c)); [| discriminate Hrun].
    cbn [option_map ret file_after] in Hrun.
    injection Hrun as _ <-. exact Hsame.
  - unfold ioctl_select_and_write_bit in Hrun.
    destruct (arg_bit u) as [c |];
      [| cbn in Hrun; injection Hrun as _ <-; exact Hsame].
    cbn [session_of private_data fdev] in Hrun.
    destruct (flink_get_subdevice_by_id (Some d) (bc_subdevice c));
      [| cbn in Hrun; injection Hrun as _ <-; exact Hsame].
    destruct (bit_mask (bc_bit c)); [| discriminate Hrun].
    cbn [option_map ret file_after] in Hrun.
    injection Hrun as _ <-. eexists. split; reflexivity.
  - unfold ioctl_select_and_write in Hrun.
    destruct (arg_container u) as [c |];
      [| cbn in Hrun; injection Hrun as _ <-; exact Hsame].
    destruct (c_data c =? 0);
      [cbn in Hrun; injection Hrun as _ <-; exact Hsame |].
    cbn [session_of private_data fdev] in Hrun.
    destruct (flink_get_subdevice_by_id (Some d) (c_subdevice c));
      [| cbn in Hrun; injection Hrun as _ <-; exact Hsame].
    destruct (mem_size _ <? _);
      [cbn in Hrun; injection Hrun as _ <-; exact Hsame |].
    destruct ((u8 (c_size c) =? 1) || (u8 (c_size c) =? 2)
              || (u8 (c_size c) =? 4));
      [| cbn in Hrun; injection Hrun as _ <-; exact Hsame].
    destruct (arg_payload u);
      [| cbn in Hrun; injection Hrun as _ <-; exact Hsame].
    destruct (u8 (c_size c) =? 1);
      [cbn [option_map ret file_after] in Hrun; injection Hrun as _ <-;
       eexists; split; reflexivity |].
    destruct (u8 (c_size c) =? 2);
      cbn [option_map ret file_after] in Hrun; injection Hrun as _ <-;
      eexists; split; reflexivity.
  - unfold ioctl_get_signal_offset in Hrun.
    cbn [session_of private_data] in Hrun.
    destruct (nof_irqs d =? 0);
      [cbn in Hrun; injection Hrun as _ <-; exact Hsame |].
    destruct (arg_container u) as [c |];
      [| cbn in Hrun; injection Hrun as _ <-; exact Hsame].
    destruct (negb (u8 (c_size c) =? 4));
      [cbn in Hrun; injection Hrun as _ <-; exact Hsame |].
    destruct (copy_to_user_ok u);
      cbn in Hrun; injection Hrun as _ <-; exact Hsame.
  - injection Hrun as _ <-. exact Hsame.
Qed.

(** X12: no call of [flink_ioctl], whatever the command, ever gives a
    process a second subscription on a line: if every line holds each
    process at most once before the call, so it does afterwards.
    [flink_device_init_irq] starts from lines without subscribers. *)
Theorem one_subscription_per_process_kept t d cs (cmd : ioctl_command)
  (u : user_memory) r f' :
  one_subscription_per_process d ->
  flink_ioctl_all t (session_of d cs) cmd u = Some (r, f') ->
  exists d' cs',
    f' = session_of d' cs'
    /\ one_subscription_per_process d'.
Proof.
  intros Hinv Hrun.
  assert (Hcases : (exists cmd', cmd = Cmd cmd')
                   \/ (forall cmd', cmd <> Cmd cmd')).
  { destruct cmd; try (right; intros cmd' H; discriminate H).
    left. eexists. reflexivity. }
  destruct Hcases as [[cmd' ->] | Hrest].
  2: { destruct (flink_ioctl_rest_keeps_irq_table t d cs cmd u r f'
                   Hrest Hrun) as [d' [Hfile Htable]].
       exists d', cs. split; [exact Hfile |].
       intros L h Hfind. rewrite Htable in Hfind. apply (Hinv L h Hfind). }
  cbn [flink_ioctl_all] in Hrun.
  destruct (flink_ioctl t (session_of d cs) cmd' u) as [o |] eqn:Hcall;
    [| discriminate Hrun].
  cbn [option_map] in Hrun. injection Hrun as _ <-.
  destruct (flink_ioctl_irq_effect t d cs cmd' u o Hcall)
    as [d' [cs' [Hfile [_ Heff]]]].
  exists d', cs'. split; [exact Hfile |].
  intros L' h' Hfind'.
  destruct Heff as [Hsame | [L [hwirq [hwirq' [Hfind [Hst [Hnr [_ Hkind]]]]]]]].
  - rewrite Hsame in Hfind'. apply (Hinv L' h' Hfind').
  - rewrite Hst in Hfind'.
    rewrite (find_store_irq _ L hwirq hwirq' L' Hnr Hfind) in Hfind'.
    destruct (L' =? L).
    + injection Hfind' as <-.
      pose proof (Hinv L hwirq Hfind) as Hnd.
      destruct Hkind as [[Hnot Hsubs] | Hdel].
      * rewrite Hsubs. constructor; assumption.
      * unfold subscribers. rewrite Hdel.
        apply (NoDup_list_del_pid _ _ Hnd).
    + apply (Hinv L' h' Hfind').
Qed.

Lemma one_subscription_per_process_init (env : irq_setup)
  (ops : flink_bus_ops bus_data)
  (bd : bus_data) (nof_irq irq_off signal_off : Z) :
  one_subscription_per_process
    (flink_device_init_irq env ops bd nof_irq irq_off signal_off).
Proof.
  intros L hwirq Hfind.
  cbn [flink_device_init_irq hw_irq_data] in Hfind.
  rewrite find_init_irq_entries_gen in Hfind. cbn [find_irq] in Hfind.
  destruct ((0 <=? L) && (L <? 0 + Z.of_nat (Z.to_nat nof_irq))
            && lines_granted env 0 (Z.to_nat (L - 0)) && irq_alloc_ok env L);
    [| discriminate Hfind].
  injection Hfind as <-. constructor.
Qed.

End IrqEffects.

Section IrqDispatch.

Context {bus_data : Type}.
Implicit Types (d : flink_device bus_data) (f : file bus_data)
  (hwirq : flink_irq_data) (t : task_struct).

(** X13: after a successful REGISTER_IRQ by a process on a line that has
    its slot, the line's handler, called for the line's hardware interrupt
    number, handles the interrupt and calls [send_sig_info] first for the
    process that just registered, then for those subscribed before it, in
    the order of the list.  The signal number it passes is the number that
    the registration returned, converted to [int]: the same number when it
    is below [2 ^ 31], and that number minus [2 ^ 32], a negative number,
    from [2 ^ 31] on. *)
Theorem register_then_interrupt t d cs (u : user_memory) c L hwirq o irq :
  nof_irqs d <> 0 ->
  arg_container u = Some c ->
  u8 (c_size c) = 4 ->
  arg_payload u = Some L ->
  0 <= L < 2 ^ 32 ->
  L < nof_irqs d ->
  find_irq (hw_irq_data d) L = Some hwirq ->
  flink_ioctl t (session_of d cs) REGISTER_IRQ u = Some o ->
  succeeded o ->
  u32 irq = irq_nr_with_offset hwirq ->
  exists d' hwirq',
    file_after o = session_of d' cs
    /\ find_irq (hw_irq_data d') L = Some hwirq'
    /\ flink_threaded_irq_handler irq hwirq'
       = (IRQ_HANDLED,
          (s32 (ret o), t)
          :: map (fun fsignal => (s32 (ret o), user_task fsignal))
               (process_list hwirq))
    /\ (ret o < 2 ^ 31 -> s32 (ret o) = ret o)
    /\ (2 ^ 31 <= ret o -> s32 (ret o) = ret o - 2 ^ 32 /\ s32 (ret o) < 0).
Proof.
  intros Hn Hc Hs Hp HL Hlt Hfind Hrun Hsucc Hirq.
  destruct (register_irq_success t d cs u c L hwirq o
              Hn Hc Hs Hp HL Hlt Hfind Hrun Hsucc)
    as [_ [Hret [d' [Hfile [_ [_ Hline]]]]]].
  pose proof (u32_range (signal_offset d + L)) as Hr. rewrite <- Hret in Hr.
  exists d'. eexists. split; [exact Hfile |]. split; [exact Hline |].
  split; [| split].
  - unfold flink_threaded_irq_handler.
    cbn [irq_nr_with_offset signal_nr_with_offset process_list map user_task].
    rewrite Hirq, Z.eqb_refl. cbn [negb]. rewrite Hret. reflexivity.
  - intros Hsmall. apply s32_small. lia.
  - intros Hbig. rewrite s32_big by lia. lia.
Qed.

(** X14: after a successful UNREGISTER_IRQ by a process that had one
    subscription on the line, the line's handler, called for the line's
    hardware interrupt number, calls [send_sig_info] for every other
    subscriber and no longer for that process; the signal number passed is
    the line's [signal_nr_with_offset] converted to [int]. *)
Theorem unregister_then_interrupt t d cs (u : user_memory) c L hwirq irq :
  nof_irqs d <> 0 ->
  arg_container u = Some c ->
  u8 (c_size c) = 4 ->
  arg_payload u = Some L ->
  0 <= L < 2 ^ 32 ->
  L < nof_irqs d ->
  find_irq (hw_irq_data d) L = Some hwirq ->
  signal_count hwirq <> 0 ->
  In (pid t) (subscribers hwirq) ->
  NoDup (subscribers hwirq) ->
  u32 irq = irq_nr_with_offset hwirq ->
  exists o d' hwirq' sent,
    flink_ioctl t (session_of d cs) UNREGISTER_IRQ u = Some o
    /\ ret o = 0
    /\ file_after o = session_of d' cs
    /\ find_irq (hw_irq_data d') L = Some hwirq'
    /\ flink_threaded_irq_handler irq hwirq' = (IRQ_HANDLED, sent)
    /\ ~ In (pid t) (map (fun x => pid (snd x)) sent)
    /\ (forall q, q <> pid t -> In q (subscribers hwirq) ->
          In q (map (fun x => pid (snd x)) sent))
    /\ Forall (fun x => fst x = s32 (signal_nr_with_offset hwirq)) sent.
Proof.
  intros Hn Hc Hs Hp HL Hlt Hfind H0 Hin Hnd Hirq.
  rewrite (unregister_irq_found t d cs u c L hwirq Hn Hc Hs Hp HL Hlt Hfind).
  apply Z.eqb_neq in H0. rewrite H0.
  apply pid_registered_subscribers in Hin. rewrite Hin.
  eexists. eexists. eexists. eexists.
  split; [reflexivity |]. split; [reflexivity |]. split; [reflexivity |].
  cbn [set_hw_irq_data hw_irq_data].
  split; [erewrite find_store_irq; [| reflexivity | exact Hfind];
          rewrite Z.eqb_refl; reflexivity |].
  unfold flink_threaded_irq_handler.
  cbn [irq_nr_with_offset signal_nr_with_offset process_list].
  rewrite Hirq, Z.eqb_refl. cbn [negb].
  split; [reflexivity |].
  rewrite map_map. cbn [snd fst].
  split; [apply (NoDup_list_del_pid _ _ Hnd) |].
  split.
  - intros q Hq Hq'. apply subscribers_list_del_pid; assumption.
  - apply Forall_forall. intros x Hx. apply in_map_iff in Hx.
    destruct Hx as [fs [<- _]]. reflexivity.
Qed.

(** X15: on a device just set up by [flink_device_init_irq], whatever
    the kernel granted, the handler run on any slot that was created makes
    no call of [send_sig_info]: it answers IRQ_HANDLED to the interrupt
    number [irq_offset + L] of the slot's line [L] and IRQ_NONE to any
    other. *)
Theorem interrupt_on_idle_line (env : irq_setup)
  (ops : flink_bus_ops bus_data) (bd : bus_data)
  (nof_irq irq_off signal_off : Z) L hwirq irq :
  find_irq (hw_irq_data
              (flink_device_init_irq env ops bd nof_irq irq_off signal_off)) L
  = Some hwirq ->
  0 <= L < nof_irq
  /\ irq_nr_with_offset hwirq = u32 (irq_off + L)
  /\ flink_threaded_irq_handler irq hwirq
     = if u32 irq =? u32 (irq_off + L) then (IRQ_HANDLED, [])
       else (IRQ_NONE, []).
Proof.
  intros Hfind.
  cbn [flink_device_init_irq hw_irq_data] in Hfind.
  rewrite find_init_irq_entries_gen in Hfind. cbn [find_irq] in Hfind.
  destruct (Z.leb_spec 0 L) as [H0 | H0]; cbn [andb] in Hfind;
    [| discriminate Hfind].
  destruct (Z.ltb_spec L (0 + Z.of_nat (Z.to_nat nof_irq))) as [H1 | H1];
    cbn [andb] in Hfind; [| discriminate Hfind].
  destruct (lines_granted env 0 (Z.to_nat (L - 0)) && irq_alloc_ok env L);
    [| discriminate Hfind].
  injection Hfind as <-.
  split; [lia |]. split; [reflexivity |].
  unfold flink_threaded_irq_handler, fresh_line.
  cbn [irq_nr_with_offset process_list map].
  destruct (u32 irq =? u32 (irq_off + L)); reflexivity.
Qed.

(** X16: on a device with interrupt lines, GET_SIGNAL_OFFSET with a
    container of size 4 returns 4 and copies out the device's
    [signal_offset], changing nothing; when the copy to user space fails
    it logs a warning and returns 0, not an error code.  For an in-range
    line [L] that has its slot, the number that a successful REGISTER_IRQ
    returns is the offset copied out plus [L], modulo [2 ^ 32]; for an
    in-range line without slot REGISTER_IRQ returns 0 and changes
    nothing. *)
Theorem signal_offset_plus_line t d cs (u : user_memory) c :
  nof_irqs d <> 0 ->
  arg_container u = Some c ->
  u8 (c_size c) = 4 ->
  ioctl_get_signal_offset (session_of d cs) u
  = Some (if copy_to_user_ok u
          then ({| ret := 4; file_after := session_of d cs; accesses := [];
                   klog := [];
                   to_user := CopyData 4 (u32 (signal_offset d)) |}, false)
          else (returns 0 (session_of d cs), true))
  /\ (forall L hwirq o,
        arg_payload u = Some L -> 0 <= L < 2 ^ 32 -> L < nof_irqs d ->
        find_irq (hw_irq_data d) L = Some hwirq ->
        flink_ioctl t (session_of d cs) REGISTER_IRQ u = Some o ->
        succeeded o ->
        ret o = u32 (u32 (signal_offset d) + L))
  /\ (forall L,
        arg_payload u = Some L -> 0 <= L < 2 ^ 32 -> L < nof_irqs d ->
        find_irq (hw_irq_data d) L = None ->
        flink_ioctl t (session_of d cs) REGISTER_IRQ u
        = Some (returns 0 (session_of d cs))).
Proof.
  intros Hn Hc Hs.
  split; [| split].
  - unfold ioctl_get_signal_offset. cbn [session_of private_data].
    pose proof Hn as Hn'. apply Z.eqb_neq in Hn'.
    rewrite Hn', Hc, Hs. cbn [Z.eqb negb].
    destruct (copy_to_user_ok u); reflexivity.
  - intros L hwirq o Hp HL Hlt Hfind Hrun Hsucc.
    destruct (register_irq_success t d cs u c L hwirq o
                Hn Hc Hs Hp HL Hlt Hfind Hrun Hsucc) as [_ [Hret _]].
    rewrite Hret. unfold u32.
    rewrite Zplus_mod_idemp_l. reflexivity.
  - intros L Hp HL Hlt Hfind.
    cbn [flink_ioctl ioctl_register_irq session_of private_data].
    rewrite (irq_request_in_range _ d u c L Hn Hc Hs Hp HL Hlt), Hfind.
    reflexivity.
Qed.

End IrqDispatch.

(** ** Interrupt registration and dispatch on the sample device *)

Lemma sample_irq_size_ok : u8 (c_size irq_container) = 4.
Proof. vm_compute. reflexivity. Qed.

Lemma sample_subscribed_line0 :
  find_irq (hw_irq_data sample_subscribed) 0 = Some sample_line0_subscribed.
Proof. vm_compute. reflexivity. Qed.

Lemma sample_line0_nodup : NoDup (subscribers sample_line0_subscribed).
Proof.
  vm_compute. constructor.
  - intros [H | []]. discriminate H.
  - constructor; [intros [] | constructor].
Qed.

Lemma sample_device_one_subscription :
  one_subscription_per_process sample_device.
Proof.
  intros L hwirq Hfind. unfold sample_device in Hfind.
  cbn [hw_irq_data find_irq irq_nr] in Hfind.
  destruct (1 =? L); [injection Hfind as <-; constructor |].
  destruct (0 =? L); [injection Hfind as <-; constructor | discriminate].
Qed.

(** X6, instances: line 1 of a device set up with 2 lines and interrupt
    offset 55 answers to hardware interrupt 56 and there is no line 2;
    when the kernel refuses the handler of line 0, line 0 has its slot,
    line 1 has none and the device still declares 2 lines. *)
Lemma init_irq_creates_declared_lines_witness :
  (find_irq (hw_irq_data
               (flink_device_init_irq all_granted Axi.flink_axi_bus_ops
                  {| Axi.size := 256; Axi.io := Axi.registers [] |} 2 55 34))
     1
   = Some {| process_list := []; irq_nr := 1; signal_count := 0;
             signal_nr_with_offset := 0; irq_nr_with_offset := 56 |}
   /\ find_irq (hw_irq_data
                  (flink_device_init_irq all_granted Axi.flink_axi_bus_ops
                     {| Axi.size := 256; Axi.io := Axi.registers [] |}
                     2 55 34))
        2 = None)
  /\ (nof_irqs unset_line_probe = 2
      /\ find_irq (hw_irq_data unset_line_probe) 0 = Some (fresh_line 55 0)
      /\ find_irq (hw_irq_data unset_line_probe) 1 = None).
Proof.
  split.
  - destruct (init_irq_creates_declared_lines all_granted
                Axi.flink_axi_bus_ops
                {| Axi.size := 256; Axi.io := Axi.registers [] |} 2 55 34)
      as [_ [_ [_ [Hfind _]]]].
    split; rewrite Hfind; vm_compute; reflexivity.
  - unfold unset_line_probe, Axi.probe_with.
    destruct (init_irq_creates_declared_lines
                {| irq_alloc_ok := fun _ => true;
                   irq_request_ok := fun i => negb (i =? 0) |}
                Axi.flink_axi_bus_ops
                {| Axi.size := 256; Axi.io := Axi.registers sample_registers |}
                2 55 34)
      as [Hn [_ [_ [Hfind [_ Hstop]]]]].
    split; [exact Hn |]. split.
    + rewrite Hfind. vm_compute. reflexivity.
    + apply (Hstop 0 1); [lia | reflexivity].
Defined.

(** X8, instance: process 3000, not yet subscribed to line 0 of the
    subscribed sample device, registers successfully. *)
Lemma register_succeeds_iff_witness :
  exists o,
    flink_ioctl {| pid := 3000 |} (session_of sample_subscribed None)
      REGISTER_IRQ (irq_request_for 0 true) = Some o
    /\ succeeded o.
Proof.
  assert (Hn : nof_irqs sample_subscribed <> 0) by (vm_compute; discriminate).
  assert (HL : 0 <= 0 < 2 ^ 32) by lia.
  assert (Hlt : 0 < nof_irqs sample_subscribed) by (vm_compute; reflexivity).
  destruct (register_succeeds_iff {| pid := 3000 |} sample_subscribed None
              (irq_request_for 0 true) irq_container 0
              sample_line0_subscribed
              Hn eq_refl sample_irq_size_ok eq_refl HL Hlt
              sample_subscribed_line0)
    as [o [Hrun [Hiff _]]].
  exists o. split; [exact Hrun |].
  apply Hiff. split; [| reflexivity].
  vm_compute. intros [H | [H | []]]; discriminate H.
Defined.

(** X9, instance: unregistering from the idle line 0 of the sample device
    is refused with -22. *)
Lemma unregister_rejections_witness :
  option_map ret
    (flink_ioctl {| pid := 1000 |} (session_of sample_device None)
       UNREGISTER_IRQ (irq_request_for 0 true)) = Some (-22).
Proof.
  assert (Hn : nof_irqs sample_device <> 0) by (vm_compute; discriminate).
  assert (HL : 0 <= 0 < 2 ^ 32) by lia.
  assert (Hlt : 0 < nof_irqs sample_device) by (vm_compute; reflexivity).
  assert (Hfind : find_irq (hw_irq_data sample_device) 0
                  = Some {| process_list := []; irq_nr := 0;
                            signal_count := 0; signal_nr_with_offset := 0;
                            irq_nr_with_offset := 55 |})
    by (vm_compute; reflexivity).
  destruct (unregister_rejections {| pid := 1000 |} sample_device None
              (irq_request_for 0 true) irq_container 0 _
              Hn eq_refl sample_irq_size_ok eq_refl HL Hlt Hfind)
    as [Hzero _].
  rewrite (Hzero eq_refl). cbn [option_map fails ret]. reflexivity.
Defined.

(** X10, instance: process 1000 unregisters from line 0 of the subscribed
    sample device; process 2000 stays subscribed, 1000 is gone. *)
Lemma unregister_removes_only_caller_witness :
  exists o d' hwirq',
    flink_ioctl {| pid := 1000 |} (session_of sample_subscribed None)
      UNREGISTER_IRQ (irq_request_for 0 true) = Some o
    /\ ret o = 0
    /\ file_after o = session_of d' None
    /\ find_irq (hw_irq_data d') 0 = Some hwirq'
    /\ In 2000 (subscribers hwirq')
    /\ ~ In 1000 (subscribers hwirq').
Proof.
  assert (Hn : nof_irqs sample_subscribed <> 0) by (vm_compute; discriminate).
  assert (HL : 0 <= 0 < 2 ^ 32) by lia.
  assert (Hlt : 0 < nof_irqs sample_subscribed) by (vm_compute; reflexivity).
  assert (H0 : signal_count sample_line0_subscribed <> 0)
    by (vm_compute; discriminate).
  assert (Hin : In (pid {| pid := 1000 |})
                  (subscribers sample_line0_subscribed))
    by (vm_compute; right; left; reflexivity).
  destruct (unregister_removes_only_caller {| pid := 1000 |}
              sample_subscribed None (irq_request_for 0 true)
              irq_container 0 sample_line0_subscribed
              Hn eq_refl sample_irq_size_ok eq_refl HL Hlt
              sample_subscribed_line0 H0 Hin)
    as [o [d' [hwirq' [Hrun [Hret [Hfile [Hfind [Hothers Hgone]]]]]]]].
  exists o, d', hwirq'.
  split; [exact Hrun |]. split; [exact Hret |]. split; [exact Hfile |].
  split; [exact Hfind |]. split.
  - apply (Hothers 2000); [cbn [pid]; lia |].
    vm_compute. left. reflexivity.
  - apply (Hgone sample_line0_nodup).
Defined.

(** X11, instance: registering on line 0 of the sample device leaves the
    slot of line 1 as it was. *)
Lemma irq_ioctls_touch_one_line_witness :
  exists o d',
    flink_ioctl {| pid := 1000 |} (session_of sample_device None)
      REGISTER_IRQ (irq_request_for 0 true) = Some o
    /\ file_after o = session_of d' None
    /\ find_irq (hw_irq_data d') 1 = find_irq (hw_irq_data sample_device) 1.
Proof.
  destruct (some_of_view
              (flink_ioctl {| pid := 1000 |} (session_of sample_device None)
                 REGISTER_IRQ (irq_request_for 0 true)) ret 34)
    as [o [Hrun _]]; [vm_compute; reflexivity |].
  destruct (irq_ioctls_touch_one_line {| pid := 1000 |} sample_device None
              REGISTER_IRQ (irq_request_for 0 true) 0 o
              (or_introl eq_refl) eq_refl Hrun)
    as [d' [Hfile Hother]].
  exists o, d'. split; [exact Hrun |]. split; [exact Hfile |].
  apply Hother. vm_compute. discriminate.
Defined.

(** X12, instance: after process 1000 registers on line 0 of the sample
    device, every line still holds each process at most once. *)
Lemma one_subscription_per_process_kept_witness :
  exists f' d' cs',
    flink_ioctl_all {| pid := 1000 |} (session_of sample_device None)
      (Cmd REGISTER_IRQ) (irq_request_for 0 true) = Some (34, f')
    /\ f' = session_of d' cs'
    /\ one_subscription_per_process d'.
Proof.
  destruct (some_of_view
              (flink_ioctl_all {| pid := 1000 |}
                 (session_of sample_device None)
                 (Cmd REGISTER_IRQ) (irq_request_for 0 true)) fst 34)
    as [[r f'] [Hrun Hret]]; [vm_compute; reflexivity |].
  cbn [fst] in Hret. subst r.
  destruct (one_subscription_per_process_kept {| pid := 1000 |}
              sample_device None (Cmd REGISTER_IRQ) (irq_request_for 0 true)
              34 f' sample_device_one_subscription Hrun)
    as [d' [cs' [Hfile Hinv]]].
  exists f', d', cs'.
  split; [exact Hrun |]. split; [exact Hfile | exact Hinv].
Defined.

(** X13, instance: process 3000 registers on line 0 of the subscribed
    sample device; interrupt 55 then sends signal 34 to 3000, 2000 and
    1000, in that order. *)
Lemma register_then_interrupt_witness :
  exists o d' hwirq',
    flink_ioctl {| pid := 3000 |} (session_of sample_subscribed None)
      REGISTER_IRQ (irq_request_for 0 true) = Some o
    /\ file_after o = session_of d' None
    /\ find_irq (hw_irq_data d') 0 = Some hwirq'
    /\ fst (flink_threaded_irq_handler 55 hwirq') = IRQ_HANDLED
    /\ map (fun x => (fst x, pid (snd x)))
         (snd (flink_threaded_irq_handler 55 hwirq'))
       = [(34, 3000); (34, 2000); (34, 1000)].
Proof.
  assert (Hn : nof_irqs sample_subscribed <> 0) by (vm_compute; discriminate).
  assert (HL : 0 <= 0 < 2 ^ 32) by lia.
  assert (Hlt : 0 < nof_irqs sample_subscribed) by (vm_compute; reflexivity).
  destruct (some_of_view
              (flink_ioctl {| pid := 3000 |} (session_of sample_subscribed None)
                 REGISTER_IRQ (irq_request_for 0 true)) ret 34)
    as [o [Hrun Hret]]; [vm_compute; reflexivity |].
  assert (Hsucc : succeeded o) by (unfold succeeded; rewrite Hret; lia).
  assert (Hirq : u32 55 = irq_nr_with_offset sample_line0_subscribed)
    by (vm_compute; reflexivity).
  destruct (register_then_interrupt {| pid := 3000 |} sample_subscribed None
              (irq_request_for 0 true) irq_container 0
              sample_line0_subscribed o 55
              Hn eq_refl sample_irq_size_ok eq_refl HL Hlt
              sample_subscribed_line0 Hrun Hsucc Hirq)
    as [d' [hwirq' [Hfile [Hfind [Hsent _]]]]].
  exists o, d', hwirq'.
  split; [exact Hrun |]. split; [exact Hfile |]. split; [exact Hfind |].
  rewrite Hsent, Hret. split; vm_compute; reflexivity.
Defined.

(** X14, instance: process 1000 unregisters from line 0 of the subscribed
    sample device; interrupt 55 then reaches 2000 and not 1000. *)
Lemma unregister_then_interrupt_witness :
  exists o d' hwirq' sent,
    flink_ioctl {| pid := 1000 |} (session_of sample_subscribed None)
      UNREGISTER_IRQ (irq_request_for 0 true) = Some o
    /\ file_after o = session_of d' None
    /\ find_irq (hw_irq_data d') 0 = Some hwirq'
    /\ flink_threaded_irq_handler 55 hwirq' = (IRQ_HANDLED, sent)
    /\ In 2000 (map (fun x => pid (snd x)) sent)
    /\ ~ In 1000 (map (fun x => pid (snd x)) sent).
Proof.
  assert (Hn : nof_irqs sample_subscribed <> 0) by (vm_compute; discriminate).
  assert (HL : 0 <= 0 < 2 ^ 32) by lia.
  assert (Hlt : 0 < nof_irqs sample_subscribed) by (vm_compute; reflexivity).
  assert (H0 : signal_count sample_line0_subscribed <> 0)
    by (vm_compute; discriminate).
  assert (Hin : In (pid {| pid := 1000 |})
                  (subscribers sample_line0_subscribed))
    by (vm_compute; right; left; reflexivity).
  assert (Hirq : u32 55 = irq_nr_with_offset sample_line0_subscribed)
    by (vm_compute; reflexivity).
  destruct (unregister_then_interrupt {| pid := 1000 |} sample_subscribed None
              (irq_request_for 0 true) irq_container 0
              sample_line0_subscribed 55
              Hn eq_refl sample_irq_size_ok eq_refl HL Hlt
              sample_subscribed_line0 H0 Hin sample_line0_nodup Hirq)
    as [o [d' [hwirq' [sent [Hrun [_ [Hfile [Hfind [Hsent [Hgone [Hothers _]]]]]]]]]]].
  exists o, d', hwirq', sent.
  split; [exact Hrun |]. split; [exact Hfile |]. split; [exact Hfind |].
  split; [exact Hsent |]. split; [| exact Hgone].
  apply (Hothers 2000); [cbn [pid]; lia |].
  vm_compute. left. reflexivity.
Defined.

(** X15, instance: on a device just set up with 2 lines and interrupt
    offset 55, the handler of line 1 handles interrupt 56 and sends
    nothing. *)
Lemma interrupt_on_idle_line_witness :
  exists hwirq,
    find_irq (hw_irq_data
                (flink_device_init_irq all_granted Axi.flink_axi_bus_ops
                   {| Axi.size := 256; Axi.io := Axi.registers [] |} 2 55 34))
      1 = Some hwirq
    /\ flink_threaded_irq_handler 56 hwirq = (IRQ_HANDLED, []).
Proof.
  assert (Hfind : find_irq
                    (hw_irq_data
                       (flink_device_init_irq all_granted
                          Axi.flink_axi_bus_ops
                          {| Axi.size := 256; Axi.io := Axi.registers [] |}
                          2 55 34)) 1
                  = Some (fresh_line 55 1))
    by (vm_compute; reflexivity).
  destruct (interrupt_on_idle_line all_granted Axi.flink_axi_bus_ops
              {| Axi.size := 256; Axi.io := Axi.registers [] |} 2 55 34 1
              (fresh_line 55 1) 56 Hfind)
    as [_ [_ Hrun]].
  exists (fresh_line 55 1). split; [exact Hfind |].
  rewrite Hrun. vm_compute. reflexivity.
Defined.

(** X16, instances: GET_SIGNAL_OFFSET on the sample device copies out
    34; REGISTER_IRQ for line 1 of the device whose line 1 has no slot
    returns 0. *)
Lemma signal_offset_plus_line_witness :
  ioctl_get_signal_offset (session_of sample_device None)
    (irq_request_for 0 true)
  = Some ({| ret := 4; file_after := session_of sample_device None;
             accesses := []; klog := []; to_user := CopyData 4 34 |}, false)
  /\ flink_ioctl {| pid := 1000 |} (session_of unset_line_probe None)
       REGISTER_IRQ (irq_request_for 1 true)
     = Some (returns 0 (session_of unset_line_probe None)).
Proof.
  split.
  - assert (Hn : nof_irqs sample_device <> 0) by (vm_compute; discriminate).
    destruct (signal_offset_plus_line {| pid := 1000 |} sample_device None
                (irq_request_for 0 true) irq_container
                Hn eq_refl sample_irq_size_ok)
      as [Hget _].
    rewrite Hget. reflexivity.
  - assert (Hn : nof_irqs unset_line_probe <> 0)
      by (vm_compute; discriminate).
    assert (Hlt : 1 < nof_irqs unset_line_probe) by (vm_compute; reflexivity).
    assert (Hfind : find_irq (hw_irq_data unset_line_probe) 1 = None)
      by (vm_compute; reflexivity).
    destruct (signal_offset_plus_line {| pid := 1000 |} unset_line_probe None
                (irq_request_for 1 true) irq_container
                Hn eq_refl sample_irq_size_ok)
      as [_ [_ Hnone]].
    apply (Hnone 1); [reflexivity | lia | exact Hlt | exact Hfind].
Defined.

(** ** Single-bit access *)

Lemma bit_mask_pow2 (bit : Z) (mask : Z) :
  bit_mask bit = Some mask -> 0 <= u8 bit < 32 /\ mask = 2 ^ u8 bit.
Proof.
  unfold bit_mask. pose proof (u8_range bit) as Hr.
  destruct (u8 bit <? 32) eqn:E; [| discriminate].
  apply Z.ltb_lt in E. intros H. injection H as <-.
  split; [lia |].
  rewrite Z.shiftl_1_l. apply u32_small.
  split; [apply Z.pow_nonneg; lia |].
  apply Z.pow_lt_mono_r; lia.
Qed.

Lemma u32_testbit x j : 0 <= j < 32 -> Z.testbit (u32 x) j = Z.testbit x j.
Proof. intros H. unfold u32. apply Z.mod_pow2_bits_low. lia. Qed.

Lemma land_pow2_zero (x b : Z) :
  0 <= b -> (Z.land x (2 ^ b) =? 0) = negb (Z.testbit x b).
Proof.
  intros Hb. destruct (Z.testbit x b) eqn:E; cbn [negb].
  - apply Z.eqb_neq. intros H.
    assert (Hbit : Z.testbit (Z.land x (2 ^ b)) b = true).
    { rewrite Z.land_spec, E, Z.pow2_bits_true by lia. reflexivity. }
    rewrite H, Z.bits_0 in Hbit. discriminate Hbit.
  - apply Z.eqb_eq. apply Z.bits_inj'. intros j Hj.
    rewrite Z.land_spec, Z.bits_0, Z.pow2_bits_eqb by lia.
    destruct (Z.eqb_spec b j) as [-> | _].
    + rewrite E. reflexivity.
    + apply andb_false_r.
Qed.

(** The word that WRITE_SINGLE_BIT and SELECT_AND_WRITE_BIT write back. *)
Lemma written_word_bits (temp bit value : Z) (mask : Z) :
  bit_mask bit = Some mask ->
  forall j, 0 <= j < 32 ->
    Z.testbit
      (u32 (if u8 value =? 0 then Z.land temp (u32 (Z.lnot mask))
            else Z.lor temp mask)) j
    = if j =? u8 bit then negb (u8 value =? 0) else Z.testbit temp j.
Proof.
  intros Hmask j Hj.
  destruct (bit_mask_pow2 _ _ Hmask) as [Hb ->].
  rewrite u32_testbit by exact Hj.
  destruct (u8 value =? 0); cbn [negb].
  - rewrite Z.land_spec, u32_testbit, Z.lnot_spec, Z.pow2_bits_eqb by lia.
    rewrite (Z.eqb_sym (u8 bit) j).
    destruct (j =? u8 bit); cbn [negb]; [apply andb_false_r | apply andb_true_r].
  - rewrite Z.lor_spec, Z.pow2_bits_eqb by lia.
    rewrite (Z.eqb_sym (u8 bit) j).
    destruct (j =? u8 bit); [apply orb_true_r | apply orb_false_r].
Qed.

Section BitExtras.

Context {bus_data : Type}.
Implicit Types (d : flink_device bus_data) (sd : flink_subdevice)
  (t : task_struct).

(** X17: WRITE_SINGLE_BIT with a bit index below 32 on a session with a
    selected subdevice reads the word at [base_addr + offset] and writes
    back a 32-bit word that differs from it in the addressed bit at most:
    that bit is set when the value byte is not 0 and cleared when it is 0,
    and every other bit is as read. *)
Theorem write_single_bit_changes_one_bit t d sd (u : user_memory) c :
  arg_bit u = Some c ->
  u8 (bc_bit c) < 32 ->
  exists o w,
    flink_ioctl t (session_of d (Some sd)) WRITE_SINGLE_BIT u = Some o
    /\ ret o = 0
    /\ accesses o = [Rd32 (u32 (base_addr sd + bc_offset c));
                     Wr32 (u32 (base_addr sd + bc_offset c)) w]
    /\ 0 <= w < 2 ^ 32
    /\ Z.testbit w (u8 (bc_bit c)) = negb (u8 (bc_value c) =? 0)
    /\ forall j, 0 <= j < 32 -> j <> u8 (bc_bit c) ->
         Z.testbit w j
         = Z.testbit (bus_read32 d (u32 (base_addr sd + bc_offset c))) j.
Proof.
  intros Hc Hbit.
  assert (Hmask : bit_mask (bc_bit c)
                  = Some (u32 (Z.shiftl 1 (u8 (bc_bit c))))).
  { unfold bit_mask. apply Z.ltb_lt in Hbit. rewrite Hbit. reflexivity. }
  pose proof (u8_range (bc_bit c)) as Hr.
  eexists. eexists. split.
  { cbn [flink_ioctl]. unfold ioctl_write_single_bit.
    rewrite Hc. cbn [session_of private_data]. rewrite Hmask. reflexivity. }
  cbn [ret accesses].
  split; [reflexivity |]. split; [reflexivity |].
  split; [apply u32_range |]. split.
  - rewrite (written_word_bits _ _ _ _ Hmask) by lia.
    rewrite Z.eqb_refl. reflexivity.
  - intros j Hj Hne.
    rewrite (written_word_bits _ _ _ _ Hmask) by lia.
    apply Z.eqb_neq in Hne. rewrite Hne. reflexivity.
Qed.

(** X18: READ_SINGLE_BIT with a bit index below 32 on a session with a
    selected subdevice copies back the request with its value byte set to
    1 when the addressed bit of the word at [base_addr + offset] is set
    and to 0 when it is clear; it returns 0, or [-EINVAL] when the copy to
    user space fails, and changes nothing. *)
Theorem read_single_bit_returns_bit t d sd (u : user_memory) c :
  arg_bit u = Some c ->
  u8 (bc_bit c) < 32 ->
  exists o,
    flink_ioctl t (session_of d (Some sd)) READ_SINGLE_BIT u = Some o
    /\ file_after o = session_of d (Some sd)
    /\ (copy_to_user_ok u = true ->
        ret o = 0
        /\ to_user o =
             CopyBit
               {| bc_offset := bc_offset c; bc_bit := bc_bit c;
                  bc_value :=
                    if Z.testbit
                         (bus_read32 d (u32 (base_addr sd + bc_offset c)))
                         (u8 (bc_bit c))
                    then 1 else 0;
                  bc_subdevice := bc_subdevice c |})
    /\ (copy_to_user_ok u = false ->
        ret o = - EINVAL /\ to_user o = NoCopy).
Proof.
  intros Hc Hbit.
  assert (Hmask : bit_mask (bc_bit c)
                  = Some (u32 (Z.shiftl 1 (u8 (bc_bit c))))).
  { unfold bit_mask. apply Z.ltb_lt in Hbit. rewrite Hbit. reflexivity. }
  destruct (bit_mask_pow2 _ _ Hmask) as [Hb Hpow].
  eexists. split.
  { cbn [flink_ioctl]. unfold ioctl_read_single_bit.
    rewrite Hc. cbn [session_of private_data]. rewrite Hmask. reflexivity. }
  cbn [ret file_after to_user].
  split; [reflexivity |]. split.
  - intros Hok. rewrite Hok. split; [reflexivity |].
    rewrite Hpow, land_pow2_zero by lia.
    destruct (Z.testbit _ _); reflexivity.
  - intros Hfail. rewrite Hfail. split; reflexivity.
Qed.

End BitExtras.

(** X17, instance: setting bit 3 at offset 1000 of the selected sample
    subdevice reads and writes the bus at 1048 and returns 0. *)
Lemma write_single_bit_changes_one_bit_witness :
  exists o w,
    flink_ioctl {| pid := 1000 |}
      (session_of sample_device (Some sample_subdevice))
      WRITE_SINGLE_BIT (bit_request far_bit_container true) = Some o
    /\ accesses o = [Rd32 1048; Wr32 1048 w]
    /\ Z.testbit w 3 = true.
Proof.
  assert (Hbit : u8 (bc_bit far_bit_container) < 32)
    by (vm_compute; reflexivity).
  destruct (write_single_bit_changes_one_bit {| pid := 1000 |}
              sample_device sample_subdevice
              (bit_request far_bit_container true) far_bit_container
              eq_refl Hbit)
    as [o [w [Hrun [_ [Hacc [_ [Hset _]]]]]]].
  exists o, w. split; [exact Hrun |]. split.
  - rewrite Hacc. vm_compute. reflexivity.
  - assert (H3 : u8 (bc_bit far_bit_container) = 3)
      by (vm_compute; reflexivity).
    rewrite H3 in Hset. rewrite Hset. vm_compute. reflexivity.
Defined.

(** X18, instance: bit 4 of the size word (48) of the selected sample
    subdevice, at offset 4, reads as 1. *)
Lemma read_single_bit_returns_bit_witness :
  exists o,
    flink_ioctl {| pid := 1000 |}
      (session_of sample_device (Some sample_subdevice))
      READ_SINGLE_BIT
      (bit_request {| bc_offset := 4; bc_bit := 4; bc_value := 0;
                      bc_subdevice := 0 |} true) = Some o
    /\ ret o = 0
    /\ to_user o = CopyBit {| bc_offset := 4; bc_bit := 4; bc_value := 1;
                              bc_subdevice := 0 |}.
Proof.
  assert (Hbit : u8 (bc_bit {| bc_offset := 4; bc_bit := 4; bc_value := 0;
                               bc_subdevice := 0 |}) < 32)
    by (vm_compute; reflexivity).
  destruct (read_single_bit_returns_bit {| pid := 1000 |}
              sample_device sample_subdevice
              (bit_request {| bc_offset := 4; bc_bit := 4; bc_value := 0;
                              bc_subdevice := 0 |} true) _
              eq_refl Hbit)
    as [o [Hrun [_ [Hok _]]]].
  destruct (Hok eq_refl) as [Hret Hout].
  exists o. split; [exact Hrun |]. split; [exact Hret |].
  rewrite Hout. vm_compute. reflexivity.
Defined.

(** ** The AXI backend as a byte store *)

Lemma axi_ioread8_iowrite8 (d : Axi.flink_axi_bus_data) (a v x : Z) :
  Axi.ioread8 (Axi.iowrite8 d a v) x
  = if x =? a then u8 v else Axi.ioread8 d x.
Proof.
  unfold Axi.ioread8, Axi.iowrite8. cbn [Axi.io].
  destruct (x =? a); [apply u8_u8 | reflexivity].
Qed.

Lemma axi_ioread8_iowrite16 (d : Axi.flink_axi_bus_data) (a v x : Z) :
  Axi.ioread8 (Axi.iowrite16 d a v) x
  = if x =? a + 1 then u8 (Z.shiftr v 8)
    else if x =? a then u8 v else Axi.ioread8 d x.
Proof.
  unfold Axi.iowrite16. rewrite !axi_ioread8_iowrite8. reflexivity.
Qed.

Lemma axi_ioread8_iowrite32 (d : Axi.flink_axi_bus_data) (a v x : Z) :
  Axi.ioread8 (Axi.iowrite32 d a v) x
  = if x =? a + 2 + 1 then u8 (Z.shiftr (Z.shiftr v 16) 8)
    else if x =? a + 2 then u8 (Z.shiftr v 16)
    else if x =? a + 1 then u8 (Z.shiftr v 8)
    else if x =? a then u8 v else Axi.ioread8 d x.
Proof.
  unfold Axi.iowrite32. rewrite !axi_ioread8_iowrite16. reflexivity.
Qed.

Lemma u16_bytes (v : Z) : u8 v + 2 ^ 8 * u8 (Z.shiftr v 8) = u16 v.
Proof.
  unfold u8, u16. rewrite Z.shiftr_div_pow2 by lia.
  change (2 ^ 16) with (2 ^ 8 * 2 ^ 8).
  rewrite Z.rem_mul_r by lia. reflexivity.
Qed.

Lemma u32_halves (v : Z) : u16 v + 2 ^ 16 * u16 (Z.shiftr v 16) = u32 v.
Proof.
  unfold u16, u32. rewrite Z.shiftr_div_pow2 by lia.
  change (2 ^ 32) with (2 ^ 16 * 2 ^ 16).
  rewrite Z.rem_mul_r by lia. reflexivity.
Qed.

Lemma axi_ioread8_after_write8 (d : Axi.flink_axi_bus_data) (a v : Z) :
  Axi.ioread8 (Axi.iowrite8 d a v) a = u8 v.
Proof. rewrite axi_ioread8_iowrite8, Z.eqb_refl. reflexivity. Qed.

Lemma axi_ioread16_after_write16 (d : Axi.flink_axi_bus_data) (a v : Z) :
  Axi.ioread16 (Axi.iowrite16 d a v) a = u16 v.
Proof.
  unfold Axi.ioread16. rewrite !axi_ioread8_iowrite16. eqb_off.
  apply u16_bytes.
Qed.

Lemma axi_ioread32_after_write32 (d : Axi.flink_axi_bus_data) (a v : Z) :
  Axi.ioread32 (Axi.iowrite32 d a v) a = u32 v.
Proof.
  unfold Axi.ioread32, Axi.ioread16. rewrite !axi_ioread8_iowrite32.
  eqb_off. rewrite !u16_bytes. apply u32_halves.
Qed.

(** X19: the AXI backend answers 0 to every read at an offset that is not
    below the region size and ignores every write there; it never changes
    the region size. *)
Theorem axi_out_of_range (d : Axi.flink_axi_bus_data) (addr v : Z) :
  (Axi.size d <= addr ->
   Axi.flink_axi_read8 d addr = 0
   /\ Axi.flink_axi_read16 d addr = 0
   /\ Axi.flink_axi_read32 d addr = 0
   /\ Axi.flink_axi_write8 d addr v = d
   /\ Axi.flink_axi_write16 d addr v = d
   /\ Axi.flink_axi_write32 d addr v = d)
  /\ Axi.size (Axi.flink_axi_write8 d addr v) = Axi.size d
  /\ Axi.size (Axi.flink_axi_write16 d addr v) = Axi.size d
  /\ Axi.size (Axi.flink_axi_write32 d addr v) = Axi.size d.
Proof.
  unfold Axi.flink_axi_read8, Axi.flink_axi_read16, Axi.flink_axi_read32,
    Axi.flink_axi_write8, Axi.flink_axi_write16, Axi.flink_axi_write32,
    Axi.flink_check_offset.
  split.
  - intros H. apply Z.ltb_ge in H. rewrite H. repeat split.
  - destruct (addr <? Axi.size d); repeat split.
Qed.

(** X20: inside the region the AXI backend reads back what was written:
    a write of width 1, 2 or 4 at an offset below the region size followed
    by a read of the same width at that offset returns the value written,
    truncated to the width; bytes outside the [width] bytes written are as
    before. *)
Theorem axi_write_then_read (d : Axi.flink_axi_bus_data) (addr v : Z) :
  addr < Axi.size d ->
  Axi.flink_axi_read8 (Axi.flink_axi_write8 d addr v) addr = u8 v
  /\ Axi.flink_axi_read16 (Axi.flink_axi_write16 d addr v) addr = u16 v
  /\ Axi.flink_axi_read32 (Axi.flink_axi_write32 d addr v) addr = u32 v
  /\ (forall x, x <> addr ->
        Axi.ioread8 (Axi.flink_axi_write8 d addr v) x = Axi.ioread8 d x)
  /\ (forall x, x < addr \/ addr + 1 < x ->
        Axi.ioread8 (Axi.flink_axi_write16 d addr v) x = Axi.ioread8 d x)
  /\ (forall x, x < addr \/ addr + 3 < x ->
        Axi.ioread8 (Axi.flink_axi_write32 d addr v) x = Axi.ioread8 d x).
Proof.
  intros H.
  unfold Axi.flink_axi_read8, Axi.flink_axi_read16, Axi.flink_axi_read32,
    Axi.flink_axi_write8, Axi.flink_axi_write16, Axi.flink_axi_write32,
    Axi.flink_check_offset.
  apply Z.ltb_lt in H. rewrite H.
  assert (H8 : (addr <? Axi.size (Axi.iowrite8 d addr v)) = true) by exact H.
  assert (H16 : (addr <? Axi.size (Axi.iowrite16 d addr v)) = true)
    by exact H.
  assert (H32 : (addr <? Axi.size (Axi.iowrite32 d addr v)) = true)
    by exact H.
  rewrite H8, H16, H32.
  split; [apply axi_ioread8_after_write8 |].
  split; [apply axi_ioread16_after_write16 |].
  split; [apply axi_ioread32_after_write32 |].
  split; [| split].
  - intros x Hx. rewrite axi_ioread8_iowrite8. eqb_off. reflexivity.
  - intros x Hx. rewrite axi_ioread8_iowrite16. eqb_off. reflexivity.
  - intros x Hx. rewrite axi_ioread8_iowrite32. eqb_off. reflexivity.
Qed.

(** X19, instance: read and write at offset 256 of a 256-byte region. *)
Lemma axi_out_of_range_witness :
  Axi.flink_axi_read32 {| Axi.size := 256; Axi.io := Axi.registers [7] |} 256
  = 0
  /\ Axi.flink_axi_write32
       {| Axi.size := 256; Axi.io := Axi.registers [7] |} 256 5
     = {| Axi.size := 256; Axi.io := Axi.registers [7] |}.
Proof.
  destruct (axi_out_of_range
              {| Axi.size := 256; Axi.io := Axi.registers [7] |} 256 5)
    as [H _].
  assert (Hout : Axi.size {| Axi.size := 256; Axi.io := Axi.registers [7] |}
                 <= 256) by (cbn [Axi.size]; lia).
  destruct (H Hout) as [_ [_ [Hr [_ [_ Hw]]]]].
  split; [exact Hr | exact Hw].
Defined.

(** X20, instance: 0x12345678 written at offset 8 of a 256-byte region
    reads back. *)
Lemma axi_write_then_read_witness :
  Axi.flink_axi_read32
    (Axi.flink_axi_write32
       {| Axi.size := 256; Axi.io := Axi.registers [7] |} 8 305419896) 8
  = 305419896.
Proof.
  assert (Hin : 8 < Axi.size {| Axi.size := 256; Axi.io := Axi.registers [7] |})
    by (cbn [Axi.size]; lia).
  destruct (axi_write_then_read
              {| Axi.size := 256; Axi.io := Axi.registers [7] |} 8 305419896
              Hin)
    as [_ [_ [H32 _]]].
  rewrite H32. vm_compute. reflexivity.
Defined.

(** ** Session forwarding: stream operations, seek and the select-and
       commands *)

Section SessionExtras.

Context {bus_data : Type}.
Implicit Types (d : flink_device bus_data) (f : file bus_data)
  (sd : flink_subdevice) (t : task_struct).

(** X21: [flink_read] on a session bound to a device never returns an
    error code and never changes the session.  It accesses the bus
    exactly when a subdevice is selected, the offset (as [u32]) is not
    greater than the subdevice's [mem_size] (an offset equal to [mem_size]
    is let through) and the size is 1, 2 or 4: then it makes one read of
    that width at [base_addr + offset] and returns the size, or 0 when the
    copy to user space fails.  In every other case it returns 0 without
    touching the bus. *)
Theorem flink_read_behaviour d cs size offset ok :
  exists o,
    flink_read (session_of d cs) size offset ok = Some o
    /\ file_after o = session_of d cs
    /\ ((exists sd,
           cs = Some sd
           /\ u32 offset <= mem_size sd
           /\ (size = 1 \/ size = 2 \/ size = 4)
           /\ accesses o =
                [if size =? 1 then Rd8 (u32 (base_addr sd + u32 offset))
                 else if size =? 2 then Rd16 (u32 (base_addr sd + u32 offset))
                 else Rd32 (u32 (base_addr sd + u32 offset))]
           /\ ret o = (if ok then size else 0))
        \/ ((cs = None
             \/ exists sd,
                  cs = Some sd
                  /\ (mem_size sd < u32 offset
                      \/ (size <> 1 /\ size <> 2 /\ size <> 4)))
            /\ accesses o = [] /\ ret o = 0 /\ to_user o = NoCopy)).
Proof.
  cbn [flink_read session_of private_data current_subdevice fdev].
  destruct cs as [sd |].
  2: { eexists. split; [reflexivity |]. split; [reflexivity |].
       right. split; [left; reflexivity | repeat split]. }
  destruct (Z.ltb_spec (mem_size sd) (u32 offset)) as [Hoff | Hoff].
  { eexists. split; [reflexivity |]. split; [reflexivity |].
    right. split; [right; exists sd; split; [reflexivity | left; exact Hoff]
                  | repeat split]. }
  destruct (Z.eqb_spec size 1) as [-> | H1].
  { eexists. split; [reflexivity |]. split; [reflexivity |].
    left. exists sd. cbn [accesses ret]. repeat split; auto. }
  destruct (Z.eqb_spec size 2) as [-> | H2].
  { eexists. split; [reflexivity |]. split; [reflexivity |].
    left. exists sd. cbn [accesses ret]. repeat split; auto. }
  destruct (Z.eqb_spec size 4) as [-> | H4].
  { eexists. split; [reflexivity |]. split; [reflexivity |].
    left. exists sd. cbn [accesses ret]. repeat split; auto. }
  eexists. split; [reflexivity |]. split; [reflexivity |].
  right. split; [| repeat split].
  right. exists sd. split; [reflexivity |]. right. repeat split; assumption.
Qed.

(** X22: [flink_write] on a session bound to a device never returns an
    error code.  It writes to the bus exactly when a subdevice is
    selected, the offset is not greater than its [mem_size], the size is
    1, 2 or 4 and the data could be copied from user space: then it makes
    one write of that width at [base_addr + offset], of the data truncated
    to the width, returns the size and leaves the session with the device
    after that write.  In every other case (no subdevice selected, offset
    past [mem_size], another size, or data that could not be copied) it
    returns 0, makes no bus access and leaves the session and device as
    they were.  It never reads the bus. *)
Theorem flink_write_behaviour d cs data size offset :
  exists o,
    flink_write (session_of d cs) data size offset = Some o
    /\ ((exists sd wdata,
           cs = Some sd /\ data = Some wdata
           /\ u32 offset <= mem_size sd
           /\ (size = 1 \/ size = 2 \/ size = 4)
           /\ accesses o =
                [if size =? 1
                 then Wr8 (u32 (base_addr sd + u32 offset)) (u8 wdata)
                 else if size =? 2
                 then Wr16 (u32 (base_addr sd + u32 offset)) (u16 wdata)
                 else Wr32 (u32 (base_addr sd + u32 offset)) (u32 wdata)]
           /\ ret o = size
           /\ file_after o =
                session_of
                  (if size =? 1
                   then bus_write8 d (u32 (base_addr sd + u32 offset)) wdata
                   else if size =? 2
                   then bus_write16 d (u32 (base_addr sd + u32 offset)) wdata
                   else bus_write32 d (u32 (base_addr sd + u32 offset)) wdata)
                  cs)
        \/ ((cs = None
             \/ exists sd,
                  cs = Some sd
                  /\ (mem_size sd < u32 offset
                      \/ (size <> 1 /\ size <> 2 /\ size <> 4)
                      \/ data = None))
            /\ accesses o = [] /\ ret o = 0
            /\ file_after o = session_of d cs)).
Proof.
  cbn [flink_write session_of private_data current_subdevice fdev].
  destruct cs as [sd |].
  2: { eexists. split; [reflexivity |]. right.
       split; [left; reflexivity | repeat split]. }
  destruct (Z.ltb_spec (mem_size sd) (u32 offset)) as [Hoff | Hoff].
  { eexists. split; [reflexivity |]. right.
    split; [right; exists sd; split; [reflexivity | left; exact Hoff]
           | repeat split]. }
  assert (Hnodata : forall o : @outcome bus_data,
            accesses o = [] -> ret o = 0 ->
            file_after o = session_of d (Some sd) ->
            data = None ->
            (Some sd = None
             \/ exists sd0,
                  Some sd = Some sd0
                  /\ (mem_size sd0 < u32 offset
                      \/ (size <> 1 /\ size <> 2 /\ size <> 4)
                      \/ data = None))
            /\ accesses o = [] /\ ret o = 0
            /\ file_after o = session_of d (Some sd)).
  { intros o Ha Hr Hf Hd. split; [| repeat split; assumption].
    right. exists sd. split; [reflexivity |]. right. right. exact Hd. }
  destruct (Z.eqb_spec size 1) as [-> | H1].
  { destruct data as [wdata |]; cbn [orb Z.eqb].
    - eexists. split; [reflexivity |]. left. exists sd, wdata.
      cbn [accesses ret file_after]. repeat split; auto.
    - eexists. split; [reflexivity |]. right.
      apply Hnodata; reflexivity. }
  destruct (Z.eqb_spec size 2) as [-> | H2].
  { destruct data as [wdata |]; cbn [orb Z.eqb].
    - eexists. split; [reflexivity |]. left. exists sd, wdata.
      cbn [accesses ret file_after]. repeat split; auto.
    - eexists. split; [reflexivity |]. right.
      apply Hnodata; reflexivity. }
  destruct (Z.eqb_spec size 4) as [-> | H4].
  { destruct data as [wdata |]; cbn [orb Z.eqb].
    - eexists. split; [reflexivity |]. left. exists sd, wdata.
      cbn [accesses ret file_after]. repeat split; auto.
    - eexists. split; [reflexivity |]. right.
      apply Hnodata; reflexivity. }
  cbn [orb]. eexists. split; [reflexivity |]. right.
  split; [| repeat split].
  right. exists sd. split; [reflexivity |].
  right. left. repeat split; assumption.
Qed.

(** X23: [flink_llseek] returns [-EINVAL] without moving when no subdevice
    is selected and when [whence] is not 0, 1 or 2.  Otherwise the target
    is the offset itself (0), the position plus the offset (1) or
    [mem_size] plus the offset (2); as long as it stays within [loff_t],
    a negative target gives [-EINVAL] without moving, and any other target
    becomes the position and is returned, without being compared with
    [mem_size].  So the call never leaves a negative position and never
    moves the position when it returns an error. *)
Theorem flink_llseek_behaviour d cs f_pos off whence :
  (cs = None \/ (whence <> 0 /\ whence <> 1 /\ whence <> 2) ->
   flink_llseek (session_of d cs) f_pos off whence = Some (- EINVAL, f_pos))
  /\ (forall sd target,
        cs = Some sd ->
        (whence = 0 /\ target = off)
        \/ (whence = 1 /\ target = f_pos + off)
        \/ (whence = 2 /\ target = mem_size sd + off) ->
        - 2 ^ 63 <= target < 2 ^ 63 ->
        flink_llseek (session_of d cs) f_pos off whence
        = Some (if target <? 0 then (- EINVAL, f_pos) else (target, target)))
  /\ (forall r p',
        flink_llseek (session_of d cs) f_pos off whence = Some (r, p') ->
        (0 <= f_pos -> 0 <= p')
        /\ (r < 0 -> r = - EINVAL /\ p' = f_pos)
        /\ (0 <= r -> p' = r)).
Proof.
  cbn [flink_llseek session_of private_data]. unfold EINVAL.
  assert (Hok : forall target,
            - 2 ^ 63 <= target < 2 ^ 63 -> loff_t_ok target = true).
  { intros target H. unfold loff_t_ok. apply andb_true_intro.
    split; [apply Z.leb_le | apply Z.ltb_lt]; lia. }
  assert (Hfin : forall r p' target,
            (if loff_t_ok target
             then if target <? 0 then Some (- (22), f_pos)
                  else Some (target, target)
             else None) = Some (r, p') ->
            (0 <= f_pos -> 0 <= p')
            /\ (r < 0 -> r = - (22) /\ p' = f_pos)
            /\ (0 <= r -> p' = r)).
  { intros r p' target H. destruct (loff_t_ok target); [| discriminate].
    destruct (Z.ltb_spec target 0); injection H as <- <-;
      repeat split; lia. }
  split; [| split].
  - intros [-> | [H0 [H1 H2]]]; [reflexivity |].
    destruct cs as [sd |]; [| reflexivity].
    apply Z.eqb_neq in H0, H1, H2. rewrite H0, H1, H2. reflexivity.
  - intros sd target -> Hcase Hrange.
    destruct Hcase as [[-> ->] | [[-> ->] | [-> ->]]].
    + change (0 =? 0) with true. cbv iota.
      rewrite (Hok _ Hrange). destruct (off <? 0); reflexivity.
    + change (1 =? 0) with false. change (1 =? 1) with true. cbv iota.
      rewrite (Hok _ Hrange). destruct (f_pos + off <? 0); reflexivity.
    + change (2 =? 0) with false. change (2 =? 1) with false.
      change (2 =? 2) with true. cbv iota.
      rewrite (Hok _ Hrange). destruct (mem_size sd + off <? 0); reflexivity.
  - intros r p'. destruct cs as [sd |].
    2: { intros H. injection H as <- <-. repeat split; lia. }
    destruct (whence =? 0); [apply Hfin |].
    destruct (whence =? 1); [apply Hfin |].
    destruct (whence =? 2); [apply Hfin |].
    intros H. injection H as <- <-. repeat split; lia.
Qed.

End SessionExtras.

(** X23, instances: seeking to the end of the selected sample subdevice
    gives position 48; seeking 100 bytes back from position 10 is refused
    and the position stays. *)
Lemma flink_llseek_behaviour_witness :
  flink_llseek (session_of sample_device (Some sample_subdevice)) 0 0 2
  = Some (48, 48)
  /\ flink_llseek (session_of sample_device (Some sample_subdevice))
       10 (-100) 1
     = Some (-22, 10).
Proof.
  split.
  - destruct (flink_llseek_behaviour sample_device (Some sample_subdevice)
                0 0 2) as [_ [Hmove _]].
    rewrite (Hmove sample_subdevice 48 eq_refl
               (or_intror (or_intror (conj eq_refl eq_refl)))
               ltac:(lia)).
    reflexivity.
  - destruct (flink_llseek_behaviour sample_device (Some sample_subdevice)
                10 (-100) 1) as [_ [Hmove _]].
    rewrite (Hmove sample_subdevice (-90) eq_refl
               (or_intror (or_introl (conj eq_refl eq_refl)))
               ltac:(lia)).
    reflexivity.
Defined.

Section SelectAndExtras.

Context {bus_data : Type}.
Implicit Types (d : flink_device bus_data) (f : file bus_data)
  (sd : flink_subdevice) (t : task_struct).

(** X24: SELECT_AND_READ, SELECT_AND_WRITE, SELECT_AND_READ_BIT and
    SELECT_AND_WRITE_BIT work on the subdevice named in the request and
    never change the session's selected subdevice.
    - With a bit index below 32, SELECT_AND_READ_BIT reads the word at
      [base_addr + offset] of the named subdevice and copies back the
      request with the addressed bit as value; SELECT_AND_WRITE_BIT reads
      that word and writes back, at the same address, a word that differs
      from it in the addressed bit at most, set when the value byte is not
      0 and cleared when it is 0.
    - With a non-NULL data pointer and an offset not greater than the
      subdevice's [mem_size], SELECT_AND_READ and SELECT_AND_WRITE of
      size 1, 2 or 4 make one access of that width at
      [base_addr + offset] of the named subdevice; any other size, and an
      offset past [mem_size], gives [-EINVAL] without bus access.
    - The two writing commands change nothing of the device but its bus
      data.
    - When the device has no subdevice with the id named, each of the
      four returns [-EINVAL] without any bus access. *)
Theorem select_and_commands_keep_selection t d cs (u : user_memory) :
  (forall c sd,
     arg_bit u = Some c ->
     flink_get_subdevice_by_id (Some d) (bc_subdevice c) = Some sd ->
     u8 (bc_bit c) < 32 ->
     ioctl_select_and_read_bit (session_of d cs) u
     = Some {| ret := if copy_to_user_ok u then 0 else - EINVAL;
               file_after := session_of d cs;
               accesses := [Rd32 (u32 (base_addr sd + bc_offset c))];
               klog := [];
               to_user :=
                 if copy_to_user_ok u
                 then CopyBit
                        {| bc_offset := bc_offset c; bc_bit := bc_bit c;
                           bc_value :=
                             if Z.testbit
                                  (bus_read32 d
                                     (u32 (base_addr sd + bc_offset c)))
                                  (u8 (bc_bit c))
                             then 1 else 0;
                           bc_subdevice := bc_subdevice c |}
                 else NoCopy |}
     /\ exists w,
          ioctl_select_and_write_bit (session_of d cs) u
          = Some {| ret := 0;
                    file_after :=
                      session_of
                        (bus_write32 d (u32 (base_addr sd + bc_offset c)) w)
                        cs;
                    accesses :=
                      [Rd32 (u32 (base_addr sd + bc_offset c));
                       Wr32 (u32 (base_addr sd + bc_offset c)) w];
                    klog := [];
                    to_user := NoCopy |}
          /\ 0 <= w < 2 ^ 32
          /\ forall j, 0 <= j < 32 ->
               Z.testbit w j
               = if j =? u8 (bc_bit c) then negb (u8 (bc_value c) =? 0)
                 else Z.testbit
                        (bus_read32 d (u32 (base_addr sd + bc_offset c))) j)
  /\ (forall c sd,
        arg_container u = Some c ->
        c_data c <> 0 ->
        flink_get_subdevice_by_id (Some d) (c_subdevice c) = Some sd ->
        u32 (c_offset c) <= mem_size sd ->
        (u8 (c_size c) = 1 \/ u8 (c_size c) = 2 \/ u8 (c_size c) = 4 ->
         flink_ioctl t (session_of d cs) SELECT_AND_READ u
         = Some {| ret := if copy_to_user_ok u then u8 (c_size c) else 0;
                   file_after := session_of d cs;
                   accesses :=
                     [if u8 (c_size c) =? 1
                      then Rd8 (u32 (base_addr sd + u32 (c_offset c)))
                      else if u8 (c_size c) =? 2
                      then Rd16 (u32 (base_addr sd + u32 (c_offset c)))
                      else Rd32 (u32 (base_addr sd + u32 (c_offset c)))];
                   klog := [];
                   to_user :=
                     if copy_to_user_ok u
                     then CopyData (u8 (c_size c))
                            (if u8 (c_size c) =? 1
                             then bus_read8 d
                                    (u32 (base_addr sd + u32 (c_offset c)))
                             else if u8 (c_size c) =? 2
                             then bus_read16 d
                                    (u32 (base_addr sd + u32 (c_offset c)))
                             else bus_read32 d
                                    (u32 (base_addr sd + u32 (c_offset c))))
                     else NoCopy |}
         /\ ioctl_select_and_write (session_of d cs) u
            = match arg_payload u with
              | None => Some (returns (- EINVAL) (session_of d cs))
              | Some v =>
                  Some {| ret := u8 (c_size c);
                          file_after :=
                            session_of
                              (if u8 (c_size c) =? 1
                               then bus_write8 d
                                      (u32 (base_addr sd + u32 (c_offset c)))
                                      v
                               else if u8 (c_size c) =? 2
                               then bus_write16 d
                                      (u32 (base_addr sd + u32 (c_offset c)))
                                      v
                               else bus_write32 d
                                      (u32 (base_addr sd + u32 (c_offset c)))
                                      v)
                              cs;
                          accesses :=
                            [if u8 (c_size c) =? 1
                             then Wr8 (u32 (base_addr sd + u32 (c_offset c)))
                                    (u8 v)
                             else if u8 (c_size c) =? 2
                             then Wr16 (u32 (base_addr sd + u32 (c_offset c)))
                                    (u16 v)
                             else Wr32 (u32 (base_addr sd + u32 (c_offset c)))
                                    (u32 v)];
                          klog := [];
                          to_user := NoCopy |}
              end)
        /\ (u8 (c_size c) <> 1 -> u8 (c_size c) <> 2 -> u8 (c_size c) <> 4 ->
            flink_ioctl t (session_of d cs) SELECT_AND_READ u
            = Some (returns (- EINVAL) (session_of d cs))
            /\ ioctl_select_and_write (session_of d cs) u
               = Some (returns (- EINVAL) (session_of d cs))))
  /\ (forall c sd,
        arg_container u = Some c ->
        flink_get_subdevice_by_id (Some d) (c_subdevice c) = Some sd ->
        mem_size sd < u32 (c_offset c) ->
        flink_ioctl t (session_of d cs) SELECT_AND_READ u
        = Some (returns (- EINVAL) (session_of d cs))
        /\ ioctl_select_and_write (session_of d cs) u
           = Some (returns (- EINVAL) (session_of d cs)))
  /\ (forall o,
     flink_ioctl t (session_of d cs) SELECT_AND_READ u = Some o ->
     file_after o = session_of d cs)
  /\ (forall o,
        ioctl_select_and_read_bit (session_of d cs) u = Some o ->
        file_after o = session_of d cs)
  /\ (forall o,
        ioctl_select_and_write (session_of d cs) u = Some o ->
        exists d',
          file_after o = session_of d' cs
          /\ registry_of d' = registry_of d /\ bus_ops d' = bus_ops d)
  /\ (forall o,
        ioctl_select_and_write_bit (session_of d cs) u = Some o ->
        exists d',
          file_after o = session_of d' cs
          /\ registry_of d' = registry_of d /\ bus_ops d' = bus_ops d)
  /\ (forall c,
        arg_container u = Some c ->
        flink_get_subdevice_by_id (Some d) (c_subdevice c) = None ->
        flink_ioctl t (session_of d cs) SELECT_AND_READ u
        = Some (returns (- EINVAL) (session_of d cs))
        /\ ioctl_select_and_write (session_of d cs) u
           = Some (returns (- EINVAL) (session_of d cs)))
  /\ (forall c,
        arg_bit u = Some c ->
        flink_get_subdevice_by_id (Some d) (bc_subdevice c) = None ->
        ioctl_select_and_read_bit (session_of d cs) u
        = Some (returns (- EINVAL) (session_of d cs))
        /\ ioctl_select_and_write_bit (session_of d cs) u
           = Some (returns (- EINVAL) (session_of d cs))).
Proof.
  split; [| split; [| split; [| split; [| split; [| split; [| split;
    [| split]]]]]]].
  - intros c sd Hc Hsd Hbit.
    assert (Hmask : bit_mask (bc_bit c)
                    = Some (u32 (Z.shiftl 1 (u8 (bc_bit c))))).
    { unfold bit_mask. apply Z.ltb_lt in Hbit. rewrite Hbit. reflexivity. }
    destruct (bit_mask_pow2 _ _ Hmask) as [Hb Hpow].
    unfold ioctl_select_and_read_bit, ioctl_select_and_write_bit.
    rewrite Hc. cbn [session_of private_data fdev].
    rewrite Hsd, Hmask. split.
    + rewrite Hpow, land_pow2_zero by lia.
      destruct (Z.testbit _ _); reflexivity.
    + exists (u32 (if u8 (bc_value c) =? 0
                   then Z.land
                          (bus_read32 d (u32 (base_addr sd + bc_offset c)))
                          (u32 (Z.lnot (u32 (Z.shiftl 1 (u8 (bc_bit c))))))
                   else Z.lor
                          (bus_read32 d (u32 (base_addr sd + bc_offset c)))
                          (u32 (Z.shiftl 1 (u8 (bc_bit c)))))).
      split; [| split].
      * cbn [set_fdev current_subdevice].
        unfold bus_write32. rewrite !u32_u32. reflexivity.
      * apply u32_range.
      * intros j Hj. apply (written_word_bits _ _ _ _ Hmask). exact Hj.
  - intros c sd Hc Hdata Hsd Hoff.
    apply Z.eqb_neq in Hdata.
    assert (Hoff' : (mem_size sd <? u32 (c_offset c)) = false)
      by (apply Z.ltb_ge; exact Hoff).
    cbn [flink_ioctl].
    unfold ioctl_select_and_read, ioctl_select_and_write.
    rewrite Hc, Hdata. cbn [session_of private_data fdev].
    rewrite Hsd, Hoff'. split.
    + intros [Hw | [Hw | Hw]]; rewrite Hw; cbn [Z.eqb Pos.eqb orb];
        (split; [reflexivity |]);
        destruct (arg_payload u); reflexivity.
    + intros H1 H2 H4. apply Z.eqb_neq in H1, H2, H4.
      rewrite H1, H2, H4. split; reflexivity.
  - intros c sd Hc Hsd Hoff. apply Z.ltb_lt in Hoff.
    cbn [flink_ioctl].
    unfold ioctl_select_and_read, ioctl_select_and_write.
    rewrite Hc. cbn [session_of private_data fdev].
    rewrite Hsd, Hoff. destruct (c_data c =? 0); split; reflexivity.
  - intros o Hrun. cbn [flink_ioctl] in Hrun.
    unfold ioctl_select_and_read in Hrun.
    destruct (arg_container u) as [c |]; [| inversion Hrun; reflexivity].
    destruct (c_data c =? 0); [inversion Hrun; reflexivity |].
    cbn [session_of private_data fdev] in Hrun.
    destruct (flink_get_subdevice_by_id (Some d) (c_subdevice c));
      [| inversion Hrun; reflexivity].
    destruct (mem_size _ <? _); [inversion Hrun; reflexivity |].
    destruct (u8 (c_size c) =? 1); [inversion Hrun; reflexivity |].
    destruct (u8 (c_size c) =? 2); [inversion Hrun; reflexivity |].
    destruct (u8 (c_size c) =? 4); inversion Hrun; reflexivity.
  - intros o Hrun. unfold ioctl_select_and_read_bit in Hrun.
    destruct (arg_bit u) as [c |]; [| inversion Hrun; reflexivity].
    cbn [session_of private_data fdev] in Hrun.
    destruct (flink_get_subdevice_by_id (Some d) (bc_subdevice c));
      [| inversion Hrun; reflexivity].
    destruct (bit_mask (bc_bit c)); [| discriminate Hrun].
    inversion Hrun; reflexivity.
  - intros o Hrun. unfold ioctl_select_and_write in Hrun.
    assert (Hsame : exists d', session_of d cs = session_of d' cs
                               /\ registry_of d' = registry_of d
                               /\ bus_ops d' = bus_ops d)
      by (exists d; repeat split).
    destruct (arg_container u) as [c |]; [| inversion Hrun; exact Hsame].
    destruct (c_data c =? 0); [inversion Hrun; exact Hsame |].
    cbn [session_of private_data fdev] in Hrun.
    destruct (flink_get_subdevice_by_id (Some d) (c_subdevice c));
      [| inversion Hrun; exact Hsame].
    destruct (mem_size _ <? _); [inversion Hrun; exact Hsame |].
    destruct ((u8 (c_size c) =? 1) || (u8 (c_size c) =? 2)
              || (u8 (c_size c) =? 4));
      [| inversion Hrun; exact Hsame].
    destruct (arg_payload u); [| inversion Hrun; exact Hsame].
    destruct (u8 (c_size c) =? 1);
      [inversion Hrun; eexists; repeat split |].
    destruct (u8 (c_size c) =? 2);
      inversion Hrun; eexists; repeat split.
  - intros o Hrun. unfold ioctl_select_and_write_bit in Hrun.
    assert (Hsame : exists d', session_of d cs = session_of d' cs
                               /\ registry_of d' = registry_of d
                               /\ bus_ops d' = bus_ops d)
      by (exists d; repeat split).
    destruct (arg_bit u) as [c |]; [| inversion Hrun; exact Hsame].
    cbn [session_of private_data fdev] in Hrun.
    destruct (flink_get_subdevice_by_id (Some d) (bc_subdevice c));
      [| inversion Hrun; exact Hsame].
    destruct (bit_mask (bc_bit c)); [| discriminate Hrun].
    inversion Hrun; eexists; repeat split.
  - intros c Hc Hmiss. cbn [flink_ioctl].
    unfold ioctl_select_and_read, ioctl_select_and_write.
    rewrite Hc. cbn [session_of private_data fdev]. rewrite Hmiss.
    destruct (c_data c =? 0); split; reflexivity.
  - intros c Hc Hmiss.
    unfold ioctl_select_and_read_bit, ioctl_select_and_write_bit.
    rewrite Hc. cbn [session_of private_data fdev]. rewrite Hmiss.
    split; reflexivity.
Qed.

End SelectAndExtras.

(** X25: on a device behind the AXI backend, SELECT_AND_WRITE of width 1,
    2 or 4 to an offset not greater than the subdevice's size, whose bus
    address lies below the region size, returns the width, and a
    SELECT_AND_READ of the same request then returns the width and copies
    out the value written, truncated to the width. *)
Theorem select_and_write_then_read (t : task_struct)
  (d : flink_device Axi.flink_axi_bus_data) cs (u : user_memory) c sd v w :
  bus_ops d = Axi.flink_axi_bus_ops ->
  arg_container u = Some c ->
  c_data c <> 0 ->
  arg_payload u = Some v ->
  copy_to_user_ok u = true ->
  u8 (c_size c) = w ->
  w = 1 \/ w = 2 \/ w = 4 ->
  flink_get_subdevice_by_id (Some d) (c_subdevice c) = Some sd ->
  u32 (c_offset c) <= mem_size sd ->
  u32 (base_addr sd + u32 (c_offset c)) < Axi.size (dev_bus_data d) ->
  exists o1 o2,
    ioctl_select_and_write (session_of d cs) u = Some o1
    /\ ret o1 = w
    /\ flink_ioctl t (file_after o1) SELECT_AND_READ u = Some o2
    /\ ret o2 = w
    /\ to_user o2 = CopyData w (v mod 2 ^ (8 * w)).
Proof.
  intros Hops Hc Hdata Hv Hok Hsize Hw Hsd Hoff Haddr.
  apply Z.eqb_neq in Hdata.
  assert (Hoff' : (mem_size sd <? u32 (c_offset c)) = false)
    by (apply Z.ltb_ge; exact Hoff).
  assert (Hu : u32 (u32 (base_addr sd + u32 (c_offset c)))
               = u32 (base_addr sd + u32 (c_offset c))).
  { unfold u32. apply Z.mod_mod. lia. }
  destruct (axi_write_then_read (dev_bus_data d)
              (u32 (base_addr sd + u32 (c_offset c))) v Haddr)
    as [R8 [R16 [R32 _]]].
  destruct (axi_write_then_read (dev_bus_data d)
              (u32 (base_addr sd + u32 (c_offset c))) (u8 v) Haddr)
    as [R8' _].
  destruct (axi_write_then_read (dev_bus_data d)
              (u32 (base_addr sd + u32 (c_offset c))) (u16 v) Haddr)
    as [_ [R16' _]].
  destruct (axi_write_then_read (dev_bus_data d)
              (u32 (base_addr sd + u32 (c_offset c))) (u32 v) Haddr)
    as [_ [_ [R32' _]]].
  unfold ioctl_select_and_write. cbn [flink_ioctl].
  unfold ioctl_select_and_read.
  rewrite Hc, Hdata. cbn [session_of private_data fdev].
  rewrite Hsd, Hoff', Hv, Hsize.
  destruct Hw as [-> | [-> | ->]]; cbn [Z.eqb Pos.eqb orb].
  - eexists. eexists. split; [reflexivity |]. split; [reflexivity |].
    cbn [file_after set_fdev private_data fdev current_subdevice
         flink_get_subdevice_by_id bus_write8 set_bus_data subdevices].
    cbn [flink_get_subdevice_by_id] in Hsd. rewrite Hsd, Hoff', Hok.
    split; [reflexivity |]. cbn [ret to_user]. split; [reflexivity |].
    f_equal. unfold bus_read8, bus_write8, set_bus_data.
    cbn [bus_ops dev_bus_data].
    rewrite Hops. unfold Axi.flink_axi_bus_ops. cbn [read8 write8].
    rewrite Hu, R8'.
    rewrite !u8_u8. reflexivity.
  - eexists. eexists. split; [reflexivity |]. split; [reflexivity |].
    cbn [file_after set_fdev private_data fdev current_subdevice
         flink_get_subdevice_by_id bus_write16 set_bus_data subdevices].
    cbn [flink_get_subdevice_by_id] in Hsd. rewrite Hsd, Hoff', Hok.
    split; [reflexivity |]. cbn [ret to_user]. split; [reflexivity |].
    f_equal. unfold bus_read16, bus_write16, set_bus_data.
    cbn [bus_ops dev_bus_data].
    rewrite Hops. unfold Axi.flink_axi_bus_ops. cbn [read16 write16].
    rewrite Hu, R16'.
    unfold u16. rewrite !Z.mod_mod by lia. reflexivity.
  - eexists. eexists. split; [reflexivity |]. split; [reflexivity |].
    cbn [file_after set_fdev private_data fdev current_subdevice
         flink_get_subdevice_by_id bus_write32 set_bus_data subdevices].
    cbn [flink_get_subdevice_by_id] in Hsd. rewrite Hsd, Hoff', Hok.
    split; [reflexivity |]. cbn [ret to_user]. split; [reflexivity |].
    f_equal. unfold bus_read32, bus_write32, set_bus_data.
    cbn [bus_ops dev_bus_data].
    rewrite Hops. unfold Axi.flink_axi_bus_ops. cbn [read32 write32].
    rewrite Hu, R32'.
    unfold u32. rewrite !Z.mod_mod by lia. reflexivity.
Qed.

(** X24, instances: a read and a write naming the unknown subdevice 7 of
    the sample device are refused with -22; with no subdevice selected,
    SELECT_AND_READ_BIT for bit 4 of the size word (48) of subdevice 1
    reads the word at 52 and answers 1. *)
Lemma select_and_commands_keep_selection_witness :
  (option_map ret
     (flink_ioctl {| pid := 1000 |}
        (session_of sample_device (Some sample_subdevice)) SELECT_AND_READ
        (container_request
           {| c_subdevice := 7; c_offset := 0; c_size := 4; c_data := 1 |}
           true)) = Some (-22)
   /\ option_map ret
        (ioctl_select_and_write
           (session_of sample_device (Some sample_subdevice))
           (container_request
              {| c_subdevice := 7; c_offset := 0; c_size := 4; c_data := 1 |}
              true)) = Some (-22))
  /\ option_map (fun o => (ret o, accesses o, to_user o))
       (ioctl_select_and_read_bit (session_of sample_device None)
          (bit_request
             {| bc_offset := 4; bc_bit := 4; bc_value := 0;
                bc_subdevice := 1 |} true))
     = Some (0, [Rd32 52],
             CopyBit {| bc_offset := 4; bc_bit := 4; bc_value := 1;
                        bc_subdevice := 1 |}).
Proof.
  split.
  - destruct (select_and_commands_keep_selection {| pid := 1000 |}
                sample_device (Some sample_subdevice)
                (container_request
                   {| c_subdevice := 7; c_offset := 0; c_size := 4;
                      c_data := 1 |} true))
      as [_ [_ [_ [_ [_ [_ [_ [Hmiss _]]]]]]]].
    assert (Hnone : flink_get_subdevice_by_id (Some sample_device)
                      (c_subdevice {| c_subdevice := 7; c_offset := 0;
                                      c_size := 4; c_data := 1 |}) = None)
      by (vm_compute; reflexivity).
    destruct (Hmiss _ eq_refl Hnone) as [Hr Hw].
    rewrite Hr, Hw. cbn [option_map returns ret]. split; reflexivity.
  - destruct (select_and_commands_keep_selection {| pid := 1000 |}
                sample_device None
                (bit_request
                   {| bc_offset := 4; bc_bit := 4; bc_value := 0;
                      bc_subdevice := 1 |} true))
      as [Hbit _].
    assert (Hsd : flink_get_subdevice_by_id (Some sample_device)
                    (bc_subdevice
                       {| bc_offset := 4; bc_bit := 4; bc_value := 0;
                          bc_subdevice := 1 |}) = Some sample_subdevice)
      by (vm_compute; reflexivity).
    assert (Hlt : u8 (bc_bit {| bc_offset := 4; bc_bit := 4; bc_value := 0;
                                bc_subdevice := 1 |}) < 32)
      by (vm_compute; reflexivity).
    destruct (Hbit _ sample_subdevice eq_refl Hsd Hlt) as [Hread _].
    rewrite Hread. vm_compute. reflexivity.
Defined.

(** X25, instance: 0x12345678 written to offset 16 of subdevice 1 of the
    sample device reads back. *)
Lemma select_and_write_then_read_witness :
  exists o1 o2,
    ioctl_select_and_write (session_of sample_device None) transfer_request
    = Some o1
    /\ ret o1 = 4
    /\ flink_ioctl {| pid := 1000 |} (file_after o1) SELECT_AND_READ
         transfer_request = Some o2
    /\ ret o2 = 4
    /\ to_user o2 = CopyData 4 305419896.
Proof.
  assert (Hdata : c_data transfer_container <> 0)
    by (vm_compute; discriminate).
  assert (Hsize : u8 (c_size transfer_container) = 4)
    by (vm_compute; reflexivity).
  assert (Hsd : flink_get_subdevice_by_id (Some sample_device)
                  (c_subdevice transfer_container) = Some sample_subdevice)
    by (vm_compute; reflexivity).
  assert (Hoff : u32 (c_offset transfer_container) <= mem_size sample_subdevice)
    by (vm_compute; discriminate).
  assert (Haddr : u32 (base_addr sample_subdevice
                       + u32 (c_offset transfer_container))
                  < Axi.size (dev_bus_data sample_device))
    by (vm_compute; reflexivity).
  destruct (select_and_write_then_read {| pid := 1000 |} sample_device None
              transfer_request transfer_container sample_subdevice
              305419896 4
              eq_refl eq_refl Hdata eq_refl eq_refl Hsize
              (or_intror (or_intror eq_refl)) Hsd Hoff Haddr)
    as [o1 [o2 [H1 [Hr1 [H2 [Hr2 Hout]]]]]].
  exists o1, o2. split; [exact H1 |]. split; [exact Hr1 |].
  split; [exact H2 |]. split; [exact Hr2 |].
  rewrite Hout. vm_compute. reflexivity.
Defined.

Section RegistryExtras.

Context {bus_data : Type}.
Implicit Types (d : flink_device bus_data) (sd : flink_subdevice).

(** X26: after the scan of a device that had no subdevice,
    READ_NOF_SUBDEVICES reports the number of subdevices found modulo 256.
    When fewer than 256 were found, READ_SUBDEVICE_INFO for an id below
    that number copies out the subdevice created with that id.  When 256
    were found the [u8] count has wrapped to 0 and READ_SUBDEVICE_INFO
    refuses every id with [-EINVAL]. *)
Theorem subdevice_info_after_scan d :
  nof_subdevices d = 0 ->
  subdevices d = [] ->
  exists fin new,
    scan_for_subdevices d = Some fin
    /\ subdevice_counter fin = Z.of_nat (length new)
    /\ subdevices (scan_fdev fin) = rev new
    /\ (forall cs (u : user_memory),
          copy_to_user_ok u = true ->
          ioctl_read_nof_subdevices (session_of (scan_fdev fin) cs) u
          = Some {| ret := 0; file_after := session_of (scan_fdev fin) cs;
                    accesses := []; klog := [];
                    to_user := CopyData 1 (u8 (Z.of_nat (length new))) |})
    /\ (Z.of_nat (length new) < 256 ->
        forall cs (u : user_memory) k,
          (k < length new)%nat ->
          arg_id u = Some (Z.of_nat k) ->
          copy_to_user_ok u = true ->
          ioctl_read_subdevice_info (session_of (scan_fdev fin) cs) u
          = Some (0, nth_error new k))
    /\ (Z.of_nat (length new) = 256 ->
        forall cs (u : user_memory),
          ioctl_read_subdevice_info (session_of (scan_fdev fin) cs) u
          = Some (- EINVAL, None)).
Proof.
  intros Hfresh Hempty.
  destruct (scan_for_subdevices_total d) as [fin Hfin].
  destruct (scan_loop_registry _ _ _ Hfin)
    as [new [Hsub [Hc [Hmax [Hids Hnof]]]]].
  { cbn. unfold MAX_NOF_SUBDEVICES. lia. }
  cbn [scan_init scan_fdev subdevice_counter] in Hsub, Hc, Hids, Hnof.
  unfold MAX_NOF_SUBDEVICES in Hmax.
  rewrite Hfresh in Hids, Hnof. rewrite Z.add_0_l in Hnof.
  rewrite Hempty, app_nil_r in Hsub.
  exists fin, new. split; [exact Hfin |]. split; [lia |].
  split; [exact Hsub |]. split; [| split].
  - intros cs u Hok. unfold ioctl_read_nof_subdevices.
    cbn [session_of private_data]. rewrite Hok, Hnof. reflexivity.
  - intros Hlt cs u k Hk Hid Hok. unfold ioctl_read_subdevice_info.
    rewrite Hid. cbn [session_of private_data].
    rewrite Hnof, (u8_small (Z.of_nat (length new))) by lia.
    rewrite (u8_small (Z.of_nat k)) by lia.
    replace (Z.of_nat (length new) <=? Z.of_nat k) with false
      by (symmetry; apply Z.leb_gt; lia).
    cbn [flink_get_subdevice_by_id]. rewrite Hsub.
    rewrite (find_rev_ids new Hids ltac:(lia) k Hk).
    destruct (nth_error new k) as [src |] eqn:E.
    + rewrite Hok. reflexivity.
    + apply nth_error_None in E. lia.
  - intros Hfull cs u. unfold ioctl_read_subdevice_info.
    destruct (arg_id u) as [id |]; [| reflexivity].
    cbn [session_of private_data]. rewrite Hnof, Hfull.
    pose proof (u8_range id) as Hr.
    replace (u8 256 <=? u8 id) with true
      by (symmetry; apply Z.leb_le; change (u8 256) with 0; lia).
    reflexivity.
Qed.

(** X27: [flink_device_add] on the device list always returns: the device
    gets the module counter, cut to a byte, as id and is scanned; the
    device that the scan leaves goes to the head of the list, the call
    returns the id and its bus accesses are those of the scan, and the
    counter goes up by one.  The scan keeps the id, the bus and the
    interrupt table.  A lookup of the returned id right afterwards finds
    the new device, also when an older device has the same id (the 257th
    device gets the id of the first); lookups of other ids give what they
    gave before. *)
Theorem device_add_then_lookup (c : @core bus_data) d :
  exists fin,
    scan_for_subdevices (set_dev_id d (dev_counter c)) = Some fin
    /\ flink_device_add_to c (Some d)
       = Some (u8 (dev_counter c),
               {| device_list := scan_fdev fin :: device_list c;
                  dev_counter := u32 (dev_counter c + 1) |},
               scan_accesses fin)
    /\ dev_id (scan_fdev fin) = u8 (dev_counter c)
    /\ bus_ops (scan_fdev fin) = bus_ops d
    /\ dev_bus_data (scan_fdev fin) = dev_bus_data d
    /\ hw_irq_data (scan_fdev fin) = hw_irq_data d
    /\ flink_get_device_by_id
         {| device_list := scan_fdev fin :: device_list c;
            dev_counter := u32 (dev_counter c + 1) |}
         (dev_counter c)
       = Some (scan_fdev fin)
    /\ (forall id', u8 id' <> u8 (dev_counter c) ->
          flink_get_device_by_id
            {| device_list := scan_fdev fin :: device_list c;
               dev_counter := u32 (dev_counter c + 1) |} id'
          = flink_get_device_by_id c id')
    /\ (dev_counter c = 256 -> u8 (dev_counter c) = 0).
Proof.
  destruct (scan_for_subdevices_total (set_dev_id d (dev_counter c)))
    as [fin Hfin].
  destruct (scan_loop_reads_only _ _ _ Hfin)
    as [_ [H1 [H2 [H3 [_ [_ [_ H7]]]]]]].
  cbn [scan_init scan_fdev set_dev_id bus_ops dev_bus_data hw_irq_data
       dev_id] in H1, H2, H3, H7.
  exists fin. split; [exact Hfin |]. split.
  { unfold flink_device_add_to, flink_device_add.
    change {| dev_id := u8 (dev_counter c);
              nof_subdevices := nof_subdevices d;
              subdevices := subdevices d; bus_ops := bus_ops d;
              dev_bus_data := dev_bus_data d; hw_irq_data := hw_irq_data d;
              nof_irqs := nof_irqs d; irq_offset := irq_offset d;
              signal_offset := signal_offset d |}
      with (set_dev_id d (dev_counter c)).
    rewrite Hfin. reflexivity. }
  split; [exact H7 |]. split; [exact H1 |]. split; [exact H2 |].
  split; [exact H3 |].
  unfold flink_get_device_by_id. cbn [device_list find].
  rewrite H7. rewrite Z.eqb_refl.
  split; [reflexivity |]. split.
  - intros id' Hne.
    replace (u8 (dev_counter c) =? u8 id') with false
      by (symmetry; apply Z.eqb_neq; congruence).
    reflexivity.
  - intros H. rewrite H. reflexivity.
Qed.

End RegistryExtras.

(** X26, instances: descriptor 1 of the scanned sample region is the
    second subdevice created; the scan of a region with 256 headers
    leaves a count of 0, and id 0 is refused. *)
Lemma subdevice_info_after_scan_witness :
  (exists fin new,
     scan_for_subdevices sample_probe = Some fin
     /\ ioctl_read_subdevice_info (session_of (scan_fdev fin) None)
          (id_request 1) = Some (0, nth_error new 1)
     /\ length new = 2%nat)
  /\ (exists fin,
        scan_for_subdevices full_probe = Some fin
        /\ subdevice_counter fin = 256
        /\ ioctl_read_subdevice_info (session_of (scan_fdev fin) None)
             (id_request 0) = Some (-22, None)).
Proof.
  split.
  - assert (Hfresh : nof_subdevices sample_probe = 0)
      by (vm_compute; reflexivity).
    assert (Hempty : subdevices sample_probe = [])
      by (vm_compute; reflexivity).
    destruct (subdevice_info_after_scan sample_probe Hfresh Hempty)
      as [fin [new [Hfin [Hc [_ [_ [Hinfo _]]]]]]].
    assert (Hview : option_map subdevice_counter
                      (scan_for_subdevices sample_probe) = Some 2)
      by (vm_compute; reflexivity).
    rewrite Hfin in Hview. cbn [option_map] in Hview. injection Hview as Hn.
    assert (Hlen : length new = 2%nat) by lia.
    exists fin, new. split; [exact Hfin |]. split; [| exact Hlen].
    apply (Hinfo ltac:(lia) None (id_request 1) 1%nat);
      [lia | reflexivity | reflexivity].
  - assert (Hfresh : nof_subdevices full_probe = 0)
      by (vm_compute; reflexivity).
    assert (Hempty : subdevices full_probe = [])
      by (vm_compute; reflexivity).
    destruct (subdevice_info_after_scan full_probe Hfresh Hempty)
      as [fin [new [Hfin [Hc [_ [_ [_ Hfull]]]]]]].
    assert (Hview : option_map subdevice_counter
                      (scan_for_subdevices full_probe) = Some 256)
      by (vm_compute; reflexivity).
    rewrite Hfin in Hview. cbn [option_map] in Hview. injection Hview as Hn.
    exists fin. split; [exact Hfin |]. split; [exact Hn |].
    apply (Hfull ltac:(lia) None (id_request 0)).
Defined.
